(** * Training planner: the adaptive workout-plan engine of [script.js]

    A shallow embedding of the Training Planner PWA: the exercise catalog
    ([getDayTemplate]), the equipment adapter
    ([adaptExerciseForEquipment]), the plan generator ([createPlan]), the
    completion tracker ([updateDayCompletion], [calculateDayCompletion]),
    the cycle adapter ([determineNextDifficulty]), the current-plan lookup
    ([getCurrentPlan]), the screens and dialogs that call them, and the
    service worker.

    Conventions of the model.
    - A JavaScript number is a rational ([Q]) or [NaN]; the two infinities
      are outside the model.  Amounts (targets, completed values) and the
      ratio of a day are exact.  Where the source adds up thirty ratios and
      compares their average with a threshold ([determineNextDifficulty]),
      every operation is rounded to binary64 as the language does
      ([JS.binary64]): there the rounding decides the result.  Equality of
      numbers is [Qeq] ([==]).
    - A [Date] object is the number of milliseconds since the epoch ([Z]).
      An ISO date string [YYYY-MM-DD] (what [toISOString().substring(0, 10)]
      yields and what [new Date(string)] parses as UTC midnight) is the
      number of the day since the epoch.  The methods that work in local
      time ([getDate], [setDate], [setHours], [getDay]) go through the time
      zone of the host, ECMAScript's [LocalTZA]; the offset may change with
      the instant (daylight saving).
    - A JavaScript array is a [list]; an object used as a map from
      equipment tags to booleans is a [gmap string bool], and reading a
      property that the object does not have itself finds the members of
      [Object.prototype].
    - [updateDayCompletion(user, plan, ...)] receives a reference to one of
      the plans of [user.plans]; the reference is the index of the plan in
      the history, so that the in-place mutation of the plan is visible
      through the user, as it is in the source. *)

From Stdlib Require Import ZArith QArith Qround Qminmax Qpower Lia Lqa Ascii.
From stdpp Require Import base option list strings gmap.

Local Open Scope Q_scope.

(** ** JavaScript values and numbers *)

Module JS.

(** A number: [NaN] or a rational. *)
Inductive number : Type :=
| NaN
| Num (q : Q).

(** What a slot of an array can hold: a hole reads as [undefined]; the
    other values are [null], numbers, strings and booleans.  Objects and
    arrays as entries are outside the model. *)
Inductive value : Type :=
| Undefined
| Null
| Number (n : number)
| Text (s : string)
| Boolean (b : bool).

Definition Qltb (a b : Q) : bool := negb (Qle_bool b a).

(** Truthiness of a number: [0] and [NaN] are falsy. *)
Definition truthyN (n : number) : bool :=
  match n with
  | NaN => false
  | Num q => negb (Qeq_bool q 0)
  end.

(** Truthiness of a value: of the strings only the empty one is falsy. *)
Definition truthy (v : value) : bool :=
  match v with
  | Undefined => false
  | Null => false
  | Number n => truthyN n
  | Text EmptyString => false
  | Text _ => true
  | Boolean b => b
  end.

(** [v || d] *)
Definition or (v d : value) : value := if truthy v then v else d.

(** [q || d] on numbers that are not [NaN]. *)
Definition orQ (q d : Q) : Q := if Qeq_bool q 0 then d else q.

(** [n || d] where [n] may be [NaN] and [d] is a plain number. *)
Definition orN (n : number) (d : Q) : Q :=
  match n with
  | NaN => d
  | Num q => orQ q d
  end.

(** [Number(v)]; [StringToNumber] is the conversion of the language for
    strings. *)
Definition ToNumber (StringToNumber : string -> number) (v : value) : number :=
  match v with
  | Undefined => NaN
  | Null => Num 0
  | Number n => n
  | Text s => StringToNumber s
  | Boolean b => Num (if b then 1 else 0)
  end.

(** [Math.max(a, b)]: [NaN] as soon as an argument is. *)
Definition Math_max (a b : number) : number :=
  match a, b with
  | Num x, Num y => Num (Qmax x y)
  | _, _ => NaN
  end.

(** [a - b] *)
Definition sub (a b : number) : number :=
  match a, b with
  | Num x, Num y => Num (x - y)
  | _, _ => NaN
  end.

(** [a > 0]: false on [NaN]. *)
Definition gt0 (a : number) : bool :=
  match a with
  | NaN => false
  | Num x => Qltb 0 x
  end.

(** [Math.round(x)]: the nearest integer, halves towards +infinity. *)
Definition Math_round (x : Q) : Z := Qfloor (x + (1 # 2)).

(** [a[i]] on an array of values. *)
Definition index (a : list value) (i : nat) : value :=
  match a !! i with
  | Some v => v
  | None => Undefined
  end.

(** *** Rounding to binary64

    The result of an arithmetic operation of the language is the binary64
    number nearest to the exact result, ties going to the even
    significand.  A positive [q] with [2^e <= q < 2^(e+1)] is rounded to a
    multiple of [2^(e-52)], and of [2^(-1074)] in the subnormal range.
    Overflow to an infinity is outside the model. *)

(** The integer [e] with [2^e <= q < 2^(e+1)], for a positive [q]. *)
Definition ilog2 (q : Q) : Z :=
  let e := (Z.log2 (Qnum q) - Z.log2 (Zpos (Qden q)))%Z in
  if Qle_bool (2 ^ e) q then e else (e - 1)%Z.

(** The integer nearest to [x], a tie going to the even one. *)
Definition roundTiesToEven (x : Q) : Z :=
  let f := Qfloor x in
  match Qcompare (x - inject_Z f) (1 # 2) with
  | Lt => f
  | Gt => (f + 1)%Z
  | Eq => if Z.even f then f else (f + 1)%Z
  end.

(** The exponent of the unit in the last place of [q]. *)
Definition ulpExponent (q : Q) : Z := Z.max (ilog2 q - 52) (-1074).

Definition roundPositive (q : Q) : Q :=
  let e := ulpExponent q in
  Qred (inject_Z (roundTiesToEven (q / 2 ^ e)) * 2 ^ e).

Definition binary64 (q : Q) : Q :=
  match Qnum q with
  | Z0 => 0
  | Zpos _ => roundPositive q
  | Zneg _ => - roundPositive (- q)
  end.

End JS.

(** ** The host of the script

    What the script takes from the browser and from the language, and
    that its source does not define: the time zone, as the operation
    [LocalTZA(t, isUTC)] of ECMAScript (the offset of local time from UTC
    in milliseconds, at the UTC instant [t] when [isUTC] holds and at the
    local time value [t] otherwise), and the conversion [Number(s)] of a
    string. *)

Class Host : Type := mkHost {
  LocalTZA : Z -> bool -> Z;
  StringToNumber : string -> JS.number
}.

(** ** Dates *)

Definition msPerDay : Z := 86400000.

(** [new Date(isoDate)]: UTC midnight of the day. *)
Definition Date_parse (isoDay : Z) : Z := (isoDay * msPerDay)%Z.

(** [date.toISOString().substring(0, 10)] *)
Definition toISODate (date : Z) : Z := (date / msPerDay)%Z.

Section LocalDates.

Context {host : Host}.

(** The abstract operations [LocalTime(t)] and [UTC(t)] of ECMAScript. *)
Definition LocalTime (t : Z) : Z := (t + LocalTZA t true)%Z.

Definition UTC (t : Z) : Z := (t - LocalTZA t false)%Z.

(** [date.setDate(date.getDate() + n)]: the local time value moves by [n]
    days and is read back as an instant. *)
Definition addDays (date : Z) (n : Z) : Z :=
  UTC (LocalTime date + n * msPerDay).

End LocalDates.

(** ** Data model *)

Inductive Unit : Type := Reps | Sec | Min | Rest.

Global Instance Unit_eq_dec : EqDecision Unit.
Proof. solve_decision. Defined.

(** An entry of the catalog, and the [cloned] object of [createPlan]. *)
Record Template : Type := mkTemplate {
  t_name : string;
  t_target : Q;
  t_unit : Unit;
  t_description : string;
  t_equipment : option (list string)
}.

(** An exercise of a plan.  A carry-over exercise has no [equipment]. *)
Record Exercise : Type := mkExercise {
  ex_name : string;
  ex_target : Q;
  ex_unit : Unit;
  ex_description : string;
  ex_equipment : option (list string);
  ex_completed : JS.number
}.

Record Day : Type := mkDay {
  exercises : list Exercise;
  feedback : string;
  completion : Q
}.

Record Plan : Type := mkPlan {
  startDate : Z;
  endDate : Z;
  days : list Day;
  difficulty : Q
}.

Record Preferences : Type := mkPreferences {
  pref_difficulty : Q;
  pref_equipment : gmap string bool
}.

Record User : Type := mkUser {
  password : string;
  plans : list Plan;
  preferences : option Preferences
}.

(** ** The exercise catalog *)

Definition T (n : string) (t : Z) (u : Unit) (d : string)
    (e : option (list string)) : Template :=
  mkTemplate n (inject_Z t) u d e.

Definition getDayTemplate (dayIndex : nat) : list Template :=
  match dayIndex with
  | 0%nat =>
    [ T "Genuflexiuni cu gantere" 30 Reps "3 seturi a 10 genuflexiuni cu gantere." (Some ["gantere"]);
      T "Flotări clasice" 40 Reps "4 seturi de flotări standard." (Some []);
      T "Shoulder press cu gantere" 24 Reps "3 seturi a 8 ridicări deasupra capului." (Some ["gantere"]);
      T "Flotări diamante" 20 Reps "2 seturi a 10 flotări cu palmele apropiate." (Some []);
      T "Plank" 60 Sec "3 planșe de câte 20 de secunde." (Some []) ]
  | 1%nat =>
    [ T "Tracțiuni asistate" 15 Reps "Folosind o bandă elastică, efectuează 3 seturi a 5 tracțiuni." (Some ["banda"]);
      T "Tracțiuni negative" 10 Reps "Sari la bară și coboară lent, 2-3 secunde pe repetare." (Some []);
      T "Ramat cu gantera" 30 Reps "3 seturi a 10 pentru fiecare braț." (Some ["gantere"]);
      T "Biceps curls" 30 Reps "3 seturi a 10 flexii cu gantere." (Some ["gantere"]);
      T "Plank lateral" 60 Sec "2 seturi, 30 de secunde pe fiecare parte." (Some []) ]
  | 2%nat =>
    [ T "Mers înclinat" 30 Min "30 de minute de mers alert pe bandă înclinată sau în aer liber." (Some []);
      T "Stretching" 10 Min "10 minute de stretching și mobilitate." (Some []) ]
  | 3%nat =>
    [ T "Fandări" 40 Reps "20 pe fiecare picior, 2 seturi." (Some []);
      T "Flotări declinate" 30 Reps "3 seturi a 10 flotări cu picioarele ridicate." (Some []);
      T "Flotări la spalier" 24 Reps "2 seturi a 12 flotări la spalier sau perete." (Some []);
      T "Extensii triceps" 30 Reps "3 seturi a 10 extensii cu gantera sau bandă." (Some ["gantere"; "banda"]);
      T "Abdomene mixte" 30 Reps "Combinații de crunch-uri și ridicări de picioare." (Some []) ]
  | 4%nat =>
    [ T "Tracțiuni negative" 10 Reps "Încetinește coborârea cât poți." (Some []);
      T "Tracțiuni asistate" 15 Reps "Bandă elastică cu rezistență medie, 3 seturi." (Some ["banda"]);
      T "Ramat inversat" 30 Reps "3 seturi a 10 la spalier sau bară joasă." (Some []);
      T "Hammer curls" 24 Reps "2 seturi a 12 cu gantere." (Some ["gantere"]);
      T "Ridicări genunchi atârnat" 20 Reps "3 seturi a 5-8 ridicări de genunchi." (Some []) ]
  | 5%nat =>
    [ T "Alergare + mers" 30 Min "20 minute alergare ușoară, 10 minute mers." (Some []);
      T "Stretching" 15 Min "Stretching amplu pentru tot corpul." (Some []) ]
  | 6%nat =>
    [ T "Odihnă completă" 1 Rest "Relaxează-te, hidratează-te și pregătește-te pentru săptămâna următoare." None ]
  | _ => []
  end.

(** ** Equipment adapter *)

Definition adaptedMarker : string := " (adaptat)".
Definition adaptedNote : string := " (adaptat pentru lipsa echipamentului)".

(** The properties every object inherits from [Object.prototype]: reading
    [object[name]] finds them when the object has no property of its own
    with that name.  All of them are truthy (functions, and the prototype
    itself for [__proto__]). *)
Definition inheritedKeys : list string :=
  ["constructor"; "hasOwnProperty"; "isPrototypeOf"; "propertyIsEnumerable";
   "toLocaleString"; "toString"; "valueOf"; "__proto__";
   "__defineGetter__"; "__defineSetter__"; "__lookupGetter__";
   "__lookupSetter__"].

(** [equipmentPrefs[eq]] is truthy. *)
Definition hasEquipment (equipmentPrefs : gmap string bool) (eq : string) : bool :=
  match equipmentPrefs !! eq with
  | Some b => b
  | None => bool_decide (eq ∈ inheritedKeys)
  end.

(** The [forEach] that clears [allAvailable] at each missing tag. *)
Definition allAvailable (equipment : list string)
    (equipmentPrefs : gmap string bool) : bool :=
  fold_left
    (fun all eq => if negb (hasEquipment equipmentPrefs eq) then false else all)
    equipment true.

(** [description || ''] *)
Definition orEmpty (s : string) : string :=
  match s with
  | EmptyString => EmptyString
  | _ => s
  end.

(** The object built by [Object.assign({}, exercise)] and its three
    overwritten fields. *)
Definition adapted (exercise : Template) : Template :=
  {| t_name := t_name exercise +:+ adaptedMarker;
     t_target :=
       Qmax 1 (inject_Z (JS.Math_round (t_target exercise * (1 # 2))));
     t_unit := t_unit exercise;
     t_description := orEmpty (t_description exercise) +:+ adaptedNote;
     t_equipment := t_equipment exercise |}.

(** Whether [adaptExerciseForEquipment] returns its argument. *)
Definition keepsExercise (exercise : Template)
    (equipmentPrefs : gmap string bool) : bool :=
  match t_equipment exercise with
  | None => true
  | Some [] => true
  | Some equipment => allAvailable equipment equipmentPrefs
  end.

Definition adaptExerciseForEquipment (exercise : Template)
    (equipmentPrefs : gmap string bool) : Template :=
  if keepsExercise exercise equipmentPrefs then exercise else adapted exercise.

(** The same function on a store of objects: the argument and the result
    are references (positions in the store).  The unchanged case returns
    the reference it received; the other case allocates the adapted copy
    and leaves the argument's object alone.  A dangling reference is the
    source's [!exercise] case, which returns its argument. *)
Definition adaptExerciseForEquipment_ref (heap : list Template) (exercise : nat)
    (equipmentPrefs : gmap string bool) : list Template * nat :=
  match heap !! exercise with
  | None => (heap, exercise)
  | Some obj =>
    if keepsExercise obj equipmentPrefs then (heap, exercise)
    else (heap ++ [adapted obj], length heap)
  end.

(** ** Plan generator *)

Section Engine.

Context {host : Host}.

Definition cycleLength : nat := 30.

(** The body of the [map] callback of [createPlan]. *)
Definition planExercise (difficulty : Q) (preferences : option Preferences)
    (ex : Template) : Exercise :=
  let cloned :=
    match preferences with
    | Some p => adaptExerciseForEquipment ex (pref_equipment p)
    | None => ex
    end in
  let newTarget :=
    if negb (bool_decide (t_unit cloned = Rest)) && JS.Qltb 0 (t_target cloned)
    then Qmax 1 (inject_Z (JS.Math_round (t_target cloned * difficulty)))
    else t_target cloned in
  {| ex_name := t_name cloned;
     ex_target := newTarget;
     ex_unit := t_unit cloned;
     ex_description := t_description cloned;
     ex_equipment := t_equipment cloned;
     ex_completed := JS.Num 0 |}.

Definition planDay (difficulty : Q) (preferences : option Preferences)
    (i : nat) : Day :=
  {| exercises :=
       map (planExercise difficulty preferences) (getDayTemplate (i mod 7));
     feedback := "";
     completion := 0 |}.

Definition createPlan (startDate : Z) (difficulty : Q)
    (preferences : option Preferences) : Plan :=
  {| startDate := toISODate startDate;
     endDate := toISODate (addDays startDate 29);
     days := map (planDay difficulty preferences) (seq 0 cycleLength);
     difficulty := difficulty |}.

(** ** Completion ratio *)

(** One round of the [forEach] of [calculateDayCompletion] on the pair
    [(total, done)]. *)
Definition addExercise (acc : Q * Q) (ex : Exercise) : Q * Q :=
  let '(total, done) := acc in
  match ex_unit ex with
  | Rest =>
    (total + 1,
     done + (if JS.truthyN (ex_completed ex) && JS.gt0 (ex_completed ex)
             then 1 else 0))
  | _ =>
    (total + ex_target ex,
     done + Qmin (JS.orN (ex_completed ex) 0) (ex_target ex))
  end.

Definition totals (exs : list Exercise) : Q * Q := fold_left addExercise exs (0, 0).

Definition calculateDayCompletion (day : Day) : Q :=
  match exercises day with
  | [] => 0
  | exs =>
    let '(total, done) := totals exs in
    if Qeq_bool total 0 then 0 else done / total
  end.

(** ** Cycle adapter *)

(** [sum / plan.days.length]; [0 / 0] is [NaN].  Each ratio is the
    binary64 number the division of [calculateDayCompletion] returns, and
    the additions and the final division round in turn. *)
Definition averageCompletion (plan : Plan) : JS.number :=
  let sum :=
    fold_left
      (fun s d => JS.binary64 (s + JS.binary64 (calculateDayCompletion d)))
      (days plan) 0 in
  match days plan with
  | [] => JS.NaN
  | _ => JS.Num (JS.binary64 (sum / inject_Z (Z.of_nat (length (days plan)))))
  end.

(** The two comparisons of [determineNextDifficulty], false on [NaN]; the
    literals [0.8] and [0.5] are binary64 numbers. *)
Definition nextDifficultyOf (avg : JS.number) : Q :=
  match avg with
  | JS.NaN => 1
  | JS.Num a =>
    if Qle_bool (JS.binary64 (8 # 10)) a then 11 # 10
    else if JS.Qltb a (JS.binary64 (5 # 10)) then 8 # 10
    else 1
  end.

Definition determineNextDifficulty (plan : Plan) : Q :=
  nextDifficultyOf (averageCompletion plan).

(** ** Current plan *)

(** [getCurrentPlan(user)], with the clock ([new Date()]) as an argument. *)
Definition getCurrentPlan (user : User) (today : Z) : option Plan :=
  match last (plans user) with
  | None => None
  | Some plan =>
    if (Date_parse (endDate plan) <? today)%Z then None else Some plan
  end.

(** ** Completion tracker *)

Definition recoveryMarker : string := " (recuperare)".
Definition recoveryNote : string := "Recuperează seturile nefinalizate de ".

(** The exercise pushed on [carryOver] for [ex] with unmet volume
    [remaining]. *)
Definition carryOverOf (ex : Exercise) (remaining : Q) : Exercise :=
  {| ex_name := ex_name ex +:+ recoveryMarker;
     ex_target := remaining;
     ex_unit := ex_unit ex;
     ex_description := recoveryNote +:+ ex_name ex;
     ex_equipment := None;
     ex_completed := JS.Num 0 |}.

(** [Math.max(0, Number(completedArray[idx] || 0))] *)
Definition completedOf (completedArray : list JS.value) (idx : nat) : JS.number :=
  JS.Math_max (JS.Num 0)
    (JS.ToNumber StringToNumber
       (JS.or (JS.index completedArray idx) (JS.Number (JS.Num 0)))).

(** [(ex.target || 0) - completed] *)
Definition remainingOf (ex : Exercise) (completed : JS.number) : JS.number :=
  JS.sub (JS.Num (JS.orQ (ex_target ex) 0)) completed.

(** The body of the [forEach] callback of [updateDayCompletion]: the
    mutated exercise and what the round pushes on [carryOver]. *)
Definition recordExercise (completedArray : list JS.value) (idx : nat)
    (ex : Exercise) : Exercise * list Exercise :=
  let completed := completedOf completedArray idx in
  let ex' :=
    {| ex_name := ex_name ex;
       ex_target := ex_target ex;
       ex_unit := ex_unit ex;
       ex_description := ex_description ex;
       ex_equipment := ex_equipment ex;
       ex_completed := completed |} in
  match remainingOf ex completed with
  | JS.Num remaining =>
    if JS.Qltb 0 remaining then (ex', [carryOverOf ex remaining]) else (ex', [])
  | JS.NaN => (ex', [])
  end.

(** The [forEach] itself, from position [idx] on. *)
Fixpoint recordExercises (completedArray : list JS.value) (idx : nat)
    (exs : list Exercise) : list Exercise * list Exercise :=
  match exs with
  | [] => ([], [])
  | ex :: rest =>
    let '(ex', pushed) := recordExercise completedArray idx ex in
    let '(rest', carryOver) := recordExercises completedArray (S idx) rest in
    (ex' :: rest', pushed ++ carryOver)
  end.

Definition defaultPreferences : Preferences :=
  {| pref_difficulty := 1; pref_equipment := ∅ |}.

(** [user.preferences || { difficulty: 1.0, equipment: {} }] *)
Definition prefsOf (user : User) : Preferences :=
  match preferences user with
  | Some p => p
  | None => defaultPreferences
  end.

(** [prefs.difficulty || 1.0] *)
Definition baselineDifficulty (user : User) : Q :=
  JS.orQ (pref_difficulty (prefsOf user)) 1.

(** The plan pushed when the last day of [plan] has been recorded; [plan]
    is the plan after the mutation of its day. *)
Definition nextPlan (user : User) (plan : Plan) : Plan :=
  let difficultyFactor := determineNextDifficulty plan in
  let nextStartDate := addDays (Date_parse (endDate plan)) 1 in
  let prefs := prefsOf user in
  let combinedDifficulty := baselineDifficulty user * difficultyFactor in
  createPlan nextStartDate combinedDifficulty (Some prefs).

Definition withExercises (day : Day) (exs : list Exercise) : Day :=
  {| exercises := exs; feedback := feedback day; completion := completion day |}.

Definition withDays (plan : Plan) (ds : list Day) : Plan :=
  {| startDate := startDate plan; endDate := endDate plan; days := ds;
     difficulty := difficulty plan |}.

(** The mutations of [updateDayCompletion] on the plan, in the order of
    the source; [None] is the [TypeError] of [day.feedback = ...] when
    [plan.days[dayIndex]] is [undefined]. *)
Definition recordDay (plan : Plan) (dayIndex : nat)
    (completedArray : list JS.value) (fb : string) : option Plan :=
  day ← days plan !! dayIndex;
  let '(exs, carryOver) := recordExercises completedArray 0 (exercises day) in
  let day1 := {| exercises := exs; feedback := fb; completion := completion day |} in
  let days1 := <[dayIndex := day1]> (days plan) in
  let days2 :=
    if bool_decide (0 < length carryOver)%nat
       && bool_decide (dayIndex < length (days plan) - 1)%nat
    then alter (fun next => withExercises next (exercises next ++ carryOver))
           (dayIndex + 1)%nat days1
    else days1 in
  let day2 :=
    {| exercises := exs; feedback := fb;
       completion := calculateDayCompletion day1 |} in
  Some (withDays plan (<[dayIndex := day2]> days2)).

(** [updateDayCompletion(user, plan, dayIndex, completedArray, feedback)]
    where [plan] is [user.plans[planRef]]. *)
Definition updateDayCompletion (user : User) (planRef dayIndex : nat)
    (completedArray : list JS.value) (fb : string) : option User :=
  plan ← plans user !! planRef;
  plan' ← recordDay plan dayIndex completedArray fb;
  let plans1 := <[planRef := plan']> (plans user) in
  let plans2 :=
    if bool_decide (length (days plan') - 1 <= dayIndex)%nat
    then plans1 ++ [nextPlan user plan']
    else plans1 in
  Some {| password := password user; plans := plans2;
          preferences := preferences user |}.

End Engine.

(** ** Hosts of the examples *)

(** The conversion of the example hosts: [Number(s)] on decimal text, that
    is white space, an optional sign, digits with an optional fraction and
    an optional exponent.  The empty text is 0 and text of another form is
    [NaN]; the hexadecimal, octal and binary literals of the language and
    [Infinity] do not occur in the examples. *)

Definition isSpace (a : ascii) : bool :=
  bool_decide (nat_of_ascii a ∈ [9; 10; 11; 12; 13; 32]%nat).

Definition digitOf (a : ascii) : option Z :=
  let n := Z.of_nat (nat_of_ascii a) in
  if (48 <=? n)%Z && (n <=? 57)%Z then Some (n - 48)%Z else None.

Fixpoint digitsFrom (acc : Z) (l : list ascii) : option Z :=
  match l with
  | [] => Some acc
  | a :: rest => d ← digitOf a; digitsFrom (10 * acc + d) rest
  end.

Fixpoint dropSpaces (l : list ascii) : list ascii :=
  match l with
  | [] => []
  | a :: rest => if isSpace a then dropSpaces rest else l
  end.

Definition trimSpaces (l : list ascii) : list ascii :=
  rev (dropSpaces (rev (dropSpaces l))).

(** The part of [l] before the first character among [seps], and the part
    after it when there is one. *)
Fixpoint splitAt (seps l : list ascii) : list ascii * option (list ascii) :=
  match l with
  | [] => ([], None)
  | a :: rest =>
    if bool_decide (a ∈ seps) then ([], Some rest)
    else let '(before, after) := splitAt seps rest in (a :: before, after)
  end.

Definition signed (l : list ascii) : Z * list ascii :=
  match l with
  | "+"%char :: rest => (1%Z, rest)
  | "-"%char :: rest => ((-1)%Z, rest)
  | _ => (1%Z, l)
  end.

Definition exponentOf (exponent : option (list ascii)) : option Z :=
  match exponent with
  | None => Some 0%Z
  | Some l =>
    let '(sign, ds) := signed l in
    match ds with
    | [] => None
    | _ => z ← digitsFrom 0 ds; Some (sign * z)%Z
    end
  end.

Definition parseNumber (s : string) : JS.number :=
  match trimSpaces (String.list_ascii_of_string s) with
  | [] => JS.Num 0
  | l =>
    let '(sign, body) := signed l in
    let '(mantissa, exponent) := splitAt ["e"; "E"]%char body in
    let '(whole, fraction) := splitAt ["."]%char mantissa in
    let fraction := default [] fraction in
    match whole ++ fraction with
    | [] => JS.NaN
    | _ =>
      match digitsFrom 0 whole, digitsFrom 0 fraction, exponentOf exponent with
      | Some w, Some f, Some e =>
        JS.Num (inject_Z sign
                * (inject_Z w + inject_Z f / 10 ^ Z.of_nat (length fraction))
                * 10 ^ e)
      | _, _, _ => JS.NaN
      end
    end
  end.

Definition hour : Z := 3600000.

(** A zone [std] ahead of UTC, and one hour more from the instant [from]
    to the instant [to].  A local time value is read with the offset in
    force before a change when the change skips or repeats it, as
    ECMAScript prescribes. *)
Definition seasonalOffset (std from to : Z) (t : Z) (isUTC : bool) : Z :=
  let t' := if isUTC then t else (t - (std + hour))%Z in
  if (from <=? t')%Z && (t' <? to)%Z then (std + hour)%Z else std.

(** A host on UTC. *)
#[global] Instance utcHost : Host :=
  {| LocalTZA := fun _ _ => 0%Z; StringToNumber := parseNumber |}.

(** Europe/Bucharest by its rules for 2024: two hours ahead of UTC, three
    from 2024-03-31 01:00 UTC (day 19813) to 2024-10-27 01:00 UTC (day
    20023). *)
Definition bucharest2024 : Host :=
  {| LocalTZA :=
       seasonalOffset (2 * hour) (19813 * msPerDay + hour)
         (20023 * msPerDay + hour);
     StringToNumber := parseNumber |}.

(** America/New_York by its rules for 2024: five hours behind UTC, four
    from 2024-03-10 07:00 UTC (day 19792) to 2024-11-03 06:00 UTC (day
    20030). *)
Definition newYork2024 : Host :=
  {| LocalTZA :=
       seasonalOffset (- (5 * hour)) (19792 * msPerDay + 7 * hour)
         (20030 * msPerDay + 6 * hour);
     StringToNumber := parseNumber |}.

(** ** Sample data *)

(** The offset of local time from UTC is [tz] at every instant: a zone
    without daylight saving. *)
Definition constantOffset {host : Host} (tz : Z) : Prop :=
  forall t isUTC, LocalTZA t isUTC = tz.


Definition fullEquipment : gmap string bool :=
  <["gantere" := true]> (<["banda" := true]> (<["vesta" := true]> ∅)).

Definition fullPreferences : Preferences :=
  {| pref_difficulty := 1; pref_equipment := fullEquipment |}.

(** 2024-01-01 is day 19723 of the epoch. *)
Definition jan1_2024 : Z := 19723.

(** A plan generated on UTC at the first instant of 2024. *)
Definition samplePlan : Plan :=
  createPlan (host := utcHost) (Date_parse jan1_2024) 1 (Some fullPreferences).

Definition sampleUser : User :=
  {| password := "pw"; plans := [samplePlan];
     preferences := Some fullPreferences |}.

Definition num (z : Z) : JS.value := JS.Number (JS.Num (inject_Z z)).

(** A plan generated in Bucharest on 2024-03-02 (day 19784) at noon local
    time, and its user. *)
Definition springPlan : Plan :=
  createPlan (host := bucharest2024) (Date_parse 19784 + 10 * hour) 1
    (Some fullPreferences).

Definition springUser : User :=
  {| password := "pw"; plans := [springPlan];
     preferences := Some fullPreferences |}.

(** The user after the last day of that plan was skipped, in
    Bucharest. *)
Definition springRecorded : User :=
  default springUser
    (updateDayCompletion (host := bucharest2024) springUser 0 29 [] "N/A").

(** A plan generated in New York on 2024-03-01 at 19:30 local time, which
    is 2024-03-02 00:30 UTC. *)
Definition eveningPlan : Plan :=
  createPlan (host := newYork2024) (Date_parse 19784 + 1800000) 1
    (Some fullPreferences).

(** ** Notions used in the statements *)

Definition Qsum (l : list Q) : Q := fold_right Qplus 0 l.

Definition isInteger (q : Q) : Prop := q == inject_Z (Qfloor q).

(** A valid exercise: a non-negative integer target and a non-negative
    completed value. *)
Definition validExercise (ex : Exercise) : Prop :=
  isInteger (ex_target ex) /\ 0 <= ex_target ex /\
  exists c, ex_completed ex = JS.Num c /\ 0 <= c.

Definition validDay (day : Day) : Prop := Forall validExercise (exercises day).

(** The contributions of an exercise in the words of the specification. *)
Definition totalContribution (ex : Exercise) : Q :=
  match ex_unit ex with
  | Rest => 1
  | _ => ex_target ex
  end.

Definition doneContribution (ex : Exercise) : Q :=
  match ex_completed ex with
  | JS.NaN => 0
  | JS.Num c =>
    match ex_unit ex with
    | Rest => if JS.Qltb 0 c then 1 else 0
    | _ => Qmin c (ex_target ex)
    end
  end.

Definition totalOfDay (day : Day) : Q := Qsum (map totalContribution (exercises day)).
Definition doneOfDay (day : Day) : Q := Qsum (map doneContribution (exercises day)).

(** Every exercise done: the target reached, a rest taken. *)
Definition exerciseDone (ex : Exercise) : Prop :=
  exists c, ex_completed ex = JS.Num c /\
    match ex_unit ex with
    | Rest => 0 < c
    | _ => ex_target ex <= c
    end.

Definition fullyCompleted (day : Day) : Prop := Forall exerciseDone (exercises day).

(** A day whose single exercise has target 0. *)
Definition zeroTargetDay : Day :=
  {| exercises := [mkExercise "Stretching" 0 Min "" (Some []) (JS.Num 0)];
     feedback := ""; completion := 0 |}.

(** A day with a partly done exercise and a rest taken. *)
Definition partialDay : Day :=
  {| exercises :=
       [mkExercise "Genuflexiuni cu gantere" 30 Reps "" (Some ["gantere"]) (JS.Num 20);
        mkExercise "Odihnă completă" 1 Rest "" None (JS.Num 1)];
     feedback := ""; completion := 0 |}.


(** A day with one exercise of target 10 on which [done] was completed. *)
Definition dayDone (done : Z) : Day :=
  {| exercises :=
       [mkExercise "Plank" 10 Sec "" (Some []) (JS.Num (inject_Z done))];
     feedback := ""; completion := 0 |}.

(** A plan of 30 such days. *)
Definition uniformPlan (done : Z) : Plan :=
  {| startDate := jan1_2024; endDate := (jan1_2024 + 29)%Z;
     days := replicate 30 (dayDone done);
     difficulty := 1 |}.

(** A plan of 15 days with [first] of 10 done, then 15 days with [second]
    of 10. *)
Definition twoPhasePlan (first second : Z) : Plan :=
  {| startDate := jan1_2024; endDate := (jan1_2024 + 29)%Z;
     days := replicate 15 (dayDone first) ++ replicate 15 (dayDone second);
     difficulty := 1 |}.


(** The exercise requires no equipment, or every required tag is
    available. *)
Definition equipmentAvailable (exercise : Template)
    (equipmentPrefs : gmap string bool) : Prop :=
  match t_equipment exercise with
  | None => True
  | Some equipment =>
    forall eq, eq ∈ equipment -> equipmentPrefs !! eq = Some true
  end.

(** No required tag is the name of a member of [Object.prototype]. *)
Definition ordinaryTags (exercise : Template) : Prop :=
  match t_equipment exercise with
  | None => True
  | Some equipment => forall eq, eq ∈ equipment -> eq ∉ inheritedKeys
  end.

(** An exercise whose required tag is the name of a member of
    [Object.prototype]. *)
Definition needsConstructor : Template :=
  mkTemplate "Sărituri" 10 Reps "2 seturi a 5 sărituri." (Some ["constructor"]).

(** Exercises that need dumbbells: of unit [rest] with target 2, and of
    target 0. *)
Definition restWithDumbbells : Template :=
  mkTemplate "Odihnă activă" 2 Rest "Plimbare." (Some ["gantere"]).

Definition zeroWithDumbbells : Template :=
  mkTemplate "Ramat cu gantera" 0 Reps "La alegere." (Some ["gantere"]).

Definition squats : Template :=
  mkTemplate "Genuflexiuni cu gantere" 30 Reps
    "3 seturi a 10 genuflexiuni cu gantere." (Some ["gantere"]).

Definition noDumbbells : gmap string bool :=
  <["gantere" := false]> (<["banda" := true]> ∅).

(** The recorded day: the exercises with their completed values, the
    feedback, and the ratio of these exercises. *)
Definition recordedDay (exs : list Exercise) (fb : string) : Day :=
  {| exercises := exs; feedback := fb;
     completion :=
       calculateDayCompletion
         {| exercises := exs; feedback := fb; completion := 0 |} |}.

(** The exercise with another completed value. *)
Definition setCompleted (ex : Exercise) (c : JS.number) : Exercise :=
  {| ex_name := ex_name ex; ex_target := ex_target ex; ex_unit := ex_unit ex;
     ex_description := ex_description ex; ex_equipment := ex_equipment ex;
     ex_completed := c |}.

(** The value supplied for the exercise at [idx], or 0: a missing slot,
    [undefined], [null] and [NaN] count as 0. *)
Definition suppliedOrZero (completedArray : list JS.value) (idx : nat) : Q :=
  match completedArray !! idx with
  | Some (JS.Number (JS.Num q)) => q
  | _ => 0
  end.

(** The amount recorded for the exercise at [idx]: max(0, the supplied
    value or 0). *)
Definition recordedAmount (completedArray : list JS.value) (idx : nat) : Q :=
  Qmax 0 (suppliedOrZero completedArray idx).

(** The value is a number, [undefined] or [null]. *)
Definition numberOrEmpty (v : JS.value) : Prop :=
  match v with
  | JS.Text _ => False
  | JS.Boolean _ => False
  | _ => True
  end.

(** The supplied values are numbers, [undefined] or [null]: there is no
    string and no boolean among them. *)
Definition numbersOnly (completedArray : list JS.value) : Prop :=
  Forall numberOrEmpty completedArray.

(** The exercises of a day with the recorded amounts as their completed
    values. *)
Definition withAmounts (completedArray : list JS.value) (exs : list Exercise)
    : list Exercise :=
  imap (fun j ex => setCompleted ex (JS.Num (recordedAmount completedArray j))) exs.

(** The total unmet remainder of a day after a recording: over its
    exercises, the target minus the recorded amount where that is
    positive. *)
Definition totalUnmetOf (completedArray : list JS.value) (exs : list Exercise) : Q :=
  Qsum (imap (fun j ex => Qmax 0 (ex_target ex - recordedAmount completedArray j)) exs).

(** The unmet remainder of a recorded exercise: target minus completed. *)
Definition remainderOf (ex : Exercise) : Q :=
  match ex_completed ex with
  | JS.Num c => ex_target ex - c
  | JS.NaN => 0
  end.

(** The carry-over exercises of a recorded exercise list: one for each
    exercise with a positive remainder, in the order of the list. *)
Definition carryOverFor (exs : list Exercise) : list Exercise :=
  map (fun ex => carryOverOf ex (remainderOf ex))
      (List.filter (fun ex => JS.Qltb 0 (remainderOf ex)) exs).

(** The total unmet remainder of a recorded exercise list. *)
Definition totalUnmet (exs : list Exercise) : Q :=
  Qsum (map (fun ex => Qmax 0 (remainderOf ex)) exs).

(** The tail of [s] from position [n]. *)
Fixpoint dropString (n : nat) (s : string) : string :=
  match n, s with
  | O, _ => s
  | S n', String _ s' => dropString n' s'
  | S _, EmptyString => EmptyString
  end.

Definition endsWith (suffix s : string) : bool :=
  String.eqb (dropString (String.length s - String.length suffix) s) suffix.

(** A carry-over exercise is recognised by the recovery marker that ends
    its name. *)
Definition isCarryOver (ex : Exercise) : Prop :=
  exists source, ex_name ex = source +:+ recoveryMarker.

(** Successive recordings of the last day of the same plan. *)
Fixpoint recordLastDay {host : Host} (user : User) (planRef : nat)
    (calls : list (list JS.value * string)) : option User :=
  match calls with
  | [] => Some user
  | (completedArray, fb) :: rest =>
    user' ← updateDayCompletion user planRef 29 completedArray fb;
    recordLastDay user' planRef rest
  end.

(** Day 0 with 20 of the 30 squats done and the rest in full. *)
Definition mondayPartial : list JS.value := [num 20; num 40; num 24; num 20; num 60].

(** A form with an empty slot, a [NaN], a negative value, a fractional
    value and the text of a number. *)
Definition sloppyForm : list JS.value :=
  [JS.Undefined; JS.Number JS.NaN; JS.Number (JS.Num (-3));
   JS.Number (JS.Num (5 # 2)); JS.Text "12"].

(** Day 1 done in full, then day 0 skipped. *)
Definition tuesdayFull : list JS.value := [num 15; num 10; num 30; num 30; num 60].

Definition tuesdayRecorded : User :=
  default sampleUser (updateDayCompletion sampleUser 0 1 tuesdayFull "").

Definition mondaySkipped : User :=
  default sampleUser (updateDayCompletion tuesdayRecorded 0 0 [] "N/A").

(** The [cloned] object of [createPlan] after the equipment adaptation and
    before the difficulty is applied. *)
Definition clonedFor (preferences : option Preferences) (t : Template) : Template :=
  match preferences with
  | Some p => adaptExerciseForEquipment t (pref_equipment p)
  | None => t
  end.

(** A catalog entry taken over as it is. *)
Definition asExercise (t : Template) : Exercise :=
  {| ex_name := t_name t; ex_target := t_target t; ex_unit := t_unit t;
     ex_description := t_description t; ex_equipment := t_equipment t;
     ex_completed := JS.Num 0 |}.

(** Every piece of equipment of the settings dialog is available. *)
Definition fullyEquipped (equipmentPrefs : gmap string bool) : Prop :=
  forall tag, tag ∈ ["gantere"; "banda"; "vesta"] ->
              equipmentPrefs !! tag = Some true.

(** The catalog requires nothing but dumbbells, a band or a vest. *)
Definition knownEquipment (t : Template) : bool :=
  match t_equipment t with
  | None => true
  | Some equipment =>
    forallb (fun eq => bool_decide (eq ∈ ["gantere"; "banda"; "vesta"])) equipment
  end.

(** The target of a catalog entry is a non-negative integer. *)
Definition integerTarget (t : Template) : Prop :=
  exists z : Z, t_target t = inject_Z z /\ (0 <= z)%Z.

(** Preferences of a user without dumbbells who asks for the advanced
    level. *)
Definition advancedNoDumbbells : Preferences :=
  {| pref_difficulty := 12 # 10; pref_equipment := noDumbbells |}.

(** Noon (UTC) of a day. *)
Definition noonOf (isoDay : Z) : Z := (Date_parse isoDay + 12 * 3600 * 1000)%Z.

(** The array the save button of the day dialog builds: one slot for each
    input field, holding [Number(inp.value)], the conversion of the text of
    the field. *)
Definition completedTasks {host : Host} (inputs : list string) : list JS.value :=
  map (fun value => JS.Number (StringToNumber value)) inputs.

(** * The rest of the application *)

(** ** Well-formed histories *)

(** An exercise as the generator and the tracker leave it: a positive
    target and a completed value that is a non-negative number. *)
Definition goodExercise (ex : Exercise) : Prop :=
  0 < ex_target ex /\ exists c, ex_completed ex = JS.Num c /\ 0 <= c.

Definition goodDay (day : Day) : Prop :=
  Forall goodExercise (exercises day) /\ 0 <= completion day <= 1.

(** A plan of 30 good days. *)
Definition goodPlan (plan : Plan) : Prop :=
  length (days plan) = 30%nat /\ Forall goodDay (days plan).

Definition goodUser (user : User) : Prop := Forall goodPlan (plans user).

(** Any two offsets of the zone differ by at most a day, as they do in
    every zone in use. *)
Definition offsetsWithinADay {host : Host} : Prop :=
  forall t t' isUTC isUTC',
    (LocalTZA t isUTC - LocalTZA t' isUTC' <= msPerDay)%Z.

(** ** The calendar screen: [renderApp] *)

(** The plan [renderApp] shows: the current plan, or a new plan that
    starts now, generated from the preferences and pushed on the
    history. *)
Definition renderApp {host : Host} (user : User) (now : Z) : User * Plan :=
  match getCurrentPlan user now with
  | Some plan => (user, plan)
  | None =>
    let prefs := prefsOf user in
    let difficulty := JS.orQ (pref_difficulty prefs) 1 in
    let plan := createPlan now difficulty (Some prefs) in
    ({| password := password user; plans := plans user ++ [plan];
        preferences := preferences user |}, plan)
  end.



(** The width, in percent, of the progress bar of a day. *)
Definition barWidth (completion : Q) : Z :=
  Z.min 100 (JS.Math_round (completion * 100)).

(** The [data] array of [openStatsModal]. *)
Definition statsData (plan : Plan) : list Z :=
  map (fun day => JS.Math_round (calculateDayCompletion day * 100)) (days plan).

(** ** The day dialog: [openDayModal] *)

(** [s || d] on strings. *)
Definition orString (s d : string) : string :=
  match s with
  | EmptyString => d
  | _ => s
  end.

(** [day.exercises.map(() => 0)] *)
Definition zeroCompleted (day : Day) : list JS.value :=
  map (fun _ => JS.Number (JS.Num 0)) (exercises day).

(** The skip button ("Nu am lucrat"): zero for every exercise, and the
    feedback or ['N/A']. *)
Definition skipDay {host : Host} (user : User) (planRef dayIndex : nat)
    (fb : string) : option User :=
  plan ← plans user !! planRef;
  day ← days plan !! dayIndex;
  updateDayCompletion user planRef dayIndex (zeroCompleted day)
    (orString fb "N/A").

(** ** Successive cycles *)

(** The last day of the newest plan is recorded, again and again: each
    recording closes a cycle and opens the next. *)
Fixpoint completeCycles {host : Host} (user : User)
    (calls : list (list JS.value * string)) : option User :=
  match calls with
  | [] => Some user
  | (completedArray, fb) :: rest =>
    user' ← updateDayCompletion user (length (plans user) - 1) 29
               completedArray fb;
    completeCycles user' rest
  end.


(** ** Generated days *)

(** The single exercise of the rest day. *)
Definition restExercise : Exercise :=
  {| ex_name := "Odihnă completă"; ex_target := 1; ex_unit := Rest;
     ex_description :=
       "Relaxează-te, hidratează-te și pregătește-te pentru săptămâna următoare.";
     ex_equipment := None; ex_completed := JS.Num 0 |}.

(** No plan of the history starts before the end date of the plan before
    it. *)
Definition orderedHistory (ps : list Plan) : Prop :=
  forall i p q, ps !! i = Some p -> ps !! (i + 1)%nat = Some q ->
                (endDate p <= startDate q)%Z.

(** The account as [renderAuth] creates it. *)
Definition newUser (pass : string) : User :=
  {| password := pass; plans := [];
     preferences := Some {| pref_difficulty := 1; pref_equipment := fullEquipment |} |}.

(** ** Local time: [getDay], [setHours], [formatDay] and the reminder *)

Section LocalTimeMethods.

Context {host : Host}.

(** The number of the local calendar day of an instant. *)
Definition localDay (date : Z) : Z := (LocalTime date / msPerDay)%Z.

(** [date.getDay()]: 0 is Sunday; day 0 of the epoch was a Thursday. *)
Definition getDay (date : Z) : Z := ((localDay date + 4) mod 7)%Z.

(** [date.setHours(0, 0, 0, 0)]: midnight of the local day, read back as
    an instant. *)
Definition setHoursMidnight (date : Z) : Z := UTC (localDay date * msPerDay).

Definition weekdayNames : list string :=
  ["Luni"; "Marți"; "Miercuri"; "Joi"; "Vineri"; "Sâmbătă"; "Duminică"].

(** [formatDay(date)]; [None] is [undefined]. *)
Definition formatDay (date : Z) : option string :=
  weekdayNames
    !! Z.to_nat (if (getDay date =? 0)%Z then 6 else getDay date - 1)%Z.

(** The [Date] of day [index] of a plan on the calendar and in the day
    dialog: [new Date(plan.startDate)] moved by [index] days. *)
Definition dateOfDay (plan : Plan) (index : nat) : Z :=
  addDays (Date_parse (startDate plan)) (Z.of_nat index).

(** The index [diff] of [maybeSendDailyNotification], or [None] where the
    function returns because it is out of range. *)
Definition notificationDay (plan : Plan) (today : Z) : option nat :=
  let today0 := setHoursMidnight today in
  let start0 := setHoursMidnight (Date_parse (startDate plan)) in
  let diff := ((today0 - start0) / msPerDay)%Z in
  if (diff <? 0)%Z || (Z.of_nat (length (days plan)) <=? diff)%Z then None
  else Some (Z.to_nat diff).


End LocalTimeMethods.

(** Reading a local time value back as an instant, and that instant as
    a local time again, stays on the calendar day: no clock change moves
    a time of day across midnight. *)
Definition localDaysKept {host : Host} : Prop :=
  forall t, (LocalTime (UTC t) / msPerDay = t / msPerDay)%Z.

(** A plan generated in Bucharest on 2024-03-15 at 10:00 UTC. *)
Definition marchPlan : Plan :=
  createPlan (host := bucharest2024) (Date_parse 19797 + 10 * hour) 1
    (Some fullPreferences).

(** Hosts on a zone without daylight saving: two hours east of UTC and
    five hours west. *)
Definition utcPlus2 : Host :=
  {| LocalTZA := fun _ _ => (2 * hour)%Z; StringToNumber := parseNumber |}.

Definition utcMinus5 : Host :=
  {| LocalTZA := fun _ _ => (- (5 * hour))%Z; StringToNumber := parseNumber |}.

(** ** Notions for the calendar badges *)


(** ** Accounts: [getUsers], [saveUsers], [init] and the handlers of
    [renderAuth] *)

(** What [JSON.parse] makes of the text stored under ['users']: the users
    object, or a [SyntaxError]. *)
Inductive UsersItem : Type :=
| Corrupt
| Stored (users : gmap string User).

(** [localStorage]: the items ['users'] and ['currentUser']. *)
Record Storage : Type := mkStorage {
  usersItem : option UsersItem;
  currentUser : option string
}.

Definition getUsers (st : Storage) : gmap string User :=
  match usersItem st with
  | Some (Stored users) => users
  | Some Corrupt => ∅
  | None => ∅
  end.

Definition saveUsers (st : Storage) (users : gmap string User) : Storage :=
  {| usersItem := Some (Stored users); currentUser := currentUser st |}.

(** The value of [users[name]]: the account, a member of
    [Object.prototype], or [undefined]. *)
Inductive Property : Type :=
| Missing
| Inherited
| Own (user : User).

Definition usersGet (users : gmap string User) (name : string) : Property :=
  match users !! name with
  | Some user => Own user
  | None => if bool_decide (name ∈ inheritedKeys) then Inherited else Missing
  end.

Inductive AuthResult : Type :=
| EnterApp
| AlertEmpty
| AlertWrong
| AlertTaken.

Definition isEmpty (s : string) : bool :=
  match s with
  | EmptyString => true
  | _ => false
  end.

(** [localStorage.setItem('currentUser', name)] *)
Definition setCurrentUser (st : Storage) (name : string) : Storage :=
  {| usersItem := usersItem st; currentUser := Some name |}.

(** [localStorage.removeItem('currentUser')] *)
Definition logout (st : Storage) : Storage :=
  {| usersItem := usersItem st; currentUser := None |}.

(** What the page shows: the calendar, whose click handlers hold the
    user object that [renderApp] read from the storage; the
    authentication form; or nothing, after the [TypeError] of
    [user.plans.push] when [users[currentUser]] is a member of
    [Object.prototype], which has no [plans]. *)
Inductive Screen : Type :=
| AppScreen (user : User)
| AuthScreen
| TypeErrorScreen.

Section Screens.

Context {host : Host}.

(** [renderApp()] on the storage, at the instant [now].  The name read
    from the storage is [null] when the item is absent, and [users[null]]
    is the property ["null"].  A user that is missing has the item
    removed and [init] shows the authentication form. *)
Definition renderScreen (st : Storage) (now : Z) : Storage * Screen :=
  let currentUserName := default "null" (currentUser st) in
  let users := getUsers st in
  match usersGet users currentUserName with
  | Own user =>
    match getCurrentPlan user now with
    | Some _ => (st, AppScreen user)
    | None =>
      let user' := (renderApp user now).1 in
      (saveUsers st (<[currentUserName := user']> users), AppScreen user')
    end
  | Inherited => (st, TypeErrorScreen)
  | Missing => (logout st, AuthScreen)
  end.

(** [init()]: the calendar when a user is logged in, the authentication
    form otherwise. *)
Definition init (st : Storage) (now : Z) : Storage * Screen :=
  match currentUser st with
  | None => (st, AuthScreen)
  | Some name => if isEmpty name then (st, AuthScreen) else renderScreen st now
  end.

(** The login button; [name] is the trimmed text of the name field. *)
Definition login (st : Storage) (name pass : string) (now : Z)
    : Storage * Screen * AuthResult :=
  if isEmpty name || isEmpty pass then (st, AuthScreen, AlertEmpty)
  else
    match usersGet (getUsers st) name with
    | Own user =>
      if bool_decide (password user = pass)
      then (init (setCurrentUser st name) now, EnterApp)
      else (st, AuthScreen, AlertWrong)
    | Inherited => (st, AuthScreen, AlertWrong)
    | Missing => (st, AuthScreen, AlertWrong)
    end.

(** The register button. *)
Definition register (st : Storage) (name pass : string) (now : Z)
    : Storage * Screen * AuthResult :=
  if isEmpty name || isEmpty pass then (st, AuthScreen, AlertEmpty)
  else
    let users := getUsers st in
    match usersGet users name with
    | Own _ => (st, AuthScreen, AlertTaken)
    | Inherited => (st, AuthScreen, AlertTaken)
    | Missing =>
      let st1 := saveUsers st (<[name := newUser pass]> users) in
      (init (setCurrentUser st1 name) now, EnterApp)
    end.

End Screens.

(** ** The settings dialog: [openSettingsModal] *)

(** The preferences the dialog shows:
    [user.preferences || { difficulty: 1.0, equipment: { all true } }]. *)
Definition settingsPrefs (user : User) : Preferences :=
  match preferences user with
  | Some p => p
  | None => fullPreferences
  end.

Definition difficultyOptions : list Q := [8 # 10; 1; 12 # 10].

(** [Math.abs(x)] *)
Definition Math_abs (x : Q) : Q := if JS.Qltb x 0 then - x else x.

(** [Math.abs(prefs.difficulty - opt.value) < 0.001]: the option is marked
    as selected. *)
Definition optionSelected (prefs : Preferences) (value : Q) : bool :=
  JS.Qltb (Math_abs (pref_difficulty prefs - value)) (1 # 1000).

Definition equipmentKeys : list string := ["gantere"; "banda"; "vesta"].

(** [checkbox.checked = prefs.equipment && prefs.equipment[item.key]] *)
Definition checkboxChecked (prefs : Preferences) (key : string) : bool :=
  hasEquipment (pref_equipment prefs) key.

(** [user.preferences = newPrefs] *)
Definition savePreferences (user : User) (newPrefs : Preferences) : User :=
  {| password := password user; plans := plans user;
     preferences := Some newPrefs |}.

(** The save button of the dialog: the value of the select and the state
    of each checkbox make the new preferences. *)
Definition settingsSave (user : User) (selectValue : Q)
    (checked : string -> bool) : User :=
  savePreferences user
    {| pref_difficulty := selectValue;
       pref_equipment :=
         fold_left (fun equipment key => <[key := checked key]> equipment)
                   equipmentKeys ∅ |}.

(** ** Sessions

    The page is its storage and its screen.  An event is a page load or a
    click; a click is possible only where its button exists.  The two
    dialogs are modal: between the opening of a dialog and the click on
    its button no other handler runs, so that a click on a button of a
    dialog stands for the opening of the dialog and the click. *)

Record Page : Type := mkPage {
  storage : Storage;
  screen : Screen
}.

(** [Load]: the page is loaded, [init()] runs.  [LogoutClick]: the item
    is removed and [init()] shows the authentication form.  The other
    clicks carry what the user typed or chose, and the instant. *)
Inductive Event : Type :=
| Load (now : Z)
| LoginClick (name pass : string) (now : Z)
| RegisterClick (name pass : string) (now : Z)
| LogoutClick
| SaveClick (dayIndex : nat) (inputs : list string) (fb : string) (now : Z)
| SkipClick (dayIndex : nat) (fb : string) (now : Z)
| SettingsClick (selectValue : Q) (checked : string -> bool).

Section Sessions.

Context {host : Host}.

Definition pageOf (result : Storage * Screen) : Page :=
  {| storage := result.1; screen := result.2 |}.

(** The end of the two handlers of the day dialog: the user object of
    the calendar, as the recording left it, is written over the account
    of the current user, and the calendar is rendered again. *)
Definition saveAndRender (st : Storage) (user : User) (now : Z) : Page :=
  let allUsers := getUsers st in
  let allUsers' :=
    match currentUser st with
    | Some username =>
      if isEmpty username then allUsers else <[username := user]> allUsers
    | None => allUsers
    end in
  pageOf (renderScreen (saveUsers st allUsers') now).

(** The save button of the settings dialog, for the account the dialog
    read when it was opened; [None] where the dialog has no button (no
    account) or where the model ends (a member of [Object.prototype]
    taken for the account). *)
Definition settingsClick (st : Storage) (selectValue : Q)
    (checked : string -> bool) : option Storage :=
  let username := default "null" (currentUser st) in
  let users := getUsers st in
  match usersGet users username with
  | Own user =>
    Some (saveUsers st (<[username := settingsSave user selectValue checked]> users))
  | Inherited => None
  | Missing => None
  end.

(** One event; [None] when the screen does not offer the button, or the
    day does not exist. *)
Definition step (page : Page) (ev : Event) : option Page :=
  match ev, screen page with
  | Load now, _ => Some (pageOf (init (storage page) now))
  | LoginClick name pass now, AuthScreen =>
    Some (pageOf (login (storage page) name pass now).1)
  | RegisterClick name pass now, AuthScreen =>
    Some (pageOf (register (storage page) name pass now).1)
  | LogoutClick, AppScreen _ =>
    Some {| storage := logout (storage page); screen := AuthScreen |}
  | LogoutClick, TypeErrorScreen =>
    Some {| storage := logout (storage page); screen := AuthScreen |}
  | SaveClick dayIndex inputs fb now, AppScreen user =>
    user' ← updateDayCompletion user (length (plans user) - 1) dayIndex
               (completedTasks inputs) fb;
    Some (saveAndRender (storage page) user' now)
  | SkipClick dayIndex fb now, AppScreen user =>
    user' ← skipDay user (length (plans user) - 1) dayIndex fb;
    Some (saveAndRender (storage page) user' now)
  | SettingsClick selectValue checked, AppScreen user =>
    st ← settingsClick (storage page) selectValue checked;
    Some {| storage := st; screen := AppScreen user |}
  | _, _ => None
  end.

Fixpoint run (page : Page) (events : list Event) : option Page :=
  match events with
  | [] => Some page
  | ev :: rest => page' ← step page ev; run page' rest
  end.

(** The calendar shows the account of the current user: the user object
    of its handlers has the history and the password of the stored
    account (the preferences may differ, after a change of the
    settings). *)
Definition shownIsStored (page : Page) : Prop :=
  match screen page with
  | AppScreen user =>
    exists name stored,
      currentUser (storage page) = Some name
      /\ name <> ""
      /\ getUsers (storage page) !! name = Some stored
      /\ plans stored = plans user
      /\ password stored = password user
  | AuthScreen => True
  | TypeErrorScreen => True
  end.

(** [P] holds of every user object of the page: the stored accounts and
    the user object of the calendar. *)
Definition everyUser (P : User -> Prop) (page : Page) : Prop :=
  (forall name user, getUsers (storage page) !! name = Some user -> P user)
  /\ match screen page with
     | AppScreen user => P user
     | AuthScreen => True
     | TypeErrorScreen => True
     end.

(** Every history, stored or shown, is well formed. *)
Definition goodPage : Page -> Prop := everyUser goodUser.

(** In every history, stored or shown, no plan starts before the end
    date of the plan before it. *)
Definition orderedPage : Page -> Prop :=
  everyUser (fun user => orderedHistory (plans user)).

(** [user'] has the password of [user], a history at least as long, and
    the dates of the plans of [user]. *)
Definition userKept (user user' : User) : Prop :=
  password user' = password user
  /\ (length (plans user) <= length (plans user'))%nat
  /\ forall i p, plans user !! i = Some p ->
     exists p', plans user' !! i = Some p'
                /\ startDate p' = startDate p /\ endDate p' = endDate p.

(** The accounts of [st] are accounts of [st'], with their passwords,
    with histories at least as long, and with the dates of their plans. *)
Definition accountsKept (st st' : Storage) : Prop :=
  forall name user,
    getUsers st !! name = Some user ->
    exists user', getUsers st' !! name = Some user' /\ userKept user user'.

End Sessions.

(** The page before it is loaded, on an empty storage. *)
Definition blankPage : Page :=
  {| storage := {| usersItem := None; currentUser := None |};
     screen := AuthScreen |}.

(** A session on UTC: an account is created, a day saved in part, a day
    skipped, the settings changed, the page loaded again, the last day
    saved, and the user logs out and in again much later. *)
Definition sampleSession : list Event :=
  [Load (noonOf jan1_2024);
   RegisterClick "ana" "pw" (noonOf jan1_2024);
   SaveClick 0 ["20"; "40"; "24"; "20"; "60"] "ok" (noonOf jan1_2024);
   SkipClick 1 "" (noonOf (jan1_2024 + 1));
   SettingsClick (12 # 10) (fun key => negb (String.eqb key "gantere"));
   Load (noonOf (jan1_2024 + 2));
   SaveClick 29 ["1"] "" (noonOf (jan1_2024 + 2));
   LogoutClick;
   LoginClick "ana" "pw" (noonOf (jan1_2024 + 80))].

Definition sampleSessionEnd : Page :=
  default blankPage (run (host := utcHost) blankPage sampleSession).

(** The page on UTC after a registration on an empty storage. *)
Definition registeredPage : Page :=
  default blankPage
    (run (host := utcHost) blankPage
       [RegisterClick "ana" "pw" (noonOf jan1_2024)]).

(** The settings are changed on that page, and then the first day is
    saved from the calendar as it stands. *)
Definition settingsChangedPage : Page :=
  default blankPage
    (step (host := utcHost) registeredPage
       (SettingsClick (12 # 10) (fun _ => false))).

Definition savedAfterSettingsPage : Page :=
  default blankPage
    (step (host := utcHost) settingsChangedPage
       (SaveClick 0 ["20"] "" (noonOf jan1_2024))).

(** * The service worker of [service-worker.js]

    The promise chains of the three handlers run to completion one after
    the other; the network is a function from a URL to the response
    [fetch] resolves with, or [None] when it rejects.  URLs are compared as
    written: a request for a core asset carries the URL under which the
    asset was cached. *)

Module ServiceWorker.

Section Worker.

Variable Response : Type.

(** [response.ok] *)
Variable ok : Response -> bool.

Definition CACHE_NAME : string := "training-planner-cache-v1".

Definition CORE_ASSETS : list string :=
  ["./"; "./index.html"; "./style.css"; "./script.js"; "./manifest.json";
   "./icons/icon-192.png"; "./icons/icon-512.png"].

(** The cache storage: the named caches in the order of their creation. *)
Definition CacheStorage : Type := list (string * gmap string Response).

Record Request : Type := mkRequest { method : string; url : string }.

(** [caches.match(url)]: the entry of the first cache that has one. *)
Fixpoint caches_match (caches : CacheStorage) (u : string) : option Response :=
  match caches with
  | [] => None
  | (_, cache) :: rest =>
    match cache !! u with
    | Some r => Some r
    | None => caches_match rest u
    end
  end.

(** [cache.addAll(urls)]: every URL is fetched and stored; when a fetch
    rejects or a response is not ok, nothing is stored. *)
Fixpoint addAll (network : string -> option Response)
    (cache : gmap string Response) (urls : list string)
    : option (gmap string Response) :=
  match urls with
  | [] => Some cache
  | u :: rest =>
    match network u with
    | Some r => if ok r then addAll network (<[u := r]> cache) rest else None
    | None => None
    end
  end.

(** The cache [caches.open(name)] resolves with, and the storage with the
    cache created when it did not exist. *)
Fixpoint caches_open (caches : CacheStorage) (name : string)
    : CacheStorage * gmap string Response :=
  match caches with
  | [] => ([(name, ∅)], ∅)
  | (k, cache) :: rest =>
    if bool_decide (k = name) then (caches, cache)
    else let '(rest', found) := caches_open rest name in
         ((k, cache) :: rest', found)
  end.

(** The cache [name] replaced by [cache]. *)
Fixpoint caches_put (caches : CacheStorage) (name : string)
    (cache : gmap string Response) : CacheStorage :=
  match caches with
  | [] => []
  | (k, old) :: rest =>
    if bool_decide (k = name) then (k, cache) :: rest
    else (k, old) :: caches_put rest name cache
  end.

(** The [install] handler: the storage afterwards, and whether the
    promise passed to [waitUntil] is fulfilled. *)
Definition install (network : string -> option Response)
    (caches : CacheStorage) : CacheStorage * bool :=
  let '(caches1, cache) := caches_open caches CACHE_NAME in
  match addAll network cache CORE_ASSETS with
  | Some cache' => (caches_put caches1 CACHE_NAME cache', true)
  | None => (caches1, false)
  end.

(** The [activate] handler: every cache but the current one is deleted. *)
Definition activate (caches : CacheStorage) : CacheStorage :=
  List.filter (fun entry => bool_decide (entry.1 = CACHE_NAME)) caches.

(** The [fetch] handler.  [None]: the handler returns without
    [respondWith] and the browser proceeds as usual.  [Some r]: the
    response the page gets, [r = None] being [undefined], a network
    error. *)
Definition onFetch (network : string -> option Response)
    (caches : CacheStorage) (request : Request) : option (option Response) :=
  if negb (String.eqb (method request) "GET") then None
  else
    match caches_match caches (url request) with
    | Some cachedResponse => Some (Some cachedResponse)
    | None =>
      match network (url request) with
      | Some networkResponse => Some (Some networkResponse)
      | None => Some (caches_match caches "./index.html")
      end
    end.

End Worker.

End ServiceWorker.

(** ** Comparing two recordings of a day *)

(** The same exercise with at least as much completed. *)
Definition atLeastAsDone (ex1 ex2 : Exercise) : Prop :=
  ex_unit ex1 = ex_unit ex2
  /\ ex_target ex1 == ex_target ex2
  /\ exists c1 c2, ex_completed ex1 = JS.Num c1 /\ ex_completed ex2 = JS.Num c2
                   /\ c1 <= c2.

(** * Properties *)

(** ** Arithmetic of the number model *)

Lemma Qltb_lt (a b : Q) : JS.Qltb a b = true <-> a < b.
Proof.
  unfold JS.Qltb. rewrite negb_true_iff.
  split; intros H.
  - apply Qnot_le_lt. intros Hle. apply Qle_bool_iff in Hle. congruence.
  - destruct (Qle_bool b a) eqn:E; [|reflexivity].
    apply Qle_bool_iff in E. lra.
Qed.

Lemma Qltb_ge (a b : Q) : JS.Qltb a b = false <-> b <= a.
Proof.
  unfold JS.Qltb. rewrite negb_false_iff. apply Qle_bool_iff.
Qed.

Lemma orQ_zero (q : Q) : JS.orQ q 0 == q.
Proof.
  unfold JS.orQ. destruct (Qeq_bool q 0) eqn:E; [|reflexivity].
  apply Qeq_bool_iff in E. lra.
Qed.

Lemma Qsum_app (l1 l2 : list Q) : Qsum (l1 ++ l2) == Qsum l1 + Qsum l2.
Proof.
  induction l1 as [|x l1 IH]; simpl; [lra|]. rewrite IH. lra.
Qed.

Lemma Qfloor_lt_Z (x : Q) (z : Z) : x < inject_Z z -> (Qfloor x < z)%Z.
Proof.
  intros H. rewrite Zlt_Qlt.
  apply Qle_lt_trans with x; [apply Qfloor_le | exact H].
Qed.

Lemma Qfloor_ge_Z (x : Q) (z : Z) : inject_Z z <= x -> (z <= Qfloor x)%Z.
Proof.
  intros H. rewrite <- (Qfloor_Z z). apply Qfloor_resp_le, H.
Qed.

Lemma round_integer (z : Z) : JS.Math_round (inject_Z z) = z.
Proof.
  unfold JS.Math_round.
  assert (H : (z <= Qfloor (inject_Z z + (1 # 2)))%Z).
  { apply Qfloor_ge_Z. lra. }
  assert (H' : (Qfloor (inject_Z z + (1 # 2)) < z + 1)%Z).
  { apply Qfloor_lt_Z. rewrite inject_Z_plus. change (inject_Z 1) with 1. lra. }
  lia.
Qed.

(** ** Rounding to binary64 *)

Lemma rte_cases (x : Q) :
  (JS.roundTiesToEven x = Qfloor x /\ x - inject_Z (Qfloor x) <= 1 # 2)
  \/ (JS.roundTiesToEven x = (Qfloor x + 1)%Z /\ 1 # 2 <= x - inject_Z (Qfloor x)).
Proof.
  unfold JS.roundTiesToEven.
  destruct (Qcompare_spec (x - inject_Z (Qfloor x)) (1 # 2)) as [E|E|E].
  - destruct (Z.even (Qfloor x)); [left | right]; (split; [reflexivity | lra]).
  - left. split; [reflexivity | lra].
  - right. split; [reflexivity | lra].
Qed.


Lemma ilog2_spec (q : Q) : 0 < q -> 2 ^ JS.ilog2 q <= q < 2 ^ (JS.ilog2 q + 1).
Proof.
  intros Hq. destruct q as [n d].
  assert (Hn : (0 < n)%Z).
  { unfold Qlt in Hq. simpl in Hq. lia. }
  pose proof (Z.log2_spec n Hn) as [HnL HnU].
  pose proof (Z.log2_spec (Zpos d) (Pos2Z.is_pos d)) as [HdL HdU].
  pose proof (Z.log2_nonneg n) as Ha. pose proof (Z.log2_nonneg (Zpos d)) as Hb.
  set (a := Z.log2 n) in *. set (b := Z.log2 (Zpos d)) in *.
  assert (HA : inject_Z (2 ^ a) == 2 ^ a) by (apply Zpower_Qpower; exact Ha).
  assert (HB : inject_Z (2 ^ b) == 2 ^ b) by (apply Zpower_Qpower; exact Hb).
  assert (HAp : 0 < 2 ^ a) by (apply Qpower_0_lt; reflexivity).
  assert (HBp : 0 < 2 ^ b) by (apply Qpower_0_lt; reflexivity).
  assert (HN1 : 2 ^ a <= inject_Z n) by (rewrite <- HA, <- Zle_Qle; exact HnL).
  assert (HN2 : inject_Z n < 2 * 2 ^ a).
  { rewrite <- HA. change 2 with (inject_Z 2) at 1. rewrite <- inject_Z_mult, <- Zlt_Qlt.
    replace (a + 1)%Z with (Z.succ a) in HnU by lia. rewrite Z.pow_succ_r in HnU by lia.
    exact HnU. }
  assert (HD1 : 2 ^ b <= inject_Z (Zpos d)) by (rewrite <- HB, <- Zle_Qle; exact HdL).
  assert (HD2 : inject_Z (Zpos d) < 2 * 2 ^ b).
  { rewrite <- HB. change 2 with (inject_Z 2) at 1. rewrite <- inject_Z_mult, <- Zlt_Qlt.
    replace (b + 1)%Z with (Z.succ b) in HdU by lia. rewrite Z.pow_succ_r in HdU by lia.
    exact HdU. }
  assert (Hqd : n # d == inject_Z n / inject_Z (Zpos d)) by apply Qmake_Qdiv.
  assert (HDp : 0 < inject_Z (Zpos d)) by lra.
  assert (Hnz : ~ 2 == 0) by discriminate.
  assert (He : 2 ^ (a - b) == 2 ^ a / 2 ^ b) by (apply Qpower_minus; exact Hnz).
  assert (He1 : 2 ^ (a - b + 1) == 2 * (2 ^ a / 2 ^ b)).
  { rewrite Qpower_plus by exact Hnz. rewrite He. change (2 ^ 1) with 2. ring. }
  assert (He0 : 2 ^ (a - b - 1) == (2 ^ a / 2 ^ b) / 2).
  { rewrite Qpower_minus by exact Hnz. rewrite He. change (2 ^ 1) with 2. reflexivity. }
  assert (Hup : n # d < 2 * (2 ^ a / 2 ^ b)).
  { rewrite Hqd. apply Qlt_shift_div_r; [exact HDp|].
    assert (E : 2 * (2 ^ a / 2 ^ b) * inject_Z (Zpos d)
                == (2 * 2 ^ a * inject_Z (Zpos d)) / 2 ^ b) by (field; lra).
    rewrite E. apply Qlt_shift_div_l; [exact HBp|]. nra. }
  assert (Hlow : (2 ^ a / 2 ^ b) / 2 <= n # d).
  { rewrite Hqd. apply Qle_shift_div_l; [exact HDp|].
    assert (E : 2 ^ a / 2 ^ b / 2 * inject_Z (Zpos d)
                == (2 ^ a * inject_Z (Zpos d)) / (2 * 2 ^ b)) by (field; lra).
    rewrite E. apply Qle_shift_div_r; [lra|]. nra. }
  unfold JS.ilog2. cbn [Qnum Qden]. fold a b.
  destruct (Qle_bool (2 ^ (a - b)) (n # d)) eqn:T.
  - apply Qle_bool_iff in T. split; [exact T|]. rewrite He1. exact Hup.
  - assert (T' : n # d < 2 ^ (a - b)).
    { apply Qnot_le_lt. intros H. apply Qle_bool_iff in H. congruence. }
    split.
    + rewrite He0. exact Hlow.
    + replace (a - b - 1 + 1)%Z with (a - b)%Z by lia. exact T'.
Qed.



Lemma binary64_nonneg (q : Q) : 0 <= q -> 0 <= JS.binary64 q.
Proof.
  intros Hq. destruct q as [n d]. unfold JS.binary64. cbn [Qnum].
  destruct n as [|n|n].
  - lra.
  - unfold JS.roundPositive. rewrite Qred_correct.
    apply Qmult_le_0_compat; [|apply Qpower_0_le; discriminate].
    change 0 with (inject_Z 0). rewrite <- Zle_Qle.
    set (x := _ / _).
    assert (Hx : 0 <= x).
    { unfold x. apply Qle_shift_div_l; [apply Qpower_0_lt; reflexivity|].
      rewrite Qmult_0_l. discriminate. }
    destruct (rte_cases x) as [[-> _]|[-> _]].
    + rewrite <- (Qfloor_Z 0). apply Qfloor_resp_le. exact Hx.
    + assert ((0 <= Qfloor x)%Z); [|lia].
      rewrite <- (Qfloor_Z 0). apply Qfloor_resp_le. exact Hx.
  - exfalso. unfold Qle in Hq. simpl in Hq. lia.
Qed.

Lemma rte_monotone (x y : Q) : x <= y -> (JS.roundTiesToEven x <= JS.roundTiesToEven y)%Z.
Proof.
  intros Hxy.
  pose proof (Qfloor_resp_le x y Hxy) as Hf.
  destruct (Z.eq_dec (Qfloor x) (Qfloor y)) as [E|E].
  - unfold JS.roundTiesToEven. rewrite <- E.
    destruct (Qcompare_spec (x - inject_Z (Qfloor x)) (1 # 2)) as [Ex|Ex|Ex];
    destruct (Qcompare_spec (y - inject_Z (Qfloor x)) (1 # 2)) as [Ey|Ey|Ey];
      try lia; try lra; destruct (Z.even (Qfloor x)); lia.
  - destruct (rte_cases x) as [[-> _]|[-> _]], (rte_cases y) as [[-> _]|[-> _]]; lia.
Qed.

Lemma rte_Z (z : Z) : JS.roundTiesToEven (inject_Z z) = z.
Proof.
  unfold JS.roundTiesToEven. rewrite Qfloor_Z.
  destruct (Qcompare_spec (inject_Z z - inject_Z z) (1 # 2)) as [E|E|E];
    [exfalso; lra | reflexivity | exfalso; lra].
Qed.

Lemma ilog2_monotone (x y : Q) : 0 < x -> x <= y -> (JS.ilog2 x <= JS.ilog2 y)%Z.
Proof.
  intros Hx Hxy.
  pose proof (ilog2_spec x Hx) as [Hl _].
  pose proof (ilog2_spec y ltac:(lra)) as [_ Hu].
  assert (H : (JS.ilog2 x < JS.ilog2 y + 1)%Z); [|lia].
  apply (Qpower_lt_compat_l_inv 2); [lra | reflexivity].
Qed.

Lemma roundPositive_monotone (x y : Q) :
  0 < x -> x <= y -> JS.roundPositive x <= JS.roundPositive y.
Proof.
  intros Hx Hxy. assert (Hy : 0 < y) by lra.
  pose proof (ilog2_monotone x y Hx Hxy) as Hlog.
  pose proof (ilog2_spec x Hx) as [_ Hxu].
  pose proof (ilog2_spec y Hy) as [Hyl _].
  unfold JS.roundPositive. rewrite !Qred_correct.
  assert (Hux : 0 < 2 ^ JS.ulpExponent x) by (apply Qpower_0_lt; reflexivity).
  assert (Huy : 0 < 2 ^ JS.ulpExponent y) by (apply Qpower_0_lt; reflexivity).
  destruct (Z.eq_dec (JS.ulpExponent x) (JS.ulpExponent y)) as [E|E].
  - rewrite <- E. apply Qmult_le_compat_r; [|lra].
    rewrite <- Zle_Qle. apply rte_monotone.
    apply Qmult_le_compat_r; [exact Hxy|]. apply Qlt_le_weak, Qinv_lt_0_compat, Hux.
  - assert (Hey : JS.ulpExponent y = (JS.ilog2 y - 52)%Z) by (unfold JS.ulpExponent in *; lia).
    assert (Hex : (JS.ilog2 x + 1 <= JS.ulpExponent x + 53)%Z) by (unfold JS.ulpExponent; lia).
    assert (Hexy : (JS.ulpExponent x + 53 <= JS.ulpExponent y + 52)%Z)
      by (unfold JS.ulpExponent in *; lia).
    assert (P53 : inject_Z (2 ^ 53) == 2 ^ 53) by (apply Zpower_Qpower; lia).
    assert (P52 : inject_Z (2 ^ 52) == 2 ^ 52) by (apply Zpower_Qpower; lia).
    apply Qle_trans with (2 ^ (JS.ulpExponent x + 53)).
    + rewrite Qpower_plus by discriminate. rewrite (Qmult_comm (2 ^ JS.ulpExponent x)).
      apply Qmult_le_compat_r; [|lra].
      rewrite <- P53, <- Zle_Qle. rewrite <- (rte_Z (2 ^ 53)). apply rte_monotone.
      apply Qle_shift_div_r; [exact Hux|].
      rewrite P53, <- Qpower_plus by discriminate.
      apply Qle_trans with (2 ^ (JS.ilog2 x + 1)); [lra|].
      apply Qpower_le_compat_l; [lia | discriminate].
    + apply Qle_trans with (2 ^ (JS.ulpExponent y + 52));
        [apply Qpower_le_compat_l; [lia | discriminate]|].
      rewrite Qpower_plus by discriminate. rewrite (Qmult_comm (2 ^ JS.ulpExponent y)).
      apply Qmult_le_compat_r; [|lra].
      rewrite <- P52, <- Zle_Qle. rewrite <- (rte_Z (2 ^ 52)). apply rte_monotone.
      apply Qle_shift_div_l; [exact Huy|].
      rewrite P52, <- Qpower_plus by discriminate.
      replace (52 + JS.ulpExponent y)%Z with (JS.ilog2 y) by lia. exact Hyl.
Qed.

Lemma binary64_opp (q : Q) : JS.binary64 (- q) = - JS.binary64 q.
Proof.
  destruct q as [[|n|n] d]; unfold JS.binary64; cbn [Qnum Qopp Z.opp]; try reflexivity.
  change (- (Z.neg n # d)) with (Z.pos n # d).
  destruct (JS.roundPositive (Z.pos n # d)) as [a b]. unfold Qopp. cbn [Qnum Qden].
  rewrite Z.opp_involutive. reflexivity.
Qed.

Lemma binary64_positive (q : Q) : 0 < q -> JS.binary64 q = JS.roundPositive q.
Proof.
  intros Hq. destruct q as [[|n|n] d]; [discriminate | reflexivity | discriminate].
Qed.

Lemma binary64_monotone (x y : Q) : x <= y -> JS.binary64 x <= JS.binary64 y.
Proof.
  intros Hxy.
  destruct (Qlt_le_dec 0 x) as [Hx|Hx].
  - rewrite !binary64_positive by lra. apply roundPositive_monotone; assumption.
  - destruct (Qlt_le_dec y 0) as [Hy|Hy].
    + assert (H : JS.binary64 (- y) <= JS.binary64 (- x)).
      { rewrite !binary64_positive by lra. apply roundPositive_monotone; lra. }
      rewrite !binary64_opp in H. lra.
    + pose proof (binary64_nonneg y Hy) as H1.
      pose proof (binary64_nonneg (- x) ltac:(lra)) as H2.
      rewrite binary64_opp in H2. lra.
Qed.

Lemma binary64_comp (x y : Q) : x == y -> JS.binary64 x == JS.binary64 y.
Proof.
  intros E. apply Qle_antisym; apply binary64_monotone; lra.
Qed.

(** ** Completion ratio *)

Lemma calculateDayCompletion_totals (day : Day) :
  calculateDayCompletion day =
  let '(total, done) := totals (exercises day) in
  if Qeq_bool total 0 then 0 else done / total.
Proof.
  unfold calculateDayCompletion. destruct (exercises day); reflexivity.
Qed.

Lemma addExercise_contribution (t d : Q) (ex : Exercise) :
  validExercise ex ->
  exists d', addExercise (t, d) ex = (t + totalContribution ex, d + d')
             /\ d' == doneContribution ex.
Proof.
  intros (_ & _ & c & Hc & _).
  unfold addExercise, totalContribution, doneContribution. rewrite Hc.
  destruct (ex_unit ex); simpl;
    try (eexists; split; [reflexivity | rewrite orQ_zero; reflexivity]).
  eexists; split; [reflexivity|].
  destruct (JS.Qltb 0 c) eqn:E.
  - apply Qltb_lt in E.
    destruct (Qeq_bool c 0) eqn:E0; [|reflexivity].
    apply Qeq_bool_iff in E0. lra.
  - rewrite andb_false_r. reflexivity.
Qed.

Lemma totals_from (exs : list Exercise) (t d : Q) :
  Forall validExercise exs ->
  (fold_left addExercise exs (t, d)).1 == t + Qsum (map totalContribution exs)
  /\ (fold_left addExercise exs (t, d)).2 == d + Qsum (map doneContribution exs).
Proof.
  revert t d. induction exs as [|ex exs IH]; intros t d Hv.
  - simpl. split; lra.
  - inversion Hv as [|? ? Hex Hexs]; subst.
    change (fold_left addExercise (ex :: exs) (t, d))
      with (fold_left addExercise exs (addExercise (t, d) ex)).
    change (Qsum (map totalContribution (ex :: exs)))
      with (totalContribution ex + Qsum (map totalContribution exs)).
    change (Qsum (map doneContribution (ex :: exs)))
      with (doneContribution ex + Qsum (map doneContribution exs)).
    destruct (addExercise_contribution t d ex Hex) as (d' & -> & Hd').
    destruct (IH (t + totalContribution ex) (d + d') Hexs) as [Ht Hd].
    rewrite Ht, Hd, Hd'. split; lra.
Qed.

Lemma contribution_bounds (ex : Exercise) :
  validExercise ex -> 0 <= doneContribution ex <= totalContribution ex.
Proof.
  intros (_ & Ht & c & Hc & Hpos).
  unfold totalContribution, doneContribution. rewrite Hc.
  destruct (ex_unit ex);
    try (destruct (Q.min_spec c (ex_target ex)) as [[? ->]|[? ->]]; lra).
  destruct (JS.Qltb 0 c); lra.
Qed.

Lemma day_bounds (exs : list Exercise) :
  Forall validExercise exs ->
  0 <= Qsum (map doneContribution exs) <= Qsum (map totalContribution exs).
Proof.
  induction 1 as [|ex exs Hex _ IH]; simpl; [lra|].
  pose proof (contribution_bounds ex Hex). lra.
Qed.

Lemma done_is_total (exs : list Exercise) :
  Forall validExercise exs -> Forall exerciseDone exs ->
  Qsum (map doneContribution exs) == Qsum (map totalContribution exs).
Proof.
  induction 1 as [|ex exs Hex _ IH]; intros Hd; simpl; [reflexivity|].
  inversion Hd as [|? ? (c & Hc & Hdone) Hds]; subst.
  rewrite (IH Hds). apply Qplus_inj_r.
  destruct Hex as (_ & Ht & _).
  unfold totalContribution, doneContribution. rewrite Hc.
  destruct (ex_unit ex);
    try (destruct (Q.min_spec c (ex_target ex)) as [[? ->]|[? ->]]; lra).
  apply Qltb_lt in Hdone. rewrite Hdone. reflexivity.
Qed.

Lemma calculateDayCompletion_ratio (day : Day) :
  validDay day ->
  (totalOfDay day == 0 -> calculateDayCompletion day == 0)
  /\ (~ totalOfDay day == 0 ->
      calculateDayCompletion day == doneOfDay day / totalOfDay day).
Proof.
  intros Hv. rewrite calculateDayCompletion_totals.
  unfold totalOfDay, doneOfDay, totals.
  destruct (totals_from (exercises day) 0 0 Hv) as [Ht Hd].
  destruct (fold_left addExercise (exercises day) (0, 0)) as [t d].
  simpl in Ht, Hd. rewrite Qplus_0_l in Ht, Hd.
  split; intros H0.
  - rewrite <- Ht in H0. apply Qeq_bool_iff in H0. rewrite H0. reflexivity.
  - destruct (Qeq_bool t 0) eqn:E.
    + apply Qeq_bool_iff in E. rewrite Ht in E. contradiction.
    + rewrite Ht, Hd. reflexivity.
Qed.

(** C4, as amended: on a valid day the ratio is in [0,1]; it is 0 on an
    empty exercise list; it is the done amount over the total, both summed
    from the per-exercise contributions (rest: 1, and 1 iff completed is
    positive; otherwise the target, and min(completed, target)), or 0 when
    the total is 0; and a day with a positive total whose exercises are all
    done yields exactly 1. *)
Theorem completion_ratio_valid_day (day : Day) :
  validDay day ->
  0 <= calculateDayCompletion day <= 1
  /\ (exercises day = [] -> calculateDayCompletion day = 0)
  /\ (totalOfDay day == 0 -> calculateDayCompletion day == 0)
  /\ (~ totalOfDay day == 0 ->
      calculateDayCompletion day == doneOfDay day / totalOfDay day)
  /\ (fullyCompleted day -> 0 < totalOfDay day ->
      calculateDayCompletion day == 1).
Proof.
  intros Hv.
  destruct (calculateDayCompletion_ratio day Hv) as [Hzero Hratio].
  pose proof (day_bounds (exercises day) Hv) as [Hlo Hhi].
  fold (doneOfDay day) in Hlo, Hhi. fold (totalOfDay day) in Hhi.
  repeat split.
  - destruct (Qeq_dec (totalOfDay day) 0) as [E|E].
    + rewrite (Hzero E). lra.
    + rewrite (Hratio E). apply Qle_shift_div_l; lra.
  - destruct (Qeq_dec (totalOfDay day) 0) as [E|E].
    + rewrite (Hzero E). lra.
    + rewrite (Hratio E). apply Qle_shift_div_r; lra.
  - intros E. unfold calculateDayCompletion. rewrite E. reflexivity.
  - exact Hzero.
  - exact Hratio.
  - intros Hdone Hpos.
    rewrite Hratio by lra.
    unfold doneOfDay. rewrite (done_is_total _ Hv Hdone).
    fold (totalOfDay day). field. lra.
Qed.

Lemma completion_ratio_valid_day_witness :
  validDay partialDay
  /\ 0 <= calculateDayCompletion partialDay <= 1
  /\ calculateDayCompletion partialDay == doneOfDay partialDay / totalOfDay partialDay.
Proof.
  assert (Hv : validDay partialDay).
  { unfold validDay; simpl.
    repeat match goal with |- Forall _ _ => constructor end;
      (split; [reflexivity | split; [simpl; lra |]]);
      eexists; (split; [reflexivity | lra]). }
  split; [exact Hv|].
  destruct (completion_ratio_valid_day partialDay Hv) as (Hr & _ & _ & Hq & _).
  split; [exact Hr|]. apply Hq. vm_compute. discriminate.
Defined.

(** The claim as written fails where the total is 0: every exercise of
    [zeroTargetDay] has reached its target, and the ratio is 0, not 1. *)
Lemma full_completion_zero_total :
  validDay zeroTargetDay /\ fullyCompleted zeroTargetDay
  /\ ~ calculateDayCompletion zeroTargetDay == 1.
Proof.
  split; [|split].
  - repeat constructor; try reflexivity; try (simpl; lra).
    exists 0. split; [reflexivity | lra].
  - repeat constructor. exists 0. split; [reflexivity | simpl; lra].
  - vm_compute. discriminate.
Qed.

(** ** Cycle adapter *)












(** The sums the code computes in these cases, as fractions. *)
Example rounded_sums :
  averageCompletion (twoPhasePlan 9 7)
  = JS.Num (7205759403792791 # 9007199254740992)
  /\ JS.binary64 (8 # 10) = 3602879701896397 # 4503599627370496
  /\ JS.binary64 (5 # 10) = 1 # 2
  /\ JS.binary64 (1 # 10) = 3602879701896397 # 36028797018963968.
Proof. repeat split; vm_compute; reflexivity. Qed.

Example determineNextDifficulty_uniform :
  determineNextDifficulty (uniformPlan 3) = 8 # 10
  /\ determineNextDifficulty (uniformPlan 5) = 1
  /\ determineNextDifficulty (uniformPlan 8) = 11 # 10
  /\ determineNextDifficulty (uniformPlan 9) = 11 # 10.
Proof. repeat split; vm_compute; reflexivity. Qed.

(** ** Equipment adapter *)

Lemma orEmpty_id (s : string) : orEmpty s = s.
Proof. destruct s; reflexivity. Qed.

Lemma allAvailable_from (equipment : list string)
    (equipmentPrefs : gmap string bool) (b : bool) :
  fold_left
    (fun all eq => if negb (hasEquipment equipmentPrefs eq) then false else all)
    equipment b
  = b && forallb (hasEquipment equipmentPrefs) equipment.
Proof.
  revert b. induction equipment as [|eq eqs IH]; intros b; simpl.
  - rewrite andb_true_r. reflexivity.
  - rewrite IH. destruct (hasEquipment equipmentPrefs eq), b; reflexivity.
Qed.

Lemma hasEquipment_own (equipmentPrefs : gmap string bool) (eq : string) :
  equipmentPrefs !! eq = Some true -> hasEquipment equipmentPrefs eq = true.
Proof. unfold hasEquipment. intros ->. reflexivity. Qed.

Lemma hasEquipment_true (equipmentPrefs : gmap string bool) (eq : string) :
  eq ∉ inheritedKeys ->
  hasEquipment equipmentPrefs eq = true <-> equipmentPrefs !! eq = Some true.
Proof.
  intros Hord. unfold hasEquipment.
  destruct (equipmentPrefs !! eq) as [[]|]; split; try congruence.
  intros H. apply bool_decide_eq_true in H. contradiction.
Qed.

Lemma keepsExercise_forallb (exercise : Template)
    (equipmentPrefs : gmap string bool) :
  keepsExercise exercise equipmentPrefs
  = match t_equipment exercise with
    | None => true
    | Some equipment => forallb (hasEquipment equipmentPrefs) equipment
    end.
Proof.
  unfold keepsExercise.
  destruct (t_equipment exercise) as [[|eq eqs]|]; try reflexivity.
  unfold allAvailable. rewrite allAvailable_from. reflexivity.
Qed.

Lemma available_keeps (exercise : Template) (equipmentPrefs : gmap string bool) :
  equipmentAvailable exercise equipmentPrefs ->
  keepsExercise exercise equipmentPrefs = true.
Proof.
  rewrite keepsExercise_forallb. unfold equipmentAvailable.
  destruct (t_equipment exercise) as [equipment|]; [|reflexivity].
  intros H. apply forallb_forall. intros x Hin.
  apply hasEquipment_own, H, list_elem_of_In, Hin.
Qed.

Lemma keepsExercise_available (exercise : Template)
    (equipmentPrefs : gmap string bool) :
  ordinaryTags exercise ->
  keepsExercise exercise equipmentPrefs = true
  <-> equipmentAvailable exercise equipmentPrefs.
Proof.
  intros Hord. split; [|apply available_keeps].
  rewrite keepsExercise_forallb. unfold equipmentAvailable, ordinaryTags in *.
  destruct (t_equipment exercise) as [equipment|]; [|reflexivity].
  rewrite forallb_forall. intros H x Hin.
  apply hasEquipment_true; [apply Hord, Hin|]. apply H, list_elem_of_In, Hin.
Qed.

Lemma Qmax_one_integer (k : Z) : Qmax 1 (inject_Z k) = inject_Z (Z.max 1 k).
Proof.
  unfold Qmax, GenericMinMax.gmax.
  destruct (1 ?= inject_Z k) eqn:E.
  - apply Qeq_alt in E. unfold Qeq in E. simpl in E.
    assert (k = 1%Z) by lia. subst k. reflexivity.
  - apply Qlt_alt in E. change 1 with (inject_Z 1) in E.
    rewrite <- Zlt_Qlt in E. rewrite Z.max_r by lia. reflexivity.
  - apply Qgt_alt in E. change 1 with (inject_Z 1) in E.
    rewrite <- Zlt_Qlt in E. rewrite Z.max_l by lia. reflexivity.
Qed.

Lemma round_nearest (x : Q) :
  x - (1 # 2) < inject_Z (JS.Math_round x) <= x + (1 # 2).
Proof.
  unfold JS.Math_round. split.
  - pose proof (Qlt_floor (x + (1 # 2))) as H.
    rewrite inject_Z_plus in H. change (inject_Z 1) with 1 in H. lra.
  - apply Qfloor_le.
Qed.

Lemma halved_target (t : Q) :
  0 < t ->
  exists z : Z,
    Qmax 1 (inject_Z (JS.Math_round (t * (1 # 2)))) = inject_Z z
    /\ (1 <= z)%Z
    /\ (1 <= t -> t / 2 - (1 # 2) < inject_Z z <= t / 2 + (1 # 2))
    /\ (t < 1 -> z = 1%Z).
Proof.
  intros Hpos. rewrite Qmax_one_integer.
  exists (Z.max 1 (JS.Math_round (t * (1 # 2)))).
  split; [reflexivity|]. split; [lia|].
  pose proof (round_nearest (t * (1 # 2))) as [Hlo Hhi].
  assert (Hhalf : t * (1 # 2) == t / 2) by (field).
  split.
  - intros H1.
    assert (Hk : (1 <= JS.Math_round (t * (1 # 2)))%Z).
    { apply Qfloor_ge_Z. change (inject_Z 1) with 1. lra. }
    rewrite Z.max_r by lia. rewrite <- Hhalf. split; assumption.
  - intros H1.
    assert (Hk : (JS.Math_round (t * (1 # 2)) < 1)%Z).
    { apply Qfloor_lt_Z. change (inject_Z 1) with 1. lra. }
    lia.
Qed.

(** In the catalog every target is positive, and the entries of unit
    [rest] require no equipment: they are returned as they are. *)
Lemma catalog_rest_kept (i : nat) (equipmentPrefs : gmap string bool) :
  Forall (fun t => 0 < t_target t
                   /\ (t_unit t = Rest ->
                       adaptExerciseForEquipment t equipmentPrefs = t))
         (getDayTemplate i).
Proof.
  do 7 (destruct i as [|i];
        [repeat (constructor; [split; [reflexivity|]; intros H;
                               try discriminate H; reflexivity|]);
         constructor|]).
  constructor.
Qed.

(** C5, as amended: when the exercise requires no equipment or every
    required tag is available, the exercise is returned as it is;
    otherwise, no required tag being the name of a member of
    [Object.prototype], the name gets the adaptation marker, the
    description the adaptation note, unit and equipment stay, and a
    positive target, whatever the unit, becomes its half rounded to the
    nearest integer (halves upwards) and at least 1.  On a store of
    objects no existing object, the argument in particular, is
    modified. *)
Theorem adaptExerciseForEquipment_spec (exercise : Template)
    (equipmentPrefs : gmap string bool) :
  (equipmentAvailable exercise equipmentPrefs ->
   adaptExerciseForEquipment exercise equipmentPrefs = exercise)
  /\ (ordinaryTags exercise ->
      ~ equipmentAvailable exercise equipmentPrefs ->
      let r := adaptExerciseForEquipment exercise equipmentPrefs in
      t_name r = t_name exercise +:+ adaptedMarker
      /\ t_description r = t_description exercise +:+ adaptedNote
      /\ t_unit r = t_unit exercise
      /\ t_equipment r = t_equipment exercise
      /\ (0 < t_target exercise ->
          exists z : Z,
            t_target r = inject_Z z /\ (1 <= z)%Z
            /\ (1 <= t_target exercise ->
                t_target exercise / 2 - (1 # 2) < inject_Z z
                  <= t_target exercise / 2 + (1 # 2))
            /\ (t_target exercise < 1 -> z = 1%Z)))
  /\ (forall (heap : list Template) (ref : nat),
      heap !! ref = Some exercise ->
      let '(heap', ref') :=
        adaptExerciseForEquipment_ref heap ref equipmentPrefs in
      heap' !! ref = Some exercise
      /\ (forall i obj, heap !! i = Some obj -> heap' !! i = Some obj)
      /\ heap' !! ref' = Some (adaptExerciseForEquipment exercise equipmentPrefs)).
Proof.
  unfold adaptExerciseForEquipment, adaptExerciseForEquipment_ref.
  split; [|split].
  - intros Hav. rewrite (available_keeps _ _ Hav). reflexivity.
  - intros Hord Hmiss.
    pose proof (keepsExercise_available exercise equipmentPrefs Hord) as Hk.
    destruct (keepsExercise exercise equipmentPrefs);
      [exfalso; apply Hmiss, Hk; reflexivity|].
    simpl. rewrite orEmpty_id. repeat split; try reflexivity.
    apply halved_target.
  - intros heap ref Href. rewrite Href.
    destruct (keepsExercise exercise equipmentPrefs).
    + repeat split; auto.
    + split; [|split].
      * rewrite lookup_app_l; [exact Href|]. eapply lookup_lt_Some, Href.
      * intros i obj Hi. rewrite lookup_app_l; [exact Hi|].
        eapply lookup_lt_Some, Hi.
      * rewrite lookup_app_r by lia. rewrite Nat.sub_diag. reflexivity.
Qed.

Lemma dumbbells_ordinary (e : Template) :
  t_equipment e = Some ["gantere"] -> ordinaryTags e.
Proof.
  intros He. unfold ordinaryTags. rewrite He. intros eq Hin.
  apply list_elem_of_singleton in Hin. subst eq.
  apply (bool_decide_eq_false_1 ("gantere" ∈ inheritedKeys)).
  vm_compute. reflexivity.
Qed.

Lemma adaptExerciseForEquipment_spec_witness :
  ordinaryTags squats
  /\ ~ equipmentAvailable squats noDumbbells
  /\ 0 < t_target squats
  /\ t_name (adaptExerciseForEquipment squats noDumbbells)
     = "Genuflexiuni cu gantere (adaptat)"
  /\ exists z : Z,
       t_target (adaptExerciseForEquipment squats noDumbbells) = inject_Z z
       /\ (1 <= z)%Z.
Proof.
  assert (Hord : ordinaryTags squats) by (apply dumbbells_ordinary; reflexivity).
  assert (Hmiss : ~ equipmentAvailable squats noDumbbells).
  { intros H. specialize (H "gantere" ltac:(constructor)).
    vm_compute in H. discriminate. }
  assert (Hpos : 0 < t_target squats) by reflexivity.
  split; [exact Hord|]. split; [exact Hmiss|]. split; [exact Hpos|].
  destruct (adaptExerciseForEquipment_spec squats noDumbbells)
    as (_ & H & _).
  destruct (H Hord Hmiss) as (Hname & _ & _ & _ & Htarget).
  split; [exact Hname|].
  destruct (Htarget Hpos) as (z & Hz & Hone & _).
  exists z. split; assumption.
Defined.

(** The claim as written fails on targets it says are left alone: with
    the dumbbells missing, a rest exercise of target 2 gets target 1, and
    a target of 0 becomes 1. *)
Lemma adapt_rest_and_zero_targets :
  ~ equipmentAvailable restWithDumbbells noDumbbells
  /\ t_unit restWithDumbbells = Rest
  /\ ~ t_target (adaptExerciseForEquipment restWithDumbbells noDumbbells)
       == t_target restWithDumbbells
  /\ ~ equipmentAvailable zeroWithDumbbells noDumbbells
  /\ t_target zeroWithDumbbells == 0
  /\ ~ t_target (adaptExerciseForEquipment zeroWithDumbbells noDumbbells)
       == t_target zeroWithDumbbells.
Proof.
  assert (Hmiss : forall e, t_equipment e = Some ["gantere"] ->
                            ~ equipmentAvailable e noDumbbells).
  { intros e He H. unfold equipmentAvailable in H. rewrite He in H.
    specialize (H "gantere" ltac:(constructor)).
    vm_compute in H. discriminate. }
  repeat split; try (apply Hmiss; reflexivity); vm_compute; discriminate.
Qed.

(** A required tag that names a member of [Object.prototype] counts as
    available although the preferences do not have it: the exercise is
    returned as it is. *)
Example inherited_tag_counts_as_available :
  ~ equipmentAvailable needsConstructor ∅
  /\ adaptExerciseForEquipment needsConstructor ∅ = needsConstructor.
Proof.
  split; [|reflexivity].
  intros H. specialize (H "constructor" ltac:(constructor)).
  rewrite lookup_empty in H. discriminate.
Qed.

(** ** Completion tracker: what a recording does to the plan *)

Lemma calculateDayCompletion_exercises (d1 d2 : Day) :
  exercises d1 = exercises d2 ->
  calculateDayCompletion d1 = calculateDayCompletion d2.
Proof. unfold calculateDayCompletion. intros ->. reflexivity. Qed.

Lemma withExercises_same (day : Day) : withExercises day (exercises day) = day.
Proof. destruct day; reflexivity. Qed.

Section RecordDay.

Context {host : Host}.
Variables (plan : Plan) (dayIndex : nat) (completedArray : list JS.value)
          (fb : string) (day : Day) (exs carryOver : list Exercise).
Hypothesis Hday : days plan !! dayIndex = Some day.
Hypothesis Hrec :
  recordExercises completedArray 0 (exercises day) = (exs, carryOver).

Lemma recordDay_result :
  exists plan',
    recordDay plan dayIndex completedArray fb = Some plan'
    /\ startDate plan' = startDate plan
    /\ endDate plan' = endDate plan
    /\ difficulty plan' = difficulty plan
    /\ length (days plan') = length (days plan)
    /\ days plan' !! dayIndex = Some (recordedDay exs fb)
    /\ (forall j, j <> dayIndex -> j <> (dayIndex + 1)%nat ->
        days plan' !! j = days plan !! j)
    /\ (forall next, days plan !! (dayIndex + 1)%nat = Some next ->
        days plan' !! (dayIndex + 1)%nat
        = Some (withExercises next (exercises next ++ carryOver))).
Proof.
  pose proof (lookup_lt_Some _ _ _ Hday) as Hlt.
  unfold recordDay. rewrite Hday. simpl. rewrite Hrec.
  eexists. split; [reflexivity|]. simpl.
  repeat split.
  - rewrite length_insert. case_match; [rewrite length_alter|];
      apply length_insert.
  - apply list_lookup_insert_eq.
    case_match; [rewrite length_alter|]; rewrite length_insert; exact Hlt.
  - intros j Hj Hj'. rewrite list_lookup_insert_ne by congruence.
    case_match.
    + rewrite list_lookup_alter_ne by congruence.
      apply list_lookup_insert_ne. congruence.
    + apply list_lookup_insert_ne. congruence.
  - intros next Hnext.
    pose proof (lookup_lt_Some _ _ _ Hnext) as Hlt'.
    rewrite list_lookup_insert_ne by lia.
    rewrite (bool_decide_eq_true_2 (dayIndex < length (days plan) - 1)%nat) by lia.
    rewrite andb_true_r.
    case_bool_decide as Hc.
    + rewrite list_lookup_alter_eq, list_lookup_insert_ne by lia.
      rewrite Hnext. reflexivity.
    + rewrite list_lookup_insert_ne by lia.
      destruct carryOver; [|simpl in Hc; lia].
      rewrite app_nil_r, withExercises_same. exact Hnext.
Qed.

End RecordDay.

(** ** Completion tracker: the loop over the exercises *)

Lemma Qmax_zero_of_zero (q : Q) : q == 0 -> Qmax 0 q = 0.
Proof.
  intros E. unfold Qmax, GenericMinMax.gmax.
  assert (H : (0 ?= q) = Eq) by (apply Qeq_alt; symmetry; exact E).
  rewrite H. reflexivity.
Qed.

(** The stored value of a slot that holds a number, [undefined] or
    [null], or of a missing slot: the recorded amount. *)
Lemma completedOf_number {host : Host} (completedArray : list JS.value)
    (idx : nat) :
  match completedArray !! idx with
  | Some v => numberOrEmpty v
  | None => True
  end ->
  completedOf completedArray idx = JS.Num (recordedAmount completedArray idx).
Proof.
  unfold completedOf, recordedAmount, suppliedOrZero, JS.index.
  destruct (completedArray !! idx) as [[| |[|q]|s|b]|]; simpl;
    try reflexivity; try contradiction.
  intros _. unfold JS.or. simpl.
  destruct (Qeq_bool q 0) eqn:E; simpl; [|reflexivity].
  apply Qeq_bool_iff in E. rewrite (Qmax_zero_of_zero q E). reflexivity.
Qed.



Lemma Math_max_zero (n : JS.number) (c : Q) :
  JS.Math_max (JS.Num 0) n = JS.Num c -> 0 <= c.
Proof.
  destruct n as [|q]; simpl; [discriminate|].
  intros H. inversion H. apply Q.le_max_l.
Qed.

(** A stored value is never a negative number. *)
Lemma completedOf_nonneg {host : Host} (completedArray : list JS.value)
    (idx : nat) (c : Q) :
  completedOf completedArray idx = JS.Num c -> 0 <= c.
Proof. apply Math_max_zero. Qed.

Lemma numbersOnly_lookup (completedArray : list JS.value) (idx : nat) :
  numbersOnly completedArray ->
  match completedArray !! idx with
  | Some v => numberOrEmpty v
  | None => True
  end.
Proof.
  intros H. destruct (completedArray !! idx) as [v|] eqn:E; [|exact I].
  exact (proj1 (Forall_lookup _ _) H idx v E).
Qed.

Lemma recordExercise_result {host : Host} (completedArray : list JS.value)
    (idx : nat) (ex : Exercise) :
  let ex' := setCompleted ex (completedOf completedArray idx) in
  recordExercise completedArray idx ex
  = (ex', if JS.Qltb 0 (remainderOf ex')
          then [carryOverOf ex' (remainderOf ex')] else []).
Proof.
  pose proof (completedOf_nonneg completedArray idx) as Hpos.
  unfold recordExercise, remainingOf, remainderOf, setCompleted.
  destruct (completedOf completedArray idx) as [|c]; [reflexivity|].
  specialize (Hpos c eq_refl).
  simpl. unfold JS.orQ.
  destruct (Qeq_bool (ex_target ex) 0) eqn:E;
    [|destruct (JS.Qltb 0 (ex_target ex - c)); reflexivity].
  apply Qeq_bool_iff in E.
  assert (H1 : JS.Qltb 0 (0 - c) = false) by (apply Qltb_ge; lra).
  assert (H2 : JS.Qltb 0 (ex_target ex - c) = false) by (apply Qltb_ge; lra).
  rewrite H1, H2. reflexivity.
Qed.

Lemma recordExercises_result {host : Host} (completedArray : list JS.value)
    (exs : list Exercise) (idx : nat) :
  let exs' := (recordExercises completedArray idx exs).1 in
  length exs' = length exs
  /\ (forall j ex, exs !! j = Some ex ->
      exs' !! j
      = Some (setCompleted ex (completedOf completedArray (idx + j))))
  /\ (recordExercises completedArray idx exs).2 = carryOverFor exs'.
Proof.
  revert idx. induction exs as [|ex exs IH]; intros idx.
  - simpl. repeat split. intros j ex H. inversion H.
  - destruct (IH (S idx)) as (Hlen & Hlook & Hcarry).
    cbn [recordExercises]. rewrite recordExercise_result.
    destruct (recordExercises completedArray (S idx) exs) as [rest' carry].
    simpl in Hlen, Hlook, Hcarry. simpl. repeat split.
    + rewrite Hlen. reflexivity.
    + intros [|j] e He; simpl in He |- *.
      * inversion He; subst. rewrite Nat.add_0_r. reflexivity.
      * rewrite (Hlook j e He). rewrite Nat.add_succ_r. reflexivity.
    + unfold carryOverFor. cbn [List.filter].
      fold (remainderOf (setCompleted ex (completedOf completedArray idx))).
      destruct (JS.Qltb 0 _); simpl; rewrite Hcarry; reflexivity.
Qed.

(** With numbers in the slots, the recorded exercises are the exercises
    with the recorded amounts. *)
Lemma recordExercises_amounts {host : Host} (completedArray : list JS.value)
    (exs : list Exercise) :
  numbersOnly completedArray ->
  (recordExercises completedArray 0 exs).1 = withAmounts completedArray exs.
Proof.
  intros Hnum.
  destruct (recordExercises_result completedArray exs 0) as (Hlen & Hlook & _).
  apply list_eq. intros j. unfold withAmounts. rewrite list_lookup_imap.
  destruct (exs !! j) as [ex|] eqn:E.
  - rewrite (Hlook j ex E). simpl.
    rewrite completedOf_number by (apply numbersOnly_lookup, Hnum).
    reflexivity.
  - simpl. apply lookup_ge_None_2. rewrite Hlen.
    apply lookup_ge_None_1, E.
Qed.

Lemma carryOver_targets (exs : list Exercise) :
  Qsum (map ex_target (carryOverFor exs)) == totalUnmet exs.
Proof.
  unfold carryOverFor, totalUnmet.
  induction exs as [|ex exs IH]; simpl; [reflexivity|].
  destruct (JS.Qltb 0 (remainderOf ex)) eqn:E; simpl; rewrite IH.
  - apply Qltb_lt in E.
    destruct (Q.max_spec 0 (remainderOf ex)) as [[? ->]|[? ->]]; lra.
  - apply Qltb_ge in E.
    destruct (Q.max_spec 0 (remainderOf ex)) as [[? ->]|[? ->]]; lra.
Qed.

(** The targets carried over add up to what the recorded amounts leave
    unmet. *)
Lemma carryOver_total (completedArray : list JS.value) (exs : list Exercise) :
  Qsum (map ex_target (carryOverFor (withAmounts completedArray exs)))
  == totalUnmetOf completedArray exs.
Proof.
  rewrite carryOver_targets. unfold totalUnmet, totalUnmetOf, withAmounts.
  change (map ?f ?l) with (f <$> l). rewrite fmap_imap. reflexivity.
Qed.

(** ** Completion tracker: the user after a recording *)

Lemma updateDayCompletion_result {host : Host} (user : User)
    (planRef dayIndex : nat) (completedArray : list JS.value) (fb : string)
    (plan : Plan) (day : Day) :
  plans user !! planRef = Some plan ->
  days plan !! dayIndex = Some day ->
  exists plan',
    recordDay plan dayIndex completedArray fb = Some plan'
    /\ updateDayCompletion user planRef dayIndex completedArray fb
       = Some {| password := password user;
                 plans :=
                   if bool_decide (length (days plan) - 1 <= dayIndex)%nat
                   then <[planRef := plan']> (plans user) ++ [nextPlan user plan']
                   else <[planRef := plan']> (plans user);
                 preferences := preferences user |}.
Proof.
  intros Hplan Hday.
  destruct (recordExercises completedArray 0 (exercises day))
    as [exs carryOver] eqn:Hrec.
  destruct (recordDay_result plan dayIndex completedArray fb day exs carryOver
              Hday Hrec) as (plan' & Hrd & _ & _ & _ & Hlen & _).
  exists plan'. split; [exact Hrd|].
  unfold updateDayCompletion. rewrite Hplan. simpl. rewrite Hrd. simpl.
  rewrite Hlen. reflexivity.
Qed.

(** In a zone without daylight saving [setDate] moves an instant by whole
    days of 24 hours. *)
Lemma addDays_constant {host : Host} (tz date n : Z) :
  constantOffset tz -> addDays date n = (date + n * msPerDay)%Z.
Proof.
  intros Htz. unfold addDays, UTC, LocalTime. rewrite !Htz. lia.
Qed.

Lemma date_after {host : Host} (tz isoDay n : Z) :
  constantOffset tz ->
  toISODate (addDays (Date_parse isoDay) n) = (isoDay + n)%Z.
Proof.
  intros Htz. rewrite (addDays_constant tz) by exact Htz.
  unfold toISODate, Date_parse.
  rewrite <- Z.mul_add_distr_r. apply Z.div_mul. discriminate.
Qed.

Lemma addDays_add {host : Host} (tz date n m : Z) :
  constantOffset tz ->
  addDays (addDays date n) m = addDays date (n + m).
Proof. intros Htz. rewrite !(addDays_constant tz) by exact Htz. lia. Qed.

Lemma nextPlan_dates {host : Host} (tz : Z) (user : User) (plan : Plan) :
  constantOffset tz ->
  startDate (nextPlan user plan) = (endDate plan + 1)%Z
  /\ endDate (nextPlan user plan) = (startDate (nextPlan user plan) + 29)%Z.
Proof.
  intros Htz. unfold nextPlan, createPlan. cbn [startDate endDate days].
  rewrite (addDays_add tz), !(date_after tz) by exact Htz. split; lia.
Qed.

Lemma dropString_app (p s : string) :
  dropString (String.length p) (p +:+ s) = s.
Proof. induction p as [|a p IH]; [destruct s; reflexivity | exact IH]. Qed.

Lemma length_app_string (p s : string) :
  String.length (p +:+ s) = (String.length p + String.length s)%nat.
Proof. induction p as [|a p IH]; simpl; [reflexivity | rewrite IH; reflexivity]. Qed.

Lemma isCarryOver_endsWith (ex : Exercise) :
  isCarryOver ex -> endsWith recoveryMarker (ex_name ex) = true.
Proof.
  intros [source ->]. unfold endsWith.
  rewrite length_app_string, Nat.add_sub, dropString_app.
  apply String.eqb_refl.
Qed.

(** The names the generator can give: the catalog name, with or without
    the adaptation marker; none ends with the recovery marker. *)
Lemma catalog_names_not_recovery (i : nat) :
  forallb
    (fun t => negb (endsWith recoveryMarker (t_name t))
              && negb (endsWith recoveryMarker (t_name t +:+ adaptedMarker)))
    (getDayTemplate i) = true.
Proof.
  do 7 (destruct i as [|i]; [vm_compute; reflexivity|]). reflexivity.
Qed.

Lemma planExercise_name (d : Q) (prefs : option Preferences) (t : Template) :
  ex_name (planExercise d prefs t) = t_name t
  \/ ex_name (planExercise d prefs t) = t_name t +:+ adaptedMarker.
Proof.
  unfold planExercise, adaptExerciseForEquipment. cbn [ex_name].
  destruct prefs as [p|]; [|left; reflexivity].
  destruct (keepsExercise t (pref_equipment p)); [left | right]; reflexivity.
Qed.

Lemma createPlan_no_carryOver {host : Host} (start : Z) (d : Q)
    (prefs : option Preferences) (i : nat) (day : Day) (ex : Exercise) :
  days (createPlan start d prefs) !! i = Some day ->
  ex ∈ exercises day -> ~ isCarryOver ex.
Proof.
  unfold createPlan. cbn [days]. intros Hday Hex Hco.
  apply list_lookup_fmap_Some in Hday as (k & -> & _).
  unfold planDay in Hex. cbn [exercises] in Hex.
  apply list_elem_of_fmap in Hex as (t & -> & Ht).
  apply isCarryOver_endsWith in Hco.
  pose proof (catalog_names_not_recovery (k mod 7)) as Hall.
  rewrite forallb_forall in Hall.
  apply list_elem_of_In, Hall in Ht.
  apply andb_true_iff in Ht as [H1 H2].
  destruct (planExercise_name d prefs t) as [E|E]; rewrite E in Hco;
    rewrite Hco in *; discriminate.
Qed.

(** What any recording on an existing day does, whatever the length of
    the plan. *)
Lemma record_day_frame {host : Host} (user : User) (planRef k : nat)
    (completedArray : list JS.value) (fb : string) (plan : Plan) (day : Day) :
  plans user !! planRef = Some plan ->
  days plan !! k = Some day ->
  exists user' plan' exs',
    updateDayCompletion user planRef k completedArray fb = Some user'
    /\ plans user' !! planRef = Some plan'
    /\ days plan' !! k = Some (recordedDay exs' fb)
    /\ (forall next, days plan !! (k + 1)%nat = Some next ->
        days plan' !! (k + 1)%nat
        = Some (withExercises next (exercises next ++ carryOverFor exs'))).
Proof.
  intros Hplan Hday.
  pose proof (lookup_lt_Some _ _ _ Hplan) as HplanLt.
  destruct (recordExercises completedArray 0 (exercises day))
    as [exs carryOver] eqn:Hrec.
  destruct (recordDay_result plan k completedArray fb day exs carryOver
              Hday Hrec) as (plan' & Hrd & _ & _ & _ & _ & Hk & _ & Hnext).
  destruct (updateDayCompletion_result user planRef k completedArray fb
              plan day Hplan Hday) as (plan'' & Hrd' & Hupd).
  rewrite Hrd in Hrd'. inversion Hrd'; subst plan''. clear Hrd'.
  pose proof (recordExercises_result completedArray (exercises day) 0)
    as (_ & _ & Hcarry).
  rewrite Hrec in Hcarry. cbn [fst snd] in Hcarry. subst carryOver.
  eexists _, plan', exs. split; [exact Hupd|]. cbn [plans].
  split; [|split; [exact Hk | exact Hnext]].
  destruct (bool_decide _);
    [rewrite lookup_app_l by (rewrite length_insert; lia)|];
    apply list_lookup_insert_eq; exact HplanLt.
Qed.

(** C1: on a 30-day plan, a recording of numbers on day [k] stores on
    each exercise of day [k] the amount recorded for it; for [k < 29] day
    [k+1] keeps its exercises and receives after them one carry-over
    exercise for each exercise of day [k] whose target exceeds the
    recorded amount, in the order of day [k], with the difference as its
    target, so that the carry-over targets add up to the total unmet
    remainder; no other day of the plan and no other plan changes, and no
    plan is added.  For [k = 29] no existing day other than day 29
    changes, and the one plan that is added holds no carry-over
    exercise. *)
Theorem record_carry_over {host : Host} (user : User) (planRef k : nat)
    (completedArray : list JS.value) (fb : string) (plan : Plan) (day : Day) :
  plans user !! planRef = Some plan ->
  length (days plan) = 30%nat ->
  days plan !! k = Some day ->
  numbersOnly completedArray ->
  exists user' plan' exs',
    updateDayCompletion user planRef k completedArray fb = Some user'
    /\ plans user' !! planRef = Some plan'
    /\ days plan' !! k = Some (recordedDay exs' fb)
    /\ exs' = withAmounts completedArray (exercises day)
    /\ (forall j, j <> k -> j <> (k + 1)%nat -> days plan' !! j = days plan !! j)
    /\ (forall r, r <> planRef -> (r < length (plans user))%nat ->
        plans user' !! r = plans user !! r)
    /\ ((k < 29)%nat ->
        length (plans user') = length (plans user)
        /\ exists next carryOver,
             days plan !! (k + 1)%nat = Some next
             /\ days plan' !! (k + 1)%nat
                = Some (withExercises next (exercises next ++ carryOver))
             /\ carryOver = carryOverFor exs'
             /\ Qsum (map ex_target carryOver)
                == totalUnmetOf completedArray (exercises day))
    /\ (k = 29%nat ->
        exists newPlan,
          plans user' = <[planRef := plan']> (plans user) ++ [newPlan]
          /\ (forall j, j <> 29%nat -> days plan' !! j = days plan !! j)
          /\ (forall i d ex, days newPlan !! i = Some d ->
              ex ∈ exercises d -> ~ isCarryOver ex)).
Proof.
  intros Hplan Hlen Hday Hnum.
  pose proof (lookup_lt_Some _ _ _ Hplan) as HplanLt.
  pose proof (lookup_lt_Some _ _ _ Hday) as HdayLt.
  destruct (recordExercises completedArray 0 (exercises day))
    as [exs carryOver] eqn:Hrec.
  destruct (recordDay_result plan k completedArray fb day exs carryOver
              Hday Hrec)
    as (plan' & Hrd & _ & _ & _ & Hlen' & Hk & Hframe & Hnext).
  destruct (updateDayCompletion_result user planRef k completedArray fb
              plan day Hplan Hday) as (plan'' & Hrd' & Hupd).
  rewrite Hrd in Hrd'. inversion Hrd'; subst plan''. clear Hrd'.
  pose proof (recordExercises_result completedArray (exercises day) 0)
    as (_ & _ & Hcarry).
  pose proof (recordExercises_amounts completedArray (exercises day) Hnum)
    as Hamounts.
  rewrite Hrec in Hcarry, Hamounts. cbn [fst snd] in Hcarry, Hamounts.
  subst carryOver.
  rewrite Hlen in Hupd, HdayLt. change (30 - 1)%nat with 29%nat in Hupd.
  destruct (decide (k = 29%nat)) as [->|Hne].
  - rewrite bool_decide_eq_true_2 in Hupd by lia.
    eexists _, plan', exs. split; [exact Hupd|]. cbn [plans].
    split.
    { rewrite lookup_app_l by (rewrite length_insert; lia).
      apply list_lookup_insert_eq; exact HplanLt. }
    split; [exact Hk|]. split; [exact Hamounts|]. split; [exact Hframe|].
    split.
    { intros r Hr Hrlt. rewrite lookup_app_l by (rewrite length_insert; lia).
      apply list_lookup_insert_ne; congruence. }
    split; [lia|]. intros _.
    exists (nextPlan user plan').
    split; [reflexivity|]. split.
    + intros j Hj.
      destruct (decide (j = 30%nat)) as [->|Hj'].
      * rewrite !lookup_ge_None_2 by lia. reflexivity.
      * apply Hframe; simpl; lia.
    + intros i d ex. unfold nextPlan. apply createPlan_no_carryOver.
  - rewrite bool_decide_eq_false_2 in Hupd by lia.
    eexists _, plan', exs. split; [exact Hupd|]. cbn [plans].
    split; [apply list_lookup_insert_eq; exact HplanLt|].
    split; [exact Hk|]. split; [exact Hamounts|]. split; [exact Hframe|].
    split; [intros r Hr Hrlt; apply list_lookup_insert_ne; congruence|].
    split; [|intros ->; congruence]. intros _.
    split; [apply length_insert|].
    destruct (lookup_lt_is_Some_2 (days plan) (k + 1)) as [next Hn]; [lia|].
    exists next, (carryOverFor exs).
    split; [exact Hn|]. split; [apply Hnext, Hn|]. split; [reflexivity|].
    rewrite Hamounts. apply carryOver_total.
Qed.

Lemma record_carry_over_witness :
  numbersOnly mondayPartial
  /\ exists user' plan' exs',
       updateDayCompletion sampleUser 0 0 mondayPartial "ok" = Some user'
       /\ plans user' !! 0%nat = Some plan'
       /\ days plan' !! 0%nat = Some (recordedDay exs' "ok")
       /\ exs' = withAmounts mondayPartial (exercises (planDay 1 (Some fullPreferences) 0)).
Proof.
  assert (Hnum : numbersOnly mondayPartial) by (repeat constructor).
  split; [exact Hnum|].
  destruct (record_carry_over sampleUser 0 0 mondayPartial "ok" samplePlan
              (planDay 1 (Some fullPreferences) 0) eq_refl eq_refl eq_refl Hnum)
    as (u & p & e & H1 & H2 & H3 & H4 & _).
  exists u, p, e. repeat split; assumption.
Defined.

(** The scenario of the specification: 20 of 30 squats on day 0 leave a
    carry-over of 10 at the end of day 1. *)
Example carry_over_scenario :
  (fun user' =>
     map (fun p => map (fun ex => (ex_name ex, ex_target ex))
                       (exercises (default (mkDay [] "" 0) (days p !! 1%nat))))
         (plans user'))
  <$> updateDayCompletion sampleUser 0 0 mondayPartial "ok"
  = Some [[("Tracțiuni asistate", 15); ("Tracțiuni negative", 10);
           ("Ramat cu gantera", 30); ("Biceps curls", 30);
           ("Plank lateral", 60);
           ("Genuflexiuni cu gantere (recuperare)", 10)]].
Proof. vm_compute. reflexivity. Qed.

Example carry_over_scenario_unmet :
  totalUnmetOf mondayPartial (exercises (planDay 1 (Some fullPreferences) 0))
  == 10.
Proof. vm_compute. reflexivity. Qed.




Example sloppy_form_stored :
  (fun user' =>
     map (fun p => map ex_completed
                       (exercises (default (mkDay [] "" 0) (days p !! 0%nat))))
         (plans user'))
  <$> updateDayCompletion sampleUser 0 0 sloppyForm ""
  = Some [[JS.Num 0; JS.Num 0; JS.Num 0; JS.Num (5 # 2); JS.Num 12]].
Proof. vm_compute. reflexivity. Qed.

(** The array the save button builds holds numbers only: text that is
    not numeric reaches the recording as [NaN] and is stored as 0. *)
Lemma non_numeric_input_stored_zero {host : Host} (inputs : list string)
    (idx : nat) (text : string) :
  inputs !! idx = Some text ->
  StringToNumber text = JS.NaN ->
  numbersOnly (completedTasks inputs)
  /\ completedOf (completedTasks inputs) idx = JS.Num 0.
Proof.
  intros Hin Hnan. split.
  - unfold numbersOnly, completedTasks. apply Forall_fmap, Forall_true.
    intros x. exact I.
  - rewrite completedOf_number.
    + unfold recordedAmount, suppliedOrZero, completedTasks.
      rewrite list_lookup_fmap, Hin. simpl. rewrite Hnan. reflexivity.
    + unfold completedTasks. rewrite list_lookup_fmap.
      destruct (inputs !! idx); exact I.
Qed.

(** C9: a recording on day [k < 29] changes, on day [k+1], the exercise
    list only: feedback and cached completion stay.  The cache is
    therefore not the ratio of the extended list in general: after day 1
    was done in full and day 0 then skipped, day 1 still caches 1 while its
    exercises give less. *)
Theorem next_day_cache_kept :
  (forall (host : Host) (user : User) (planRef k : nat)
          (completedArray : list JS.value) (fb : string) (plan : Plan)
          (next : Day),
      plans user !! planRef = Some plan ->
      length (days plan) = 30%nat ->
      (k < 29)%nat ->
      days plan !! (k + 1)%nat = Some next ->
      exists user' plan' next',
        updateDayCompletion user planRef k completedArray fb = Some user'
        /\ plans user' !! planRef = Some plan'
        /\ days plan' !! (k + 1)%nat = Some next'
        /\ feedback next' = feedback next
        /\ completion next' = completion next
        /\ exists carryOver, exercises next' = exercises next ++ carryOver)
  /\ (exists user' plan' next',
        updateDayCompletion tuesdayRecorded 0 0 [] "N/A" = Some user'
        /\ plans user' !! 0%nat = Some plan'
        /\ days plan' !! 1%nat = Some next'
        /\ completion next' == 1
        /\ ~ completion next' == calculateDayCompletion next').
Proof.
  split.
  - intros host user planRef k completedArray fb plan next Hplan Hlen Hk Hnext.
    destruct (lookup_lt_is_Some_2 (days plan) k) as [day Hday]; [lia|].
    destruct (record_day_frame user planRef k completedArray fb plan day
                Hplan Hday) as (user' & plan' & exs & Hupd & Hp & _ & Hn).
    exists user', plan', (withExercises next (exercises next ++ carryOverFor exs)).
    split; [exact Hupd|]. split; [exact Hp|]. split; [exact (Hn next Hnext)|].
    repeat split. eexists. reflexivity.
  - exists mondaySkipped,
      (default samplePlan (plans mondaySkipped !! 0%nat)),
      (default (mkDay [] "" 0)
         (days (default samplePlan (plans mondaySkipped !! 0%nat)) !! 1%nat)).
    split; [vm_compute; reflexivity|]. split; [vm_compute; reflexivity|].
    split; [vm_compute; reflexivity|]. split; [vm_compute; reflexivity|].
    vm_compute. discriminate.
Qed.

Lemma next_day_cache_kept_witness :
  exists user' plan' next',
    updateDayCompletion sampleUser 0 0 mondayPartial "ok" = Some user'
    /\ plans user' !! 0%nat = Some plan'
    /\ days plan' !! 1%nat = Some next'
    /\ feedback next' = "" /\ completion next' = 0.
Proof.
  destruct (proj1 next_day_cache_kept utcHost sampleUser 0%nat 0%nat
              mondayPartial "ok" samplePlan (planDay 1 (Some fullPreferences) 1)
              eq_refl eq_refl ltac:(lia) eq_refl)
    as (u & p & d & H1 & H2 & H3 & H4 & H5 & _).
  exists u, p, d. repeat split; assumption.
Defined.

(** ** Cycle end *)

Lemma baselineDifficulty_preference (user : User) (p : Preferences) :
  preferences user = Some p -> ~ pref_difficulty p == 0 ->
  baselineDifficulty user = pref_difficulty p.
Proof.
  intros Hp Hnz. unfold baselineDifficulty, prefsOf, JS.orQ. rewrite Hp.
  destruct (Qeq_bool (pref_difficulty p) 0) eqn:E; [|reflexivity].
  apply Qeq_bool_iff in E. contradiction.
Qed.

Lemma nextDifficultyOf_range (avg : JS.number) :
  nextDifficultyOf avg = 11 # 10 \/ nextDifficultyOf avg = 8 # 10
  \/ nextDifficultyOf avg = 1.
Proof.
  destruct avg as [|a]; simpl; [auto|].
  destruct (Qle_bool _ a); [auto|]. destruct (JS.Qltb a _); auto.
Qed.

(** What a recording of the last day of a 30-day plan does to the
    history. *)
Lemma record_last_day {host : Host} (user : User) (planRef : nat)
    (completedArray : list JS.value) (fb : string) (plan : Plan) :
  plans user !! planRef = Some plan ->
  length (days plan) = 30%nat ->
  exists plan',
    recordDay plan 29 completedArray fb = Some plan'
    /\ startDate plan' = startDate plan
    /\ endDate plan' = endDate plan
    /\ length (days plan') = 30%nat
    /\ updateDayCompletion user planRef 29 completedArray fb
       = Some {| password := password user;
                 plans := <[planRef := plan']> (plans user) ++ [nextPlan user plan'];
                 preferences := preferences user |}.
Proof.
  intros Hplan Hlen.
  destruct (lookup_lt_is_Some_2 (days plan) 29) as [day Hday]; [lia|].
  destruct (recordExercises completedArray 0 (exercises day))
    as [exs carryOver] eqn:Hrec.
  destruct (recordDay_result plan 29 completedArray fb day exs carryOver
              Hday Hrec) as (plan' & Hrd & Hs & He & _ & Hlen' & _).
  destruct (updateDayCompletion_result user planRef 29 completedArray fb
              plan day Hplan Hday) as (plan'' & Hrd' & Hupd).
  rewrite Hrd in Hrd'. inversion Hrd'; subst plan''. clear Hrd'.
  rewrite Hlen in Hupd. rewrite bool_decide_eq_true_2 in Hupd by lia.
  exists plan'. repeat split; try assumption. congruence.
Qed.

(** The plan pushed at the end of a cycle: newly generated days, the date
    after the end date as [setDate] computes it, and the baseline
    difficulty times one of the three factors. *)
Lemma nextPlan_fresh {host : Host} (user : User) (plan : Plan) :
  let s := nextPlan user plan in
  startDate s = toISODate (addDays (Date_parse (endDate plan)) 1)
  /\ days s = map (planDay (difficulty s) (Some (prefsOf user))) (seq 0 30)
  /\ difficulty s = baselineDifficulty user * determineNextDifficulty plan
  /\ exists f, (f = 11 # 10 \/ f = 8 # 10 \/ f = 1)
               /\ difficulty s = baselineDifficulty user * f.
Proof.
  unfold nextPlan, createPlan. cbn [startDate days difficulty].
  repeat split. eexists. split; [apply nextDifficultyOf_range | reflexivity].
Qed.

(** C2 at its failing input: in Bucharest, for a plan that ends on
    2024-03-31, the day the clocks go forward, the plan pushed by the
    recording of the last day starts on 2024-03-31 itself, not the day
    after; and the plan generated in New York on 2024-03-02 at 00:30 UTC
    ends 28 days after its start date, not 29. *)
Theorem successor_starts_on_end_date :
  startDate springPlan = 19784%Z
  /\ endDate springPlan = 19813%Z
  /\ (exists user' recorded newPlan,
        updateDayCompletion (host := bucharest2024) springUser 0 29 [] "N/A"
        = Some user'
        /\ plans user' = [recorded; newPlan]
        /\ endDate recorded = endDate springPlan
        /\ startDate newPlan = endDate springPlan
        /\ startDate newPlan <> (endDate springPlan + 1)%Z)
  /\ startDate eveningPlan = 19784%Z
  /\ endDate eveningPlan = (startDate eveningPlan + 28)%Z
  /\ length (days eveningPlan) = 30%nat.
Proof.
  split; [reflexivity|]. split; [reflexivity|]. split.
  - exists springRecorded,
      (default springPlan (plans springRecorded !! 0%nat)),
      (default springPlan (plans springRecorded !! 1%nat)).
    repeat split; vm_compute; try reflexivity; discriminate.
  - repeat split.
Qed.

(** C10: recordings of the last day are not idempotent on the history:
    each call on the last day of the same 30-day plan succeeds and pushes
    one more plan.  After [n] calls the history is the old one, with the
    recorded plan in its place, followed by [n] successors; every
    successor is a newly generated plan that starts on the same date, the
    one computed from the end date of the recorded plan, and its
    difficulty is the baseline difficulty times one of the three
    factors. *)
Theorem last_day_recordings_accumulate {host : Host}
    (calls : list (list JS.value * string)) (user : User) (planRef : nat)
    (plan : Plan) :
  plans user !! planRef = Some plan ->
  length (days plan) = 30%nat ->
  exists user' plan' successors,
    recordLastDay user planRef calls = Some user'
    /\ plans user' = <[planRef := plan']> (plans user) ++ successors
    /\ length successors = length calls
    /\ length (plans user') = (length (plans user) + length calls)%nat
    /\ startDate plan' = startDate plan
    /\ endDate plan' = endDate plan
    /\ length (days plan') = 30%nat
    /\ preferences user' = preferences user
    /\ Forall (fun s =>
         startDate s = toISODate (addDays (Date_parse (endDate plan)) 1)
         /\ days s = map (planDay (difficulty s) (Some (prefsOf user))) (seq 0 30)
         /\ exists f, (f = 11 # 10 \/ f = 8 # 10 \/ f = 1)
                      /\ difficulty s = baselineDifficulty user * f)
         successors.
Proof.
  revert user plan.
  induction calls as [|[completedArray fb] calls IH]; intros user plan Hplan Hlen.
  - exists user, plan, []. cbn [recordLastDay length].
    rewrite app_nil_r, list_insert_id by exact Hplan.
    repeat split; try lia. constructor.
  - pose proof (lookup_lt_Some _ _ _ Hplan) as HplanLt.
    destruct (record_last_day user planRef completedArray fb plan Hplan Hlen)
      as (plan1 & _ & Hs1 & He1 & Hlen1 & Hupd).
    cbn [recordLastDay]. rewrite Hupd. simpl.
    set (user1 := {| password := password user;
                     plans := <[planRef := plan1]> (plans user)
                              ++ [nextPlan user plan1];
                     preferences := preferences user |}).
    assert (Hplan1 : plans user1 !! planRef = Some plan1).
    { cbn [plans user1]. rewrite lookup_app_l by (rewrite length_insert; lia).
      apply list_lookup_insert_eq; exact HplanLt. }
    destruct (IH user1 plan1 Hplan1 Hlen1)
      as (user' & plan' & successors & Hrec & Hplans & Hn & _ & Hs & He & Hl
          & Hprefs & Hall).
    exists user', plan', (nextPlan user plan1 :: successors).
    split; [exact Hrec|].
    assert (Hplans' : plans user'
                      = <[planRef := plan']> (plans user)
                        ++ nextPlan user plan1 :: successors).
    { rewrite Hplans. cbn [plans user1].
      rewrite insert_app_l by (rewrite length_insert; lia).
      rewrite list_insert_insert_eq, <- app_assoc. reflexivity. }
    split; [exact Hplans'|].
    split; [simpl; rewrite Hn; reflexivity|].
    split; [rewrite Hplans', length_app, length_insert; simpl; lia|].
    split; [congruence|]. split; [congruence|]. split; [exact Hl|].
    split; [exact Hprefs|].
    constructor.
    + destruct (nextPlan_fresh user plan1) as (H1 & H2 & _ & H3).
      rewrite He1 in H1. split; [exact H1|]. split; [exact H2 | exact H3].
    + eapply Forall_impl; [exact Hall|]. intros s (H1 & H2 & H3).
      rewrite He1 in H1. split; [exact H1|]. split; assumption.
Qed.

Lemma last_day_recordings_accumulate_witness :
  exists user' plan' successors,
    recordLastDay sampleUser 0 [([], "N/A"); ([num 1], "ok"); ([], "")]
    = Some user'
    /\ plans user' = <[0%nat := plan']> (plans sampleUser) ++ successors
    /\ length successors = 3%nat.
Proof.
  destruct (last_day_recordings_accumulate
              [([], "N/A"); ([num 1], "ok"); ([], "")] sampleUser 0%nat
              samplePlan eq_refl eq_refl)
    as (u & p & s & H1 & H2 & H3 & _).
  exists u, p, s. repeat split; assumption.
Defined.

(** Three recordings of the last day of the sample plan leave three
    plans that all start on 2024-01-31. *)
Example duplicate_successors :
  (fun user' => map (fun p => (startDate p, endDate p)) (plans user'))
  <$> recordLastDay sampleUser 0 [([], "N/A"); ([num 1], "ok"); ([], "")]
  = Some [(19723%Z, 19752%Z); (19753%Z, 19782%Z); (19753%Z, 19782%Z);
          (19753%Z, 19782%Z)].
Proof. vm_compute. reflexivity. Qed.

(** ** Plan generator *)

Lemma catalog_integerTarget (i : nat) : Forall integerTarget (getDayTemplate i).
Proof.
  do 7 (destruct i as [|i];
        [repeat constructor; eexists; (split; [reflexivity | lia])|]).
  constructor.
Qed.

Lemma catalog_knownEquipment (i : nat) :
  forallb knownEquipment (getDayTemplate i) = true.
Proof.
  do 7 (destruct i as [|i]; [vm_compute; reflexivity|]). reflexivity.
Qed.

Lemma fullyEquipped_keeps (equipmentPrefs : gmap string bool) (t : Template) :
  fullyEquipped equipmentPrefs -> knownEquipment t = true ->
  keepsExercise t equipmentPrefs = true.
Proof.
  intros Hfull Hknown. apply available_keeps.
  unfold equipmentAvailable, knownEquipment in *.
  destruct (t_equipment t) as [equipment|]; [|exact I].
  intros eq Hin. apply Hfull.
  rewrite forallb_forall in Hknown.
  apply list_elem_of_In, Hknown in Hin. apply bool_decide_eq_true in Hin.
  exact Hin.
Qed.

Lemma clonedFor_integerTarget (prefs : option Preferences) (t : Template) :
  integerTarget t -> integerTarget (clonedFor prefs t).
Proof.
  intros Hint. unfold clonedFor, adaptExerciseForEquipment.
  destruct prefs as [p|]; [|exact Hint].
  destruct (keepsExercise t (pref_equipment p)); [exact Hint|].
  unfold integerTarget, adapted. cbn [t_target].
  rewrite Qmax_one_integer. eexists. split; [reflexivity | lia].
Qed.

Lemma scaled_target (z : Z) (d : Q) :
  (1 <= z)%Z ->
  let s := Qmax 1 (inject_Z (JS.Math_round (inject_Z z * d))) in
  (1 < d -> inject_Z z <= s)
  /\ (d < 1 -> s <= inject_Z z)
  /\ (d == 1 -> s = inject_Z z).
Proof.
  intros Hz s. subst s. rewrite Qmax_one_integer.
  assert (Hq : 1 <= inject_Z z).
  { change 1 with (inject_Z 1). rewrite <- Zle_Qle. exact Hz. }
  split; [|split].
  - intros Hd. rewrite <- Zle_Qle.
    assert ((z <= JS.Math_round (inject_Z z * d))%Z); [|lia].
    apply Qfloor_ge_Z. nra.
  - intros Hd. rewrite <- Zle_Qle.
    assert ((JS.Math_round (inject_Z z * d) < z + 1)%Z); [|lia].
    apply Qfloor_lt_Z. rewrite inject_Z_plus. change (inject_Z 1) with 1. nra.
  - intros Hd.
    assert (Hr : JS.Math_round (inject_Z z * d) = z).
    { rewrite <- (round_integer z) at 2. unfold JS.Math_round.
      apply Qfloor_comp. rewrite Hd. ring. }
    rewrite Hr. rewrite Z.max_r by lia. reflexivity.
Qed.

Lemma planExercise_target (d : Q) (prefs : option Preferences) (t : Template) :
  integerTarget t ->
  let a := clonedFor prefs t in
  let ex := planExercise d prefs t in
  ex_unit ex = t_unit a
  /\ ex_name ex = t_name a
  /\ (t_unit a = Rest \/ t_target a == 0 -> ex_target ex = t_target a)
  /\ (t_unit a <> Rest -> 0 < t_target a ->
      (1 < d -> t_target a <= ex_target ex)
      /\ (d < 1 -> ex_target ex <= t_target a)
      /\ (d == 1 -> ex_target ex = t_target a)).
Proof.
  intros Hint a ex.
  destruct (clonedFor_integerTarget prefs t Hint) as (z & Hz & Hz0).
  fold a in Hz.
  assert (Hex : ex_target ex
                = if negb (bool_decide (t_unit a = Rest)) && JS.Qltb 0 (t_target a)
                  then Qmax 1 (inject_Z (JS.Math_round (t_target a * d)))
                  else t_target a) by reflexivity.
  split; [reflexivity|]. split; [reflexivity|]. split.
  - intros [Hrest|Hzero]; rewrite Hex.
    + rewrite bool_decide_eq_true_2 by exact Hrest. reflexivity.
    + assert (JS.Qltb 0 (t_target a) = false) as -> by (apply Qltb_ge; lra).
      rewrite andb_false_r. reflexivity.
  - intros Hnr Hpos. rewrite Hex.
    rewrite bool_decide_eq_false_2 by exact Hnr.
    assert (JS.Qltb 0 (t_target a) = true) as -> by (apply Qltb_lt; exact Hpos).
    simpl. rewrite Hz in *.
    apply scaled_target.
    change 0 with (inject_Z 0) in Hpos. rewrite <- Zlt_Qlt in Hpos. lia.
Qed.

Lemma createPlan_lookup {host : Host} (start : Z) (d : Q)
    (prefs : option Preferences) (i j : nat) (day : Day) (ex : Exercise) :
  days (createPlan start d prefs) !! i = Some day ->
  exercises day !! j = Some ex ->
  (i < 30)%nat
  /\ exists t, getDayTemplate (i mod 7) !! j = Some t
               /\ ex = planExercise d prefs t.
Proof.
  unfold createPlan. cbn [days]. intros Hday Hex.
  apply list_lookup_fmap_Some in Hday as (k & -> & Hk).
  apply lookup_seq in Hk as [-> Hlt]. simpl in Hlt |- *.
  split; [exact Hlt|].
  unfold planDay in Hex. cbn [exercises] in Hex.
  apply list_lookup_fmap_Some in Hex as (t & -> & Ht).
  exists t. split; [exact Ht | reflexivity].
Qed.

(** C8: with difficulty 1.0 and all equipment available the generated
    days are the catalog entries as they are, targets included; and for
    every difficulty and every preferences, each exercise of the generated
    plan whose adapted template is not a rest and has a positive target
    gets a target that is not below the adapted target when [d > 1] and
    not above it when [d < 1]. *)
Theorem createPlan_identity_monotone {host : Host} :
  (forall (start : Z) (p : Preferences),
      fullyEquipped (pref_equipment p) ->
      days (createPlan start 1 (Some p))
      = map (fun i => {| exercises := map asExercise (getDayTemplate (i mod 7));
                         feedback := ""; completion := 0 |})
            (seq 0 30))
  /\ (forall (start : Z) (d : Q) (prefs : option Preferences) (i j : nat)
             (day : Day) (ex : Exercise),
      days (createPlan start d prefs) !! i = Some day ->
      exercises day !! j = Some ex ->
      exists t,
        getDayTemplate (i mod 7) !! j = Some t
        /\ ex_unit ex = t_unit (clonedFor prefs t)
        /\ (t_unit (clonedFor prefs t) <> Rest ->
            0 < t_target (clonedFor prefs t) ->
            (1 < d -> t_target (clonedFor prefs t) <= ex_target ex)
            /\ (d < 1 -> ex_target ex <= t_target (clonedFor prefs t)))).
Proof.
  split.
  - intros start p Hfull. unfold createPlan. cbn [days].
    apply map_ext. intros i. unfold planDay. f_equal.
    pose proof (catalog_integerTarget (i mod 7)) as Hint.
    pose proof (catalog_knownEquipment (i mod 7)) as Hknown.
    rewrite forallb_forall in Hknown.
    apply map_ext_in. intros t Ht.
    rewrite List.Forall_forall in Hint.
    pose proof (fullyEquipped_keeps _ t Hfull (Hknown t Ht)) as Hkeep.
    destruct (planExercise_target 1 (Some p) t (Hint t Ht))
      as (Hu & Hn & Hsame & Hscaled).
    assert (Hclone : clonedFor (Some p) t = t).
    { unfold clonedFor, adaptExerciseForEquipment. rewrite Hkeep. reflexivity. }
    rewrite Hclone in *.
    assert (Htarget : ex_target (planExercise 1 (Some p) t) = t_target t).
    { destruct (decide (t_unit t = Rest)) as [Hr|Hr]; [apply Hsame; auto|].
      destruct (Qlt_le_dec 0 (t_target t)) as [Hpos|Hle].
      - apply (Hscaled Hr Hpos). reflexivity.
      - apply Hsame. right. destruct (Hint t Ht) as (z & Hz & Hz0).
        rewrite Hz in *. change 0 with (inject_Z 0) in Hle.
        rewrite <- Zle_Qle in Hle. assert (z = 0%Z) by lia. subst z.
        reflexivity. }
    unfold asExercise. rewrite <- Htarget.
    unfold planExercise, adaptExerciseForEquipment. rewrite Hkeep. reflexivity.
  - intros start d prefs i j day ex Hday Hex.
    destruct (createPlan_lookup start d prefs i j day ex Hday Hex)
      as (_ & t & Ht & ->).
    exists t. split; [exact Ht|].
    pose proof (catalog_integerTarget (i mod 7)) as Hint.
    rewrite List.Forall_forall in Hint.
    assert (Hin : In t (getDayTemplate (i mod 7))).
    { apply list_elem_of_In, list_elem_of_lookup. eauto. }
    destruct (planExercise_target d prefs t (Hint t Hin))
      as (Hu & _ & _ & Hscaled).
    split; [exact Hu|]. intros Hnr Hpos.
    destruct (Hscaled Hnr Hpos) as (Hup & Hdown & _). split; assumption.
Qed.

Lemma createPlan_identity_monotone_witness :
  fullyEquipped (pref_equipment fullPreferences)
  /\ map (fun day => map ex_target (exercises day))
         (take 7 (days (createPlan (Date_parse jan1_2024) 1 (Some fullPreferences))))
     = [[30; 40; 24; 20; 60]; [15; 10; 30; 30; 60]; [30; 10];
        [40; 30; 24; 30; 30]; [10; 15; 30; 24; 20]; [30; 15]; [1]]
  /\ exists t,
       getDayTemplate (0 mod 7) !! 0%nat = Some t
       /\ t_target (clonedFor (Some advancedNoDumbbells) t)
          <= ex_target (planExercise (12 # 10) (Some advancedNoDumbbells) squats).
Proof.
  assert (Hfull : fullyEquipped (pref_equipment fullPreferences)).
  { intros tag Htag.
    repeat (apply elem_of_cons in Htag as [->|Htag]; [reflexivity|]).
    inversion Htag. }
  destruct createPlan_identity_monotone as [Hid Hmono].
  split; [exact Hfull|]. split.
  - rewrite (Hid (Date_parse jan1_2024) fullPreferences Hfull). reflexivity.
  - destruct (Hmono 0%Z (12 # 10) (Some advancedNoDumbbells) 0%nat 0%nat
                (planDay (12 # 10) (Some advancedNoDumbbells) 0)
                (planExercise (12 # 10) (Some advancedNoDumbbells) squats)
                eq_refl eq_refl) as (t & Ht & _ & H).
    exists t. split; [exact Ht|].
    apply H; [| | reflexivity].
    + inversion Ht; subst t. vm_compute. discriminate.
    + inversion Ht; subst t. vm_compute. reflexivity.
Defined.

Example advanced_without_dumbbells :
  map (fun ex => (ex_name ex, ex_target ex))
      (exercises (planDay (12 # 10) (Some advancedNoDumbbells) 0))
  = [("Genuflexiuni cu gantere (adaptat)", 18); ("Flotări clasice", 48);
     ("Shoulder press cu gantere (adaptat)", 14); ("Flotări diamante", 24);
     ("Plank", 72)].
Proof. vm_compute. reflexivity. Qed.

(** ** Current plan *)

Lemma getCurrentPlan_Some (user : User) (today : Z) (plan : Plan) :
  getCurrentPlan user today = Some plan
  <-> last (plans user) = Some plan /\ (today <= Date_parse (endDate plan))%Z.
Proof.
  unfold getCurrentPlan. destruct (last (plans user)) as [p|].
  - destruct (Z.ltb_spec (Date_parse (endDate p)) today); split.
    + discriminate.
    + intros [E Hle]. inversion E; subst. lia.
    + intros E. inversion E; subst. split; [reflexivity | lia].
    + intros [E _]. exact E.
  - split; [discriminate | intros [E _]; discriminate].
Qed.

(** On the calendar day [endDate] itself the last plan is current at
    midnight UTC only: any later instant of that day is already after
    [new Date(plan.endDate)]. *)
Lemma getCurrentPlan_during_endDate (user : User) (today : Z) (plan : Plan) :
  last (plans user) = Some plan ->
  toISODate today = endDate plan ->
  today <> Date_parse (endDate plan) ->
  getCurrentPlan user today = None.
Proof.
  intros Hlast Hday Hne. unfold getCurrentPlan. rewrite Hlast.
  unfold toISODate, Date_parse, msPerDay in *.
  destruct (Z.ltb_spec (endDate plan * 86400000) today) as [|Hle];
    [reflexivity|].
  exfalso. apply Hne.
  pose proof (Z.div_mod today 86400000 ltac:(lia)) as Hdm.
  pose proof (Z.mod_pos_bound today 86400000 ltac:(lia)) as Hmod.
  lia.
Qed.

(** C7 at its failing input: at noon of the end date of the only plan of
    the user, the calendar day is the end date, and there is no current
    plan. *)
Theorem getCurrentPlan_noon_of_endDate :
  last (plans sampleUser) = Some samplePlan
  /\ toISODate (noonOf (endDate samplePlan)) = endDate samplePlan
  /\ getCurrentPlan sampleUser (noonOf (endDate samplePlan)) = None
  /\ getCurrentPlan sampleUser (Date_parse (endDate samplePlan))
     = Some samplePlan.
Proof. repeat split. Qed.

(** * The rest of the application *)

(** ** Well-formed histories *)

Lemma good_addExercise (t d : Q) (ex : Exercise) :
  goodExercise ex ->
  exists t' d',
    addExercise (t, d) ex = (t + t', d + d') /\ 0 <= d' <= t' /\ 0 < t'.
Proof.
  intros (Ht & c & Hc & Hpos). unfold addExercise. rewrite Hc.
  destruct (ex_unit ex); simpl;
    try (eexists _, _; split; [reflexivity|];
         pose proof (orQ_zero c);
         destruct (Q.min_spec (JS.orQ c 0) (ex_target ex)) as [[? ->]|[? ->]];
         (split; [split|]; lra)).
  eexists _, _. split; [reflexivity|].
  match goal with |- context [if ?b then _ else _] => destruct b end;
    split; try split; lra.
Qed.

Lemma good_totals (exs : list Exercise) (t d : Q) :
  Forall goodExercise exs -> 0 <= d <= t ->
  0 <= (fold_left addExercise exs (t, d)).2 <= (fold_left addExercise exs (t, d)).1
  /\ t <= (fold_left addExercise exs (t, d)).1.
Proof.
  revert t d. induction exs as [|ex exs IH]; intros t d Hgood Hdt.
  - simpl. split; [exact Hdt | lra].
  - inversion Hgood as [|? ? Hex Hexs]; subst.
    change (fold_left addExercise (ex :: exs) (t, d))
      with (fold_left addExercise exs (addExercise (t, d) ex)).
    destruct (good_addExercise t d ex Hex) as (t' & d' & -> & Hd' & Ht').
    destruct (IH (t + t') (d + d') Hexs ltac:(lra)) as [H1 H2].
    split; [exact H1 | lra].
Qed.

(** The ratio of exercises with positive targets and non-negative
    completed values is in [0,1], integer targets or not. *)
Lemma good_ratio (exs : list Exercise) (fb : string) (c : Q) :
  Forall goodExercise exs ->
  0 <= calculateDayCompletion {| exercises := exs; feedback := fb; completion := c |} <= 1.
Proof.
  intros Hgood. rewrite calculateDayCompletion_totals. cbn [exercises].
  unfold totals.
  destruct (good_totals exs 0 0 Hgood ltac:(lra)) as [[Hlo Hhi] Ht].
  destruct (fold_left addExercise exs (0, 0)) as [t d]. simpl in *.
  destruct (Qeq_bool t 0) eqn:E; [lra|].
  assert (Hnz : ~ t == 0).
  { intros H. apply Qeq_bool_iff in H. congruence. }
  split; [apply Qle_shift_div_l | apply Qle_shift_div_r]; lra.
Qed.

Lemma catalog_positive_integer (i : nat) (t : Template) :
  In t (getDayTemplate i) ->
  exists z : Z, t_target t = inject_Z z /\ (1 <= z)%Z.
Proof.
  intros Hin.
  pose proof (catalog_integerTarget i) as Hint.
  pose proof (catalog_rest_kept i ∅) as Hpos.
  rewrite List.Forall_forall in Hint, Hpos.
  destruct (Hint t Hin) as (z & Hz & _). destruct (Hpos t Hin) as [Hp _].
  exists z. split; [exact Hz|].
  rewrite Hz in Hp. change 0 with (inject_Z 0) in Hp.
  rewrite <- Zlt_Qlt in Hp. lia.
Qed.

Lemma planExercise_positive_integer (d : Q) (prefs : option Preferences)
    (i : nat) (t : Template) :
  In t (getDayTemplate i) ->
  exists z : Z,
    ex_target (planExercise d prefs t) = inject_Z z /\ (1 <= z)%Z.
Proof.
  intros Hin. destruct (catalog_positive_integer i t Hin) as (z & Hz & Hz1).
  assert (Hc : exists z', t_target (clonedFor prefs t) = inject_Z z'
                          /\ (1 <= z')%Z).
  { unfold clonedFor, adaptExerciseForEquipment.
    destruct prefs as [p|]; [|eauto].
    destruct (keepsExercise t (pref_equipment p)); [eauto|].
    unfold adapted. cbn [t_target]. rewrite Qmax_one_integer.
    eexists. split; [reflexivity | lia]. }
  destruct Hc as (z' & Hz' & Hz1').
  change (ex_target (planExercise d prefs t))
    with (if negb (bool_decide (t_unit (clonedFor prefs t) = Rest))
             && JS.Qltb 0 (t_target (clonedFor prefs t))
          then Qmax 1 (inject_Z (JS.Math_round (t_target (clonedFor prefs t) * d)))
          else t_target (clonedFor prefs t)).
  destruct (_ && _).
  - rewrite Qmax_one_integer. eexists. split; [reflexivity | lia].
  - eauto.
Qed.

Lemma goodExercise_integer (ex : Exercise) (z : Z) :
  ex_target ex = inject_Z z -> (1 <= z)%Z -> ex_completed ex = JS.Num 0 ->
  goodExercise ex.
Proof.
  intros Hz Hz1 Hc. split.
  - rewrite Hz. change 0 with (inject_Z 0). rewrite <- Zlt_Qlt. lia.
  - exists 0. split; [exact Hc | lra].
Qed.

Lemma createPlan_exercises {host : Host} (start : Z) (d : Q)
    (prefs : option Preferences) :
  Forall (fun day =>
       completion day = 0
       /\ Forall (fun ex =>
            ex_completed ex = JS.Num 0
            /\ exists z : Z, ex_target ex = inject_Z z /\ (1 <= z)%Z)
          (exercises day))
     (days (createPlan start d prefs)).
Proof.
  unfold createPlan. cbn [days]. apply List.Forall_forall.
  intros day Hday. apply in_map_iff in Hday as (i & <- & _).
  split; [reflexivity|]. unfold planDay. cbn [exercises].
  apply List.Forall_forall. intros ex Hex.
  apply in_map_iff in Hex as (t & <- & Ht).
  split; [reflexivity|]. exact (planExercise_positive_integer d prefs _ t Ht).
Qed.

Lemma createPlan_good {host : Host} (start : Z) (d : Q)
    (prefs : option Preferences) :
  goodPlan (createPlan start d prefs).
Proof.
  split; [reflexivity|].
  eapply List.Forall_impl; [|apply createPlan_exercises].
  intros day [Hc Hexs]. split; [|rewrite Hc; lra].
  eapply List.Forall_impl; [|exact Hexs].
  intros ex (Hcompl & z & Hz & Hz1). eapply goodExercise_integer; eauto.
Qed.

(** What [setDate] adds to an instant, in a zone whose offsets differ by
    at most a day. *)
Lemma addDays_bounds {host : Host} (date n : Z) :
  offsetsWithinADay ->
  (date + n * msPerDay - msPerDay <= addDays date n
   <= date + n * msPerDay + msPerDay)%Z.
Proof.
  intros Hz. unfold addDays, UTC, LocalTime.
  pose proof (Hz date (date + LocalTZA date true + n * msPerDay)%Z true false).
  pose proof (Hz (date + LocalTZA date true + n * msPerDay)%Z date false true).
  lia.
Qed.

Lemma createPlan_dates {host : Host} (start : Z) (d : Q)
    (prefs : option Preferences) :
  let plan := createPlan start d prefs in
  startDate plan = toISODate start
  /\ (forall tz, constantOffset tz -> endDate plan = (startDate plan + 29)%Z)
  /\ (offsetsWithinADay ->
      (startDate plan + 28 <= endDate plan <= startDate plan + 30)%Z
      /\ (start <= Date_parse (endDate plan))%Z).
Proof.
  cbn [createPlan startDate endDate]. split; [reflexivity|]. split.
  - intros tz Htz. rewrite (addDays_constant tz) by exact Htz.
    unfold toISODate, msPerDay. rewrite Z.div_add by discriminate. reflexivity.
  - intros Hz. pose proof (addDays_bounds start 29 Hz) as Hb.
    unfold toISODate, Date_parse, msPerDay in *.
    set (x := addDays start 29) in *. clearbody x.
    pose proof (Z.div_mod x 86400000 ltac:(lia)).
    pose proof (Z.mod_pos_bound x 86400000 ltac:(lia)).
    pose proof (Z.div_mod start 86400000 ltac:(lia)).
    pose proof (Z.mod_pos_bound start 86400000 ltac:(lia)).
    lia.
Qed.

(** Whatever the instant, the difficulty multiplier (zero and negative
    included) and the preferences, a generated plan has 30 days, each of
    its exercises has an integer target of at least 1, nothing completed
    and a cached completion of 0, and it starts on the UTC date of the
    instant.  It ends 29 days after it starts in a zone without daylight
    saving, and 28 to 30 days after it starts in any zone whose offsets
    differ by at most a day. *)
Theorem createPlan_wellformed {host : Host} (start : Z) (d : Q)
    (prefs : option Preferences) :
  let plan := createPlan start d prefs in
  goodPlan plan
  /\ Forall (fun day =>
       completion day = 0
       /\ Forall (fun ex =>
            ex_completed ex = JS.Num 0
            /\ exists z : Z, ex_target ex = inject_Z z /\ (1 <= z)%Z)
          (exercises day))
     (days plan)
  /\ startDate plan = toISODate start
  /\ (forall tz, constantOffset tz -> endDate plan = (startDate plan + 29)%Z)
  /\ (offsetsWithinADay ->
      (startDate plan + 28 <= endDate plan <= startDate plan + 30)%Z).
Proof.
  destruct (createPlan_dates start d prefs) as (Hs & Hc & Hb).
  split; [apply createPlan_good|]. split; [apply createPlan_exercises|].
  split; [exact Hs|]. split; [exact Hc|].
  intros Hz. exact (proj1 (Hb Hz)).
Qed.

Lemma utc_constant : constantOffset (host := utcHost) 0.
Proof. intros t b. reflexivity. Qed.

Lemma seasonalOffset_spread (std from to : Z) (t t' : Z) (b b' : bool) :
  (seasonalOffset std from to t b - seasonalOffset std from to t' b'
   <= msPerDay)%Z.
Proof.
  unfold seasonalOffset, hour, msPerDay.
  destruct (_ && _), (_ && _); lia.
Qed.

Lemma newYork_within_a_day : offsetsWithinADay (host := newYork2024).
Proof. intros t t' b b'. apply seasonalOffset_spread. Qed.

Lemma bucharest_within_a_day : offsetsWithinADay (host := bucharest2024).
Proof. intros t t' b b'. apply seasonalOffset_spread. Qed.

Lemma constant_within_a_day {host : Host} (tz : Z) :
  constantOffset tz -> offsetsWithinADay.
Proof. intros Htz t t' b b'. rewrite !Htz. unfold msPerDay. lia. Qed.

Lemma createPlan_wellformed_witness :
  constantOffset (host := utcHost) 0
  /\ endDate samplePlan = (startDate samplePlan + 29)%Z
  /\ offsetsWithinADay (host := newYork2024)
  /\ (startDate eveningPlan + 28 <= endDate eveningPlan
      <= startDate eveningPlan + 30)%Z.
Proof.
  split; [exact utc_constant|]. split.
  - destruct (createPlan_wellformed (host := utcHost) (Date_parse jan1_2024) 1
                (Some fullPreferences)) as (_ & _ & _ & H & _).
    exact (H 0%Z utc_constant).
  - split; [exact newYork_within_a_day|].
    destruct (createPlan_wellformed (host := newYork2024)
                (Date_parse 19784 + 1800000) 1 (Some fullPreferences))
      as (_ & _ & _ & _ & H).
    exact (H newYork_within_a_day).
Defined.

Lemma recordExercises_good {host : Host} (completedArray : list JS.value)
    (exs : list Exercise) (idx : nat) :
  numbersOnly completedArray ->
  Forall goodExercise exs ->
  Forall goodExercise (recordExercises completedArray idx exs).1
  /\ Forall goodExercise (recordExercises completedArray idx exs).2.
Proof.
  intros Hnum. revert idx. induction exs as [|ex exs IH]; intros idx Hgood.
  - split; constructor.
  - inversion Hgood as [|? ? Hex Hexs]; subst.
    destruct (IH (S idx) Hexs) as [IH1 IH2].
    cbn [recordExercises]. rewrite recordExercise_result.
    destruct (recordExercises completedArray (S idx) exs) as [rest' carry].
    cbn [fst snd] in *.
    pose proof (completedOf_number completedArray idx
                  (numbersOnly_lookup _ idx Hnum)) as Hc.
    pose proof (completedOf_nonneg completedArray idx _ Hc) as Hpos.
    destruct Hex as [Ht _].
    split.
    + constructor; [|exact IH1]. split; [exact Ht|]. eexists. split; eassumption.
    + destruct (JS.Qltb 0 _) eqn:E; [|exact IH2].
      constructor; [|exact IH2]. split.
      * apply Qltb_lt in E. exact E.
      * exists 0. split; [reflexivity | lra].
Qed.

Lemma recordDay_good {host : Host} (plan plan' : Plan) (dayIndex : nat)
    (completedArray : list JS.value) (fb : string) :
  numbersOnly completedArray ->
  goodPlan plan ->
  recordDay plan dayIndex completedArray fb = Some plan' ->
  goodPlan plan'.
Proof.
  intros Hnum (Hlen & Hdays) Hrd.
  destruct (days plan !! dayIndex) as [day|] eqn:Hday;
    [|unfold recordDay in Hrd; rewrite Hday in Hrd; discriminate].
  destruct (recordExercises completedArray 0 (exercises day))
    as [exs carryOver] eqn:Hrec.
  destruct (recordDay_result plan dayIndex completedArray fb day exs carryOver
              Hday Hrec)
    as (p & Hrd' & Hs & He & _ & Hlen' & Hk & Hframe & Hnext).
  rewrite Hrd in Hrd'. inversion Hrd'; subst p. clear Hrd'.
  rewrite Forall_lookup in Hdays.
  destruct (Hdays _ _ Hday) as [Hexs _].
  pose proof (recordExercises_good completedArray (exercises day) 0 Hnum Hexs)
    as [Hgood1 Hgood2].
  rewrite Hrec in Hgood1, Hgood2. cbn [fst snd] in Hgood1, Hgood2.
  split; [congruence|].
  apply Forall_lookup. intros j d' Hj.
  destruct (decide (j = dayIndex)) as [->|Hne].
  - rewrite Hk in Hj. inversion Hj; subst d'.
    split; [exact Hgood1 | apply good_ratio; exact Hgood1].
  - destruct (decide (j = (dayIndex + 1)%nat)) as [->|Hne'].
    + pose proof (lookup_lt_Some _ _ _ Hj) as Hlt. rewrite Hlen' in Hlt.
      destruct (lookup_lt_is_Some_2 (days plan) (dayIndex + 1) Hlt)
        as [next Hn].
      rewrite (Hnext next Hn) in Hj. inversion Hj; subst d'.
      destruct (Hdays _ _ Hn) as [Hnexs Hnc].
      split; [|exact Hnc]. cbn [exercises withExercises].
      apply Forall_app. split; assumption.
    + rewrite (Hframe j Hne Hne') in Hj. exact (Hdays _ _ Hj).
Qed.

Lemma nextPlan_good {host : Host} (user : User) (plan : Plan) :
  goodPlan (nextPlan user plan).
Proof. unfold nextPlan. apply createPlan_good. Qed.

Lemma updateDayCompletion_good {host : Host} (user user' : User)
    (planRef dayIndex : nat) (completedArray : list JS.value) (fb : string) :
  numbersOnly completedArray ->
  goodUser user ->
  updateDayCompletion user planRef dayIndex completedArray fb = Some user' ->
  goodUser user'.
Proof.
  unfold goodUser. intros Hnum Hgood Hupd.
  unfold updateDayCompletion in Hupd.
  destruct (plans user !! planRef) as [plan|] eqn:Hplan; [|discriminate].
  simpl in Hupd.
  destruct (recordDay plan dayIndex completedArray fb) as [plan'|] eqn:Hrd;
    [|discriminate].
  simpl in Hupd. inversion Hupd; subst user'. clear Hupd. cbn [plans].
  rewrite Forall_lookup in Hgood.
  pose proof (recordDay_good plan plan' dayIndex completedArray fb Hnum
                (Hgood _ _ Hplan) Hrd) as Hgood'.
  assert (Hins : Forall goodPlan (<[planRef := plan']> (plans user))).
  { apply Forall_insert; [|exact Hgood']. apply Forall_lookup. exact Hgood. }
  destruct (bool_decide _); [|exact Hins].
  apply Forall_app. split; [exact Hins|].
  constructor; [apply nextPlan_good | constructor].
Qed.

(** ** Recording the same day again, skipping a day, completing a day *)

Lemma record_day_exact {host : Host} (user : User) (planRef k : nat)
    (completedArray : list JS.value) (fb : string) (plan : Plan) (day : Day) :
  plans user !! planRef = Some plan ->
  days plan !! k = Some day ->
  exists user' plan',
    updateDayCompletion user planRef k completedArray fb = Some user'
    /\ plans user' !! planRef = Some plan'
    /\ days plan' !! k
       = Some (recordedDay (recordExercises completedArray 0 (exercises day)).1 fb)
    /\ (forall next, days plan !! (k + 1)%nat = Some next ->
        days plan' !! (k + 1)%nat
        = Some (withExercises next
                  (exercises next
                   ++ carryOverFor
                        (recordExercises completedArray 0 (exercises day)).1)))
    /\ (forall j, j <> k -> j <> (k + 1)%nat -> days plan' !! j = days plan !! j)
    /\ length (days plan') = length (days plan).
Proof.
  intros Hplan Hday.
  pose proof (lookup_lt_Some _ _ _ Hplan) as HplanLt.
  destruct (recordExercises completedArray 0 (exercises day))
    as [exs carryOver] eqn:Hrec.
  destruct (recordDay_result plan k completedArray fb day exs carryOver
              Hday Hrec) as (plan' & Hrd & _ & _ & _ & Hlen & Hk & Hframe & Hnext).
  destruct (updateDayCompletion_result user planRef k completedArray fb
              plan day Hplan Hday) as (plan'' & Hrd' & Hupd).
  rewrite Hrd in Hrd'. inversion Hrd'; subst plan''. clear Hrd'.
  pose proof (recordExercises_result completedArray (exercises day) 0)
    as (_ & _ & Hcarry).
  rewrite Hrec in Hcarry. cbn [fst snd] in Hcarry |- *. subst carryOver.
  eexists _, plan'. split; [exact Hupd|]. cbn [plans].
  split; [|split; [exact Hk | split; [exact Hnext | split; [exact Hframe | exact Hlen]]]].
  destruct (bool_decide _);
    [rewrite lookup_app_l by (rewrite length_insert; lia)|];
    apply list_lookup_insert_eq; exact HplanLt.
Qed.

Lemma recordExercises_again {host : Host} (completedArray : list JS.value)
    (exs : list Exercise) (idx : nat) :
  (recordExercises completedArray idx
     (recordExercises completedArray idx exs).1).1
  = (recordExercises completedArray idx exs).1.
Proof.
  revert idx. induction exs as [|ex exs IH]; intros idx; [reflexivity|].
  cbn [recordExercises]. rewrite recordExercise_result.
  specialize (IH (S idx)).
  destruct (recordExercises completedArray (S idx) exs) as [rest' carry].
  cbn [fst snd] in *. cbn [recordExercises]. rewrite recordExercise_result.
  destruct (recordExercises completedArray (S idx) rest') as [rest'' carry'].
  cbn [fst snd] in *. rewrite IH. reflexivity.
Qed.

(** Recording a day a second time with the same values leaves that day as
    the first recording left it, and appends the same carry-over exercises
    to the next day once more: the next day then holds them twice. *)
Theorem repeated_recording_duplicates {host : Host} (user : User)
    (planRef k : nat)
    (completedArray : list JS.value) (fb : string) (plan : Plan)
    (day next : Day) :
  plans user !! planRef = Some plan ->
  days plan !! k = Some day ->
  days plan !! (k + 1)%nat = Some next ->
  exists user1 user2 plan1 plan2 exs',
    updateDayCompletion user planRef k completedArray fb = Some user1
    /\ updateDayCompletion user1 planRef k completedArray fb = Some user2
    /\ plans user1 !! planRef = Some plan1
    /\ plans user2 !! planRef = Some plan2
    /\ days plan1 !! k = Some (recordedDay exs' fb)
    /\ days plan2 !! k = Some (recordedDay exs' fb)
    /\ days plan1 !! (k + 1)%nat
       = Some (withExercises next (exercises next ++ carryOverFor exs'))
    /\ days plan2 !! (k + 1)%nat
       = Some (withExercises next
                 ((exercises next ++ carryOverFor exs') ++ carryOverFor exs')).
Proof.
  intros Hplan Hday Hnext.
  destruct (record_day_exact user planRef k completedArray fb plan day
              Hplan Hday) as (user1 & plan1 & Hupd1 & Hp1 & Hk1 & Hn1 & _).
  destruct (record_day_exact user1 planRef k completedArray fb plan1 _
              Hp1 Hk1) as (user2 & plan2 & Hupd2 & Hp2 & Hk2 & Hn2 & _).
  cbn [exercises recordedDay] in Hk2, Hn2.
  rewrite recordExercises_again in Hk2, Hn2.
  exists user1, user2, plan1, plan2,
    (recordExercises completedArray 0 (exercises day)).1.
  repeat split; try assumption.
  - exact (Hn1 next Hnext).
  - exact (Hn2 _ (Hn1 next Hnext)).
Qed.

Lemma repeated_recording_duplicates_witness :
  exists user1 user2 plan1 plan2 exs',
    updateDayCompletion sampleUser 0 0 mondayPartial "ok" = Some user1
    /\ updateDayCompletion user1 0 0 mondayPartial "ok" = Some user2
    /\ plans user2 !! 0%nat = Some plan2
    /\ days plan1 !! 0%nat = Some (recordedDay exs' "ok")
    /\ days plan2 !! 0%nat = Some (recordedDay exs' "ok").
Proof.
  destruct (repeated_recording_duplicates sampleUser 0%nat 0%nat mondayPartial
              "ok" samplePlan (planDay 1 (Some fullPreferences) 0)
              (planDay 1 (Some fullPreferences) 1) eq_refl eq_refl eq_refl)
    as (u1 & u2 & p1 & p2 & e & H1 & H2 & _ & H3 & H4 & H5 & _).
  exists u1, u2, p1, p2, e. repeat split; assumption.
Defined.

Example squats_carried_twice :
  (fun user' =>
     map (fun p => map ex_target
                       (exercises (default (mkDay [] "" 0) (days p !! 1%nat))))
         (plans user'))
  <$> (updateDayCompletion sampleUser 0 0 mondayPartial "ok"
       ≫= fun user1 => updateDayCompletion user1 0 0 mondayPartial "ok")
  = Some [[15; 10; 30; 30; 60; 10; 10]].
Proof. vm_compute. reflexivity. Qed.

Lemma completedOf_zero {host : Host} (completedArray : list JS.value)
    (idx : nat) :
  (forall v, completedArray !! idx = Some v -> v = JS.Number (JS.Num 0)) ->
  completedOf completedArray idx = JS.Num 0.
Proof.
  intros H. unfold completedOf, JS.index.
  destruct (completedArray !! idx) as [v|]; [|reflexivity].
  rewrite (H v eq_refl). reflexivity.
Qed.

Lemma recordExercises_zero {host : Host} (completedArray : list JS.value)
    (exs : list Exercise) (idx : nat) :
  (forall i v, completedArray !! i = Some v -> v = JS.Number (JS.Num 0)) ->
  (recordExercises completedArray idx exs).1
  = map (fun ex => setCompleted ex (JS.Num 0)) exs.
Proof.
  intros Hz. revert idx. induction exs as [|ex exs IH]; intros idx;
    [reflexivity|].
  cbn [recordExercises]. rewrite recordExercise_result.
  specialize (IH (S idx)).
  destruct (recordExercises completedArray (S idx) exs) as [rest' carry].
  cbn [fst] in *. rewrite IH, (completedOf_zero _ idx (Hz idx)). reflexivity.
Qed.

Lemma carryOverFor_nothing_done (exs : list Exercise) :
  Forall (fun ex => 0 < ex_target ex) exs ->
  let carry := carryOverFor (map (fun ex => setCompleted ex (JS.Num 0)) exs) in
  map ex_name carry = map (fun ex => ex_name ex +:+ recoveryMarker) exs
  /\ map ex_unit carry = map ex_unit exs
  /\ Forall2 (fun c ex => ex_target c == ex_target ex) carry exs.
Proof.
  unfold carryOverFor.
  induction 1 as [|ex exs Hex _ IH]; [repeat split; constructor|].
  cbn [map List.filter].
  assert (Hr : remainderOf (setCompleted ex (JS.Num 0)) == ex_target ex)
    by (unfold remainderOf; simpl; ring).
  assert (E : JS.Qltb 0 (remainderOf (setCompleted ex (JS.Num 0))) = true)
    by (apply Qltb_lt; rewrite Hr; exact Hex).
  rewrite E. cbn [map]. destruct IH as (IH1 & IH2 & IH3).
  split; [|split].
  - f_equal. exact IH1.
  - f_equal. exact IH2.
  - constructor; [exact Hr | exact IH3].
Qed.

Lemma nothing_done_totals (exs : list Exercise) (t d : Q) :
  Forall (fun ex => 0 <= ex_target ex /\ ex_completed ex = JS.Num 0) exs ->
  (fold_left addExercise exs (t, d)).2 == d.
Proof.
  revert t d. induction exs as [|ex exs IH]; intros t d Hall; [reflexivity|].
  inversion Hall as [|? ? [Ht Hc] Hexs]; subst.
  change (fold_left addExercise (ex :: exs) (t, d))
    with (fold_left addExercise exs (addExercise (t, d) ex)).
  unfold addExercise. rewrite Hc.
  destruct (ex_unit ex); simpl; rewrite (IH _ _ Hexs);
    try (destruct (Q.min_spec 0 (ex_target ex)) as [[? ->]|[? ->]]; lra).
  lra.
Qed.

(** The skip button on a day with a next day: every exercise is stored
    with 0 completed, the feedback is the text or ['N/A'], the cached
    completion is 0, and the next day receives, after its own exercises
    and in order, one carry-over exercise for each exercise of the skipped
    day, with the same unit and the whole target. *)
Theorem skipDay_carries_everything {host : Host} (user : User)
    (planRef k : nat)
    (fb : string) (plan : Plan) (day next : Day) :
  plans user !! planRef = Some plan ->
  days plan !! k = Some day ->
  days plan !! (k + 1)%nat = Some next ->
  Forall (fun ex => 0 < ex_target ex) (exercises day) ->
  exists user' plan' day' carry,
    skipDay user planRef k fb = Some user'
    /\ plans user' !! planRef = Some plan'
    /\ days plan' !! k = Some day'
    /\ feedback day' = orString fb "N/A"
    /\ completion day' == 0
    /\ exercises day' = map (fun ex => setCompleted ex (JS.Num 0)) (exercises day)
    /\ days plan' !! (k + 1)%nat
       = Some (withExercises next (exercises next ++ carry))
    /\ map ex_name carry
       = map (fun ex => ex_name ex +:+ recoveryMarker) (exercises day)
    /\ map ex_unit carry = map ex_unit (exercises day)
    /\ Forall2 (fun c ex => ex_target c == ex_target ex) carry (exercises day).
Proof.
  intros Hplan Hday Hnext Hpos.
  destruct (record_day_exact user planRef k (zeroCompleted day)
              (orString fb "N/A") plan day Hplan Hday)
    as (user' & plan' & Hupd & Hp & Hk & Hn & _).
  assert (Hz : forall i v, zeroCompleted day !! i = Some v ->
                           v = JS.Number (JS.Num 0)).
  { intros i v Hv. unfold zeroCompleted in Hv.
    apply list_lookup_fmap_Some in Hv as (? & -> & _). reflexivity. }
  rewrite (recordExercises_zero _ _ 0 Hz) in Hk, Hn.
  destruct (carryOverFor_nothing_done (exercises day) Hpos) as (Hn1 & Hn2 & Hn3).
  eexists user', plan', _, _.
  split; [unfold skipDay; rewrite Hplan; simpl; rewrite Hday; exact Hupd|].
  split; [exact Hp|]. split; [exact Hk|]. split; [reflexivity|].
  split.
  { cbn [completion recordedDay]. rewrite calculateDayCompletion_totals.
    cbn [exercises]. unfold totals.
    pose proof (nothing_done_totals
                  (map (fun ex => setCompleted ex (JS.Num 0)) (exercises day)) 0 0)
      as Hd.
    destruct (fold_left addExercise _ (0, 0)) as [t d]. cbn [snd] in Hd.
    destruct (Qeq_bool t 0); [reflexivity|].
    rewrite Hd; [unfold Qdiv; ring|].
    apply List.Forall_forall. intros ex' Hin.
    apply in_map_iff in Hin as (ex & <- & Hex).
    rewrite List.Forall_forall in Hpos. specialize (Hpos ex Hex).
    split; [simpl; lra | reflexivity]. }
  split; [reflexivity|]. split; [exact (Hn next Hnext)|].
  split; [exact Hn1|]. split; [exact Hn2 | exact Hn3].
Qed.

Lemma skipDay_carries_everything_witness :
  exists user' plan' day' carry,
    skipDay sampleUser 0 0 "" = Some user'
    /\ plans user' !! 0%nat = Some plan'
    /\ days plan' !! 0%nat = Some day'
    /\ feedback day' = "N/A"
    /\ completion day' == 0
    /\ map ex_name carry
       = ["Genuflexiuni cu gantere (recuperare)"; "Flotări clasice (recuperare)";
          "Shoulder press cu gantere (recuperare)";
          "Flotări diamante (recuperare)"; "Plank (recuperare)"].
Proof.
  assert (Hpos : Forall (fun ex => 0 < ex_target ex)
                   (exercises (planDay 1 (Some fullPreferences) 0))).
  { repeat constructor. }
  destruct (skipDay_carries_everything sampleUser 0%nat 0%nat "" samplePlan
              (planDay 1 (Some fullPreferences) 0)
              (planDay 1 (Some fullPreferences) 1) eq_refl eq_refl eq_refl Hpos)
    as (u & p & d & c & H1 & H2 & H3 & H4 & H5 & _ & _ & H6 & _).
  exists u, p, d, c. repeat split; assumption.
Defined.

Lemma all_done_totals (exs : list Exercise) (t d : Q) :
  Forall (fun ex => 0 < ex_target ex
                    /\ exists c, ex_completed ex = JS.Num c /\ ex_target ex <= c)
         exs ->
  exists s,
    (fold_left addExercise exs (t, d)).1 == t + s
    /\ (fold_left addExercise exs (t, d)).2 == d + s
    /\ 0 <= s /\ (exs <> [] -> 0 < s).
Proof.
  revert t d. induction exs as [|ex exs IH]; intros t d Hall.
  - exists 0. simpl. repeat split; try lra. congruence.
  - inversion Hall as [|? ? (Ht & c & Hc & Hle) Hexs]; subst.
    change (fold_left addExercise (ex :: exs) (t, d))
      with (fold_left addExercise exs (addExercise (t, d) ex)).
    assert (Hstep : exists s1 s2, addExercise (t, d) ex = (t + s1, d + s2)
                                  /\ s1 == s2 /\ 0 < s1).
    { unfold addExercise. rewrite Hc.
      pose proof (orQ_zero c) as Hor.
      destruct (ex_unit ex); simpl;
        try (eexists _, _; split; [reflexivity|];
             destruct (Q.min_spec (JS.orQ c 0) (ex_target ex)) as [[? ->]|[? ->]];
             (split; lra)).
      eexists _, _. split; [reflexivity|].
      assert (E1 : Qeq_bool c 0 = false).
      { destruct (Qeq_bool c 0) eqn:E; [|reflexivity].
        apply Qeq_bool_iff in E. lra. }
      assert (E2 : JS.Qltb 0 c = true) by (apply Qltb_lt; lra).
      rewrite E1, E2. simpl. split; lra. }
    destruct Hstep as (s1 & s2 & -> & Hs & Hs1).
    destruct (IH (t + s1) (d + s2) Hexs) as (s & H1 & H2 & H3 & _).
    exists (s1 + s). rewrite H1, H2. repeat split; lra.
Qed.

Lemma carryOverFor_all_done (exs : list Exercise) :
  Forall (fun ex => 0 < ex_target ex
                    /\ exists c, ex_completed ex = JS.Num c /\ ex_target ex <= c)
         exs ->
  carryOverFor exs = [].
Proof.
  unfold carryOverFor.
  induction 1 as [|ex l (_ & c & Hc & Hle) _ IH]; [reflexivity|].
  cbn [List.filter].
  assert (E : JS.Qltb 0 (remainderOf ex) = false).
  { apply Qltb_ge. unfold remainderOf. rewrite Hc. lra. }
  rewrite E. exact IH.
Qed.

(** A recording that reaches every target of a day (all targets positive,
    at least one exercise) caches a completion of exactly 1 and carries
    nothing over: every other day of the plan is as it was. *)
Theorem full_recording_carries_nothing {host : Host} (user : User)
    (planRef k : nat)
    (completedArray : list JS.value) (fb : string) (plan : Plan) (day : Day) :
  plans user !! planRef = Some plan ->
  days plan !! k = Some day ->
  exercises day <> [] ->
  Forall (fun ex => 0 < ex_target ex) (exercises day) ->
  (forall idx ex, exercises day !! idx = Some ex ->
                  ex_target ex <= suppliedOrZero completedArray idx) ->
  exists user' plan' day',
    updateDayCompletion user planRef k completedArray fb = Some user'
    /\ plans user' !! planRef = Some plan'
    /\ days plan' !! k = Some day'
    /\ completion day' == 1
    /\ (forall j, j <> k -> days plan' !! j = days plan !! j).
Proof.
  intros Hplan Hday Hne Hpos Hfull.
  destruct (record_day_exact user planRef k completedArray fb plan day
              Hplan Hday) as (user' & plan' & Hupd & Hp & Hk & Hn & Hframe & Hlen).
  pose proof (recordExercises_result completedArray (exercises day) 0)
    as (HlenE & Hlook & _).
  set (exs' := (recordExercises completedArray 0 (exercises day)).1) in *.
  assert (Hdone : Forall (fun ex => 0 < ex_target ex
                    /\ exists c, ex_completed ex = JS.Num c /\ ex_target ex <= c)
                    exs').
  { apply Forall_lookup. intros i ex' Hi.
    pose proof (lookup_lt_Some _ _ _ Hi) as Hlt. rewrite HlenE in Hlt.
    destruct (lookup_lt_is_Some_2 _ _ Hlt) as [ex Hex].
    rewrite (Hlook i ex Hex) in Hi. inversion Hi; subst ex'.
    rewrite Forall_lookup in Hpos.
    pose proof (Hpos i ex Hex) as Hpi. pose proof (Hfull i ex Hex) as Hfi.
    assert (Hc : completedOf completedArray i
                 = JS.Num (recordedAmount completedArray i)).
    { apply completedOf_number. unfold suppliedOrZero in Hfi.
      destruct (completedArray !! i) as [[| |n|t|b]|]; try exact I; lra. }
    split; [exact Hpi|].
    eexists. split; [exact Hc|]. cbn [ex_target setCompleted].
    unfold recordedAmount.
    pose proof (Q.le_max_r 0 (suppliedOrZero completedArray i)). lra. }
  pose proof (carryOverFor_all_done exs' Hdone) as Hnil.
  exists user', plan', (recordedDay exs' fb).
  split; [exact Hupd|]. split; [exact Hp|]. split; [exact Hk|]. split.
  - cbn [completion recordedDay]. rewrite calculateDayCompletion_totals.
    cbn [exercises]. unfold totals.
    destruct (all_done_totals exs' 0 0 Hdone) as (s & H1 & H2 & _ & Hs).
    assert (Hs' : 0 < s).
    { apply Hs. intros E. apply Hne.
      destruct (exercises day); [reflexivity|].
      rewrite E in HlenE. discriminate. }
    destruct (fold_left addExercise exs' (0, 0)) as [t d]. cbn [fst snd] in *.
    destruct (Qeq_bool t 0) eqn:E.
    + apply Qeq_bool_iff in E. lra.
    + rewrite H1, H2. field. lra.
  - intros j Hj. destruct (decide (j = (k + 1)%nat)) as [->|Hj'];
      [|exact (Hframe j Hj Hj')].
    destruct (days plan !! (k + 1)%nat) as [next|] eqn:Hnext.
    + rewrite (Hn next eq_refl), Hnil, app_nil_r, withExercises_same.
      reflexivity.
    + apply lookup_ge_None. rewrite Hlen. apply lookup_ge_None. exact Hnext.
Qed.

Lemma full_recording_carries_nothing_witness :
  exists user' plan' day',
    updateDayCompletion sampleUser 0 1 tuesdayFull "" = Some user'
    /\ plans user' !! 0%nat = Some plan'
    /\ days plan' !! 1%nat = Some day'
    /\ completion day' == 1
    /\ days plan' !! 2%nat = days samplePlan !! 2%nat.
Proof.
  assert (Hpos : Forall (fun ex => 0 < ex_target ex)
                   (exercises (planDay 1 (Some fullPreferences) 1))).
  { repeat constructor. }
  assert (Hfull : forall idx ex,
             exercises (planDay 1 (Some fullPreferences) 1) !! idx = Some ex ->
             ex_target ex <= suppliedOrZero tuesdayFull idx).
  { intros idx ex Hex.
    do 5 (destruct idx as [|idx];
          [inversion Hex; subst ex; vm_compute; discriminate|]).
    inversion Hex. }
  destruct (full_recording_carries_nothing sampleUser 0%nat 1%nat tuesdayFull ""
              samplePlan (planDay 1 (Some fullPreferences) 1)
              eq_refl eq_refl ltac:(discriminate) Hpos Hfull)
    as (u & p & d & H1 & H2 & H3 & H4 & H5).
  exists u, p, d. repeat split; try assumption. apply H5. lia.
Defined.

(** ** Cycle adapter: range and monotonicity *)



Lemma determineNextDifficulty_range (plan : Plan) :
  determineNextDifficulty plan = 8 # 10 \/ determineNextDifficulty plan = 1
  \/ determineNextDifficulty plan = 11 # 10.
Proof.
  unfold determineNextDifficulty.
  destruct (nextDifficultyOf_range (averageCompletion plan)) as [H | [H | H]];
    auto.
Qed.




(** Fifteen days at 0.3 then fifteen at 0.7, and the same days the other
    way round. *)
Example order_of_days :
  determineNextDifficulty (twoPhasePlan 3 7) = 8 # 10
  /\ determineNextDifficulty (twoPhasePlan 7 3) = 1.
Proof. split; vm_compute; reflexivity. Qed.

(** ** Successive cycles *)

Lemma recordDay_difficulty {host : Host} (plan plan' : Plan) (dayIndex : nat)
    (completedArray : list JS.value) (fb : string) :
  recordDay plan dayIndex completedArray fb = Some plan' ->
  difficulty plan' = difficulty plan.
Proof.
  unfold recordDay. destruct (days plan !! dayIndex) as [day|]; [|discriminate].
  simpl. destruct (recordExercises completedArray 0 (exercises day)).
  intros H. inversion H. reflexivity.
Qed.

Lemma nextPlan_length {host : Host} (user : User) (plan : Plan) :
  length (days (nextPlan user plan)) = 30%nat.
Proof. reflexivity. Qed.

(** The date of the day after a calendar date, as [setDate] computes it
    in a zone whose offsets differ by at most a day. *)
Lemma successor_date_bounds {host : Host} (isoDay : Z) :
  offsetsWithinADay ->
  (isoDay <= toISODate (addDays (Date_parse isoDay) 1) <= isoDay + 2)%Z.
Proof.
  intros Hz. pose proof (addDays_bounds (Date_parse isoDay) 1 Hz) as Hb.
  unfold toISODate, Date_parse, msPerDay in *.
  set (x := addDays _ 1) in *. clearbody x.
  pose proof (Z.div_mod x 86400000 ltac:(lia)).
  pose proof (Z.mod_pos_bound x 86400000 ltac:(lia)).
  lia.
Qed.

Lemma completeCycles_history {host : Host}
    (calls : list (list JS.value * string)) (user : User) :
  plans user <> [] ->
  Forall (fun p => length (days p) = 30%nat) (plans user) ->
  exists user',
    completeCycles user calls = Some user'
    /\ preferences user' = preferences user
    /\ length (plans user') = (length (plans user) + length calls)%nat
    /\ (forall i p, plans user !! i = Some p ->
        exists p', plans user' !! i = Some p'
                   /\ difficulty p' = difficulty p
                   /\ startDate p' = startDate p /\ endDate p' = endDate p)
    /\ (forall i p', (length (plans user) <= i)%nat ->
        plans user' !! i = Some p' ->
        exists prev f,
          plans user' !! (i - 1)%nat = Some prev
          /\ startDate p' = toISODate (addDays (Date_parse (endDate prev)) 1)
          /\ difficulty p' = baselineDifficulty user * f
          /\ (f = 8 # 10 \/ f = 1 \/ f = 11 # 10)).
Proof.
  revert user. induction calls as [|[completedArray fb] calls IH];
    intros user Hne Hall.
  - exists user. split; [reflexivity|]. split; [reflexivity|].
    split; [simpl; lia|]. split.
    + intros i p Hp. exists p. auto.
    + intros i p' Hi Hp'. apply lookup_lt_Some in Hp'. lia.
  - set (last := (length (plans user) - 1)%nat).
    assert (Hlen : (0 < length (plans user))%nat)
      by (destruct (plans user); [congruence | simpl; lia]).
    destruct (lookup_lt_is_Some_2 (plans user) last ltac:(lia)) as [plan Hplan].
    rewrite Forall_lookup in Hall.
    destruct (record_last_day user last completedArray fb plan Hplan
                (Hall _ _ Hplan)) as (plan' & Hrd & Hs & He & Hlen' & Hupd).
    cbn [completeCycles]. fold last. rewrite Hupd. simpl.
    set (user1 := {| password := password user;
                     plans := <[last := plan']> (plans user) ++ [nextPlan user plan'];
                     preferences := preferences user |}).
    pose proof (recordDay_difficulty _ _ _ _ _ Hrd) as Hdiff.
    assert (Hlen1 : length (plans user1) = S (length (plans user))).
    { cbn [plans user1]. rewrite length_app, length_insert. simpl. lia. }
    destruct (IH user1) as (user' & Hrun & Hprefs & Hl & Hold & Hnew).
    { cbn [plans user1]. intros E. apply app_eq_nil in E as [_ E]. discriminate. }
    { cbn [plans user1]. apply Forall_app. split.
      - apply Forall_insert; [apply Forall_lookup; exact Hall | exact Hlen'].
      - constructor; [apply nextPlan_length | constructor]. }
    assert (Hbase : baselineDifficulty user1 = baselineDifficulty user)
      by reflexivity.
    exists user'. split; [exact Hrun|]. split; [exact Hprefs|].
    split; [rewrite Hl, Hlen1; simpl; lia|]. split.
    + intros i p Hp. pose proof (lookup_lt_Some _ _ _ Hp) as Hi.
      destruct (decide (i = last)) as [->|Hil].
      * destruct (Hold last plan') as (p' & Hp' & Hd' & Hs' & He').
        { cbn [plans user1]. rewrite lookup_app_l by (rewrite length_insert; lia).
          apply list_lookup_insert_eq. lia. }
        exists p'. rewrite Hp in Hplan. inversion Hplan; subst p.
        repeat split; congruence.
      * apply Hold. cbn [plans user1].
        rewrite lookup_app_l by (rewrite length_insert; lia).
        rewrite list_lookup_insert_ne by congruence. exact Hp.
    + intros i p' Hi Hp'.
      destruct (decide (i = length (plans user))) as [->|Hne'].
      * destruct (Hold (length (plans user)) (nextPlan user plan'))
          as (q & Hq & Hqd & Hqs & _).
        { cbn [plans user1]. rewrite lookup_app_r by (rewrite length_insert; lia).
          rewrite length_insert, Nat.sub_diag. reflexivity. }
        rewrite Hq in Hp'. inversion Hp'; subst q.
        destruct (Hold last plan') as (prev & Hprev & _ & _ & Hpe).
        { cbn [plans user1]. rewrite lookup_app_l by (rewrite length_insert; lia).
          apply list_lookup_insert_eq. lia. }
        exists prev, (determineNextDifficulty plan').
        split; [exact Hprev|]. split.
        { rewrite Hqs, Hpe. reflexivity. }
        split; [rewrite Hqd; reflexivity | apply determineNextDifficulty_range].
      * destruct (Hnew i p' ltac:(lia) Hp') as (prev & f & H1 & H2 & H3 & H4).
        exists prev, f. rewrite <- Hbase. auto.
Qed.

(** However many cycles are completed one after the other, with whatever
    results, the difficulty of every plan a cycle end adds is the user's
    baseline times exactly 0.8, 1.0 or 1.1: the factor of a cycle is
    applied to the baseline, never to the difficulty of the plan that
    ended.  The added plan starts on the date [setDate] gives for the day
    after the end date of the plan before it: the end date plus one in a
    zone without daylight saving, and from the end date itself to two
    days after it in any zone whose offsets differ by at most a day. *)
Theorem cycles_never_compound {host : Host}
    (calls : list (list JS.value * string)) (user : User) :
  plans user <> [] ->
  Forall (fun p => length (days p) = 30%nat) (plans user) ->
  exists user',
    completeCycles user calls = Some user'
    /\ length (plans user') = (length (plans user) + length calls)%nat
    /\ forall i p', (length (plans user) <= i)%nat ->
       plans user' !! i = Some p' ->
       exists prev f,
         plans user' !! (i - 1)%nat = Some prev
         /\ (f = 8 # 10 \/ f = 1 \/ f = 11 # 10)
         /\ difficulty p' = baselineDifficulty user * f
         /\ startDate p' = toISODate (addDays (Date_parse (endDate prev)) 1)
         /\ (forall tz, constantOffset tz ->
             startDate p' = (endDate prev + 1)%Z)
         /\ (offsetsWithinADay ->
             (endDate prev <= startDate p' <= endDate prev + 2)%Z).
Proof.
  intros Hne Hall.
  destruct (completeCycles_history calls user Hne Hall)
    as (user' & Hrun & _ & Hl & _ & Hnew).
  exists user'. split; [exact Hrun|]. split; [exact Hl|].
  intros i p' Hi Hp'.
  destruct (Hnew i p' Hi Hp') as (prev & f & H1 & H2 & H3 & H4).
  exists prev, f. split; [exact H1|]. split; [exact H4|]. split; [exact H3|].
  split; [exact H2|]. split.
  - intros tz Htz. rewrite H2. apply (date_after tz). exact Htz.
  - intros Hz. rewrite H2. apply successor_date_bounds. exact Hz.
Qed.

Lemma cycles_never_compound_witness :
  exists user',
    completeCycles (host := utcHost) sampleUser
      [(tuesdayFull, ""); ([num 1], ""); ([num 1], "")] = Some user'
    /\ length (plans user') = 4%nat.
Proof.
  destruct (cycles_never_compound (host := utcHost)
              [(tuesdayFull, ""); ([num 1], ""); ([num 1], "")] sampleUser
              ltac:(discriminate)
              ltac:(constructor; [reflexivity | constructor]))
    as (u & H1 & H2 & _).
  exists u. split; assumption.
Defined.

Example three_cycles_difficulties :
  (fun user' => map difficulty (plans user'))
  <$> completeCycles (host := utcHost) sampleUser
        [([num 1], ""); ([num 1], ""); ([num 1], "")]
  = Some [1; 8 # 10; 8 # 10; 8 # 10].
Proof. vm_compute. reflexivity. Qed.

(** ** The end of a cycle *)

(** Recording day 29 of a 30-day plan, with whatever values, writes the
    recorded plan in its place, dates unchanged, and appends exactly one
    plan: the plan generated from the user's preferences for the day
    after the end date of the plan, with the baseline difficulty times
    the factor of the recorded plan.  In a zone without daylight saving
    the new plan starts the day after the end date and ends 29 days
    later; in any zone whose offsets differ by at most a day it starts
    between the end date and two days after it. *)
Theorem cycle_end_appends_plan {host : Host} (user : User) (planRef : nat)
    (plan : Plan) (completedArray : list JS.value) (fb : string) :
  plans user !! planRef = Some plan ->
  length (days plan) = 30%nat ->
  exists plan' newPlan,
    updateDayCompletion user planRef 29 completedArray fb
    = Some {| password := password user;
              plans := <[planRef := plan']> (plans user) ++ [newPlan];
              preferences := preferences user |}
    /\ recordDay plan 29 completedArray fb = Some plan'
    /\ startDate plan' = startDate plan
    /\ endDate plan' = endDate plan
    /\ newPlan
       = createPlan (addDays (Date_parse (endDate plan)) 1)
           (baselineDifficulty user * determineNextDifficulty plan')
           (Some (prefsOf user))
    /\ (forall tz, constantOffset tz ->
        startDate newPlan = (endDate plan + 1)%Z
        /\ endDate newPlan = (startDate newPlan + 29)%Z)
    /\ (offsetsWithinADay ->
        (endDate plan <= startDate newPlan <= endDate plan + 2)%Z).
Proof.
  intros Hplan Hlen.
  destruct (record_last_day user planRef completedArray fb plan Hplan Hlen)
    as (plan' & Hrd & Hs & He & _ & Hupd).
  exists plan', (nextPlan user plan').
  split; [exact Hupd|]. split; [exact Hrd|]. split; [exact Hs|].
  split; [exact He|]. split; [unfold nextPlan; rewrite He; reflexivity|].
  split.
  - intros tz Htz. rewrite <- He. apply (nextPlan_dates tz). exact Htz.
  - intros Hz. destruct (nextPlan_fresh user plan') as (Hn & _).
    cbv zeta in Hn. rewrite Hn, He. apply successor_date_bounds. exact Hz.
Qed.

Lemma cycle_end_appends_plan_witness :
  exists plan' newPlan,
    updateDayCompletion (host := utcHost) sampleUser 0 29 [num 1] ""
    = Some {| password := password sampleUser;
              plans := <[0%nat := plan']> (plans sampleUser) ++ [newPlan];
              preferences := preferences sampleUser |}
    /\ startDate newPlan = (endDate samplePlan + 1)%Z.
Proof.
  destruct (cycle_end_appends_plan (host := utcHost) sampleUser 0 samplePlan
              [num 1] "" eq_refl eq_refl)
    as (plan' & newPlan & H1 & _ & _ & _ & _ & H2 & _).
  exists plan', newPlan. split; [exact H1|].
  exact (proj1 (H2 0%Z utc_constant)).
Defined.

(** ** Plan generator: the week and the equipment *)

Lemma createPlan_day {host : Host} (start : Z) (d : Q)
    (prefs : option Preferences) (i : nat) (day : Day) :
  days (createPlan start d prefs) !! i = Some day ->
  (i < 30)%nat /\ day = planDay d prefs i.
Proof.
  unfold createPlan. cbn [days]. intros Hday.
  apply list_lookup_fmap_Some in Hday as (k & -> & Hk).
  apply lookup_seq in Hk as [-> Hlt]. auto.
Qed.

Lemma catalog_rest_only_sunday (i : nat) :
  i <> 6%nat -> Forall (fun t => t_unit t <> Rest) (getDayTemplate i).
Proof.
  intros Hi.
  do 6 (destruct i as [|i]; [repeat constructor; discriminate|]).
  destruct i; [congruence | constructor].
Qed.

Lemma planExercise_unit (d : Q) (prefs : option Preferences) (t : Template) :
  ex_unit (planExercise d prefs t) = t_unit t.
Proof.
  unfold planExercise, adaptExerciseForEquipment. cbn [ex_unit].
  destruct prefs as [p|]; [|reflexivity].
  destruct (keepsExercise t (pref_equipment p)); reflexivity.
Qed.

(** A generated plan repeats every week: two days whose indices agree
    modulo 7 are equal.  The days of index 6 modulo 7 hold the single rest
    exercise with target 1, whatever the difficulty and the preferences,
    and no other day holds an exercise of unit rest. *)
Theorem createPlan_weekly {host : Host} (start : Z) (d : Q)
    (prefs : option Preferences) (i : nat) (day : Day) :
  days (createPlan start d prefs) !! i = Some day ->
  (forall j day', days (createPlan start d prefs) !! j = Some day' ->
                  i mod 7 = j mod 7 -> day = day')
  /\ (i mod 7 = 6%nat -> exercises day = [restExercise])
  /\ (i mod 7 <> 6%nat -> Forall (fun ex => ex_unit ex <> Rest) (exercises day)).
Proof.
  intros Hday. destruct (createPlan_day _ _ _ _ _ Hday) as [Hi ->].
  split; [|split].
  - intros j day' Hday' Hmod.
    destruct (createPlan_day _ _ _ _ _ Hday') as [_ ->].
    unfold planDay. rewrite Hmod. reflexivity.
  - intros Hmod. unfold planDay. cbn [exercises]. rewrite Hmod.
    destruct prefs; reflexivity.
  - intros Hmod. unfold planDay. cbn [exercises].
    apply List.Forall_forall. intros ex Hex.
    apply in_map_iff in Hex as (t & <- & Ht).
    rewrite planExercise_unit.
    pose proof (catalog_rest_only_sunday (i mod 7) Hmod) as Hall.
    rewrite List.Forall_forall in Hall. exact (Hall t Ht).
Qed.

Lemma createPlan_weekly_witness :
  days samplePlan !! 6%nat = Some (planDay 1 (Some fullPreferences) 6)
  /\ exercises (planDay 1 (Some fullPreferences) 6) = [restExercise]
  /\ planDay 1 (Some fullPreferences) 6 = planDay 1 (Some fullPreferences) 27.
Proof.
  assert (Hday : days samplePlan !! 6%nat
                 = Some (planDay 1 (Some fullPreferences) 6)) by reflexivity.
  destruct (createPlan_weekly (host := utcHost) (Date_parse jan1_2024) 1
              (Some fullPreferences)
              6%nat _ Hday) as (Hweek & Hrest & _).
  split; [exact Hday|]. split; [apply Hrest; reflexivity|].
  apply (Hweek 27%nat); reflexivity.
Defined.

Lemma round_monotone (x y : Q) : x <= y -> (JS.Math_round x <= JS.Math_round y)%Z.
Proof. intros H. unfold JS.Math_round. apply Qfloor_resp_le. lra. Qed.

Lemma halved_not_above (z : Z) :
  (1 <= z)%Z -> (Z.max 1 (JS.Math_round (inject_Z z * (1 # 2))) <= z)%Z.
Proof.
  intros Hz.
  assert (Hq : 1 <= inject_Z z).
  { change 1 with (inject_Z 1). rewrite <- Zle_Qle. exact Hz. }
  assert ((JS.Math_round (inject_Z z * (1 # 2)) < z + 1)%Z); [|lia].
  apply Qfloor_lt_Z. rewrite inject_Z_plus. change (inject_Z 1) with 1. lra.
Qed.

Lemma scaled_monotone (a z : Z) (d : Q) :
  (1 <= a <= z)%Z ->
  Qmax 1 (inject_Z (JS.Math_round (inject_Z a * d)))
  <= Qmax 1 (inject_Z (JS.Math_round (inject_Z z * d))).
Proof.
  intros [Ha Haz]. rewrite !Qmax_one_integer, <- Zle_Qle.
  assert (Hqa : 1 <= inject_Z a).
  { change 1 with (inject_Z 1). rewrite <- Zle_Qle. exact Ha. }
  assert (Hqz : inject_Z a <= inject_Z z) by (rewrite <- Zle_Qle; exact Haz).
  destruct (Qlt_le_dec d 0) as [Hd|Hd].
  - assert ((JS.Math_round (inject_Z a * d) < 1)%Z); [|lia].
    apply Qfloor_lt_Z. change (inject_Z 1) with 1. nra.
  - assert ((JS.Math_round (inject_Z a * d) <= JS.Math_round (inject_Z z * d))%Z);
      [|lia].
    apply round_monotone. nra.
Qed.

(** Missing equipment never makes an exercise harder: for every
    difficulty, the target an entry of the catalog gets under any
    preferences is at most the target it gets when all equipment is
    available. *)
Theorem missing_equipment_never_harder (d : Q) (p full : Preferences)
    (i : nat) (t : Template) :
  In t (getDayTemplate i) ->
  fullyEquipped (pref_equipment full) ->
  ex_target (planExercise d (Some p) t)
  <= ex_target (planExercise d (Some full) t).
Proof.
  intros Hin Hfull.
  destruct (catalog_positive_integer i t Hin) as (z & Hz & Hz1).
  pose proof (catalog_knownEquipment i) as Hknown.
  rewrite forallb_forall in Hknown.
  pose proof (fullyEquipped_keeps _ t Hfull (Hknown t Hin)) as Hkeep.
  unfold planExercise, adaptExerciseForEquipment. cbn [ex_target].
  rewrite Hkeep.
  destruct (keepsExercise t (pref_equipment p)); [lra|].
  cbn [t_unit t_target adapted]. rewrite Hz, Qmax_one_integer.
  pose proof (halved_not_above z Hz1) as Hhalf.
  set (a := Z.max 1 (JS.Math_round (inject_Z z * (1 # 2)))) in *.
  assert (Ha : (1 <= a)%Z) by (subst a; lia).
  assert (Hpa : JS.Qltb 0 (inject_Z a) = true).
  { apply Qltb_lt. change 0 with (inject_Z 0). rewrite <- Zlt_Qlt. lia. }
  assert (Hpz : JS.Qltb 0 (inject_Z z) = true).
  { apply Qltb_lt. change 0 with (inject_Z 0). rewrite <- Zlt_Qlt. lia. }
  rewrite Hpa, Hpz, !andb_true_r.
  destruct (negb (bool_decide (t_unit t = Rest))).
  - apply scaled_monotone. lia.
  - rewrite <- Zle_Qle. exact Hhalf.
Qed.

Lemma missing_equipment_never_harder_witness :
  ex_target (planExercise (12 # 10) (Some advancedNoDumbbells) squats)
  <= ex_target (planExercise (12 # 10) (Some fullPreferences) squats).
Proof.
  apply (missing_equipment_never_harder (12 # 10) advancedNoDumbbells
           fullPreferences 0%nat squats).
  - left. reflexivity.
  - intros tag Htag.
    repeat (apply elem_of_cons in Htag as [->|Htag]; [reflexivity|]).
    inversion Htag.
Defined.

(** ** The calendar screen *)

Lemma day_start_not_after (t : Z) : (toISODate t * msPerDay <= t)%Z.
Proof.
  unfold toISODate, msPerDay.
  pose proof (Z.div_mod t 86400000 ltac:(lia)).
  pose proof (Z.mod_pos_bound t 86400000 ltac:(lia)). lia.
Qed.

Lemma day_of_later (d t : Z) : (d * msPerDay < t)%Z -> (d <= toISODate t)%Z.
Proof.
  unfold toISODate, msPerDay. intros H.
  apply Z.div_le_lower_bound; lia.
Qed.

Lemma createPlan_current {host : Host} (user : User) (now : Z) (d : Q)
    (prefs : option Preferences) :
  offsetsWithinADay ->
  getCurrentPlan
    {| password := password user;
       plans := plans user ++ [createPlan now d prefs];
       preferences := preferences user |} now
  = Some (createPlan now d prefs).
Proof.
  intros Hz. unfold getCurrentPlan. cbn [plans]. rewrite last_snoc.
  destruct (createPlan_dates now d prefs) as (_ & _ & Hb).
  destruct (Hb Hz) as [_ Hle].
  destruct (Z.ltb_spec (Date_parse (endDate (createPlan now d prefs))) now)
    as [H|H]; [lia | reflexivity].
Qed.

Lemma renderApp_shape {host : Host} (user : User) (now : Z) :
  password (renderApp user now).1 = password user
  /\ preferences (renderApp user now).1 = preferences user
  /\ (plans (renderApp user now).1 = plans user
      \/ plans (renderApp user now).1 = plans user ++ [(renderApp user now).2]
         /\ forall prev, last (plans user) = Some prev ->
                         (endDate prev <= startDate (renderApp user now).2)%Z)
  /\ (goodUser user -> goodUser (renderApp user now).1).
Proof.
  unfold renderApp.
  destruct (getCurrentPlan user now) as [plan|] eqn:Hcur; cbn [fst snd];
    [auto|].
  cbn [plans password preferences]. split; [reflexivity|].
  split; [reflexivity|]. split.
  - right. split; [reflexivity|].
    intros prev Hprev. unfold getCurrentPlan in Hcur. rewrite Hprev in Hcur.
    destruct (Z.ltb_spec (Date_parse (endDate prev)) now) as [H|H];
      [|discriminate].
    cbn [createPlan startDate]. apply day_of_later. exact H.
  - intros Hgood. unfold goodUser in *. cbn [plans].
    apply Forall_app. split; [exact Hgood|].
    constructor; [apply createPlan_good | constructor].
Qed.

(** The plan the calendar shows is the newest plan of the history;
    rendering adds at most one plan; a plan it adds is generated for the
    instant, with the baseline difficulty, and starts on the UTC day of
    the instant, which is not before the end date of the plan before it;
    password and preferences stay, and a well-formed history stays well
    formed.  In a zone whose offsets differ by at most a day the plan
    shown is current at that instant, and rendering again at the same
    instant adds nothing. *)
Theorem renderApp_shows_current {host : Host} (user : User) (now : Z) :
  let user' := (renderApp user now).1 in
  let plan := (renderApp user now).2 in
  last (plans user') = Some plan
  /\ password user' = password user
  /\ preferences user' = preferences user
  /\ (plans user' = plans user
      \/ plans user' = plans user ++ [plan]
         /\ getCurrentPlan user now = None
         /\ plan = createPlan now (baselineDifficulty user) (Some (prefsOf user))
         /\ startDate plan = toISODate now
         /\ forall prev, last (plans user) = Some prev ->
                         (endDate prev <= startDate plan)%Z)
  /\ (goodUser user -> goodUser user')
  /\ (offsetsWithinADay ->
      getCurrentPlan user' now = Some plan
      /\ renderApp user' now = (user', plan)).
Proof.
  unfold renderApp.
  destruct (getCurrentPlan user now) as [plan|] eqn:Hcur; cbn [fst snd].
  - apply getCurrentPlan_Some in Hcur as Hc. destruct Hc as [Hlast _].
    rewrite Hcur. repeat split; auto.
  - cbn [plans password preferences].
    rewrite last_snoc.
    split; [reflexivity|]. split; [reflexivity|]. split; [reflexivity|].
    split; [|split].
    + right. repeat split; auto.
      intros prev Hprev. unfold getCurrentPlan in Hcur. rewrite Hprev in Hcur.
      destruct (Z.ltb_spec (Date_parse (endDate prev)) now) as [H|H];
        [|discriminate].
      cbn [createPlan startDate]. apply day_of_later. exact H.
    + intros Hgood. unfold goodUser in *. cbn [plans].
      apply Forall_app. split; [exact Hgood|].
      constructor; [apply createPlan_good | constructor].
    + intros Hz. rewrite createPlan_current by exact Hz. auto.
Qed.

Lemma renderApp_shows_current_witness :
  goodUser (newUser "pw")
  /\ goodUser (renderApp (host := utcHost) (newUser "pw") (noonOf jan1_2024)).1
  /\ offsetsWithinADay (host := bucharest2024)
  /\ getCurrentPlan
       (renderApp (host := bucharest2024) (newUser "pw") (noonOf jan1_2024)).1
       (noonOf jan1_2024)
     = Some (renderApp (host := bucharest2024) (newUser "pw")
               (noonOf jan1_2024)).2.
Proof.
  assert (Hgood : goodUser (newUser "pw")) by constructor.
  destruct (renderApp_shows_current (host := utcHost) (newUser "pw")
              (noonOf jan1_2024)) as (_ & _ & _ & _ & H & _).
  destruct (renderApp_shows_current (host := bucharest2024) (newUser "pw")
              (noonOf jan1_2024)) as (_ & _ & _ & _ & _ & H').
  split; [exact Hgood|]. split; [exact (H Hgood)|].
  split; [exact bucharest_within_a_day|].
  exact (proj1 (H' bucharest_within_a_day)).
Defined.

(** ** Recordings keep the history well formed *)

Lemma updateDayCompletion_shape {host : Host} (user user' : User)
    (planRef dayIndex : nat) (completedArray : list JS.value) (fb : string) :
  updateDayCompletion user planRef dayIndex completedArray fb = Some user' ->
  exists plan plan',
    plans user !! planRef = Some plan
    /\ startDate plan' = startDate plan
    /\ endDate plan' = endDate plan
    /\ password user' = password user
    /\ preferences user' = preferences user
    /\ (plans user' = <[planRef := plan']> (plans user)
        \/ plans user' = <[planRef := plan']> (plans user) ++ [nextPlan user plan']).
Proof.
  unfold updateDayCompletion. intros Hupd.
  destruct (plans user !! planRef) as [plan|] eqn:Hplan; [|discriminate].
  simpl in Hupd.
  destruct (recordDay plan dayIndex completedArray fb) as [plan'|] eqn:Hrd;
    [|discriminate].
  simpl in Hupd. inversion Hupd; subst user'. clear Hupd.
  exists plan, plan'. split; [reflexivity|].
  assert (Hdates : startDate plan' = startDate plan
                   /\ endDate plan' = endDate plan).
  { unfold recordDay in Hrd.
    destruct (days plan !! dayIndex) as [day|]; [|discriminate].
    simpl in Hrd. destruct (recordExercises completedArray 0 (exercises day)).
    inversion Hrd. split; reflexivity. }
  destruct Hdates as [Hs He]. cbn [plans password preferences].
  repeat split; try assumption.
  destruct (bool_decide _); [right | left]; reflexivity.
Qed.

(** A recording of numbers (missing, [undefined] and [null] entries
    included) keeps the history well formed: every plan still has 30
    days, every target is positive, every completed value is a
    non-negative number, and every cached completion is in [0,1]; this
    holds for the plan spawned at the end of a cycle too.  Password and
    preferences stay, and the history keeps its length or grows by one
    plan. *)
Theorem updateDayCompletion_wellformed {host : Host} (user user' : User)
    (planRef dayIndex : nat) (completedArray : list JS.value) (fb : string) :
  numbersOnly completedArray ->
  goodUser user ->
  updateDayCompletion user planRef dayIndex completedArray fb = Some user' ->
  goodUser user'
  /\ password user' = password user
  /\ preferences user' = preferences user
  /\ (length (plans user) <= length (plans user') <= S (length (plans user)))%nat.
Proof.
  intros Hnum Hgood Hupd.
  split; [exact (updateDayCompletion_good _ _ _ _ _ _ Hnum Hgood Hupd)|].
  destruct (updateDayCompletion_shape _ _ _ _ _ _ Hupd)
    as (plan & plan' & _ & _ & _ & Hpw & Hprefs & Hshape).
  split; [exact Hpw|]. split; [exact Hprefs|].
  destruct Hshape as [-> | ->].
  - rewrite length_insert. lia.
  - rewrite length_app, length_insert. simpl. lia.
Qed.

Lemma tuesdayFull_numbers : numbersOnly tuesdayFull.
Proof. repeat constructor. Qed.

Lemma updateDayCompletion_wellformed_witness :
  numbersOnly tuesdayFull /\ goodUser sampleUser /\ goodUser tuesdayRecorded.
Proof.
  assert (Hgood : goodUser sampleUser).
  { constructor; [apply createPlan_good | constructor]. }
  split; [exact tuesdayFull_numbers|]. split; [exact Hgood|].
  apply (updateDayCompletion_wellformed (host := utcHost) sampleUser
           tuesdayRecorded 0%nat 1%nat tuesdayFull "" tuesdayFull_numbers Hgood).
  vm_compute. reflexivity.
Defined.

Lemma ordered_insert (ps : list Plan) (r : nat) (p p' : Plan) :
  orderedHistory ps -> ps !! r = Some p ->
  startDate p' = startDate p -> endDate p' = endDate p ->
  orderedHistory (<[r := p']> ps).
Proof.
  intros Hord Hp Hs He i a b Ha Hb.
  pose proof (lookup_lt_Some _ _ _ Hp) as Hr.
  assert (Hat : forall j x, <[r := p']> ps !! j = Some x ->
            exists y, ps !! j = Some y /\ startDate x = startDate y
                      /\ endDate x = endDate y).
  { intros j x Hx. destruct (decide (j = r)) as [->|Hj].
    - rewrite list_lookup_insert_eq in Hx by exact Hr.
      inversion Hx; subst x. eauto.
    - rewrite list_lookup_insert_ne in Hx by congruence. eauto. }
  destruct (Hat _ _ Ha) as (a0 & Ha0 & _ & Hae).
  destruct (Hat _ _ Hb) as (b0 & Hb0 & Hbs & _).
  rewrite Hae, Hbs. exact (Hord i a0 b0 Ha0 Hb0).
Qed.

Lemma ordered_snoc (ps : list Plan) (q : Plan) :
  orderedHistory ps ->
  (forall p, last ps = Some p -> (endDate p <= startDate q)%Z) ->
  orderedHistory (ps ++ [q]).
Proof.
  intros Hord Hlast i a b Ha Hb.
  pose proof (lookup_lt_Some _ _ _ Hb) as Hi. rewrite length_app in Hi.
  simpl in Hi.
  rewrite lookup_app_l in Ha by lia.
  destruct (decide (i + 1 < length ps)%nat) as [Hlt|Hge].
  - rewrite lookup_app_l in Hb by lia. exact (Hord i a b Ha Hb).
  - rewrite lookup_app_r in Hb by lia.
    replace (i + 1 - length ps)%nat with 0%nat in Hb by lia.
    inversion Hb; subst b. apply Hlast.
    rewrite last_lookup. replace (pred (length ps)) with i by lia. exact Ha.
Qed.

Lemma updateDayCompletion_last_ordered {host : Host} (user user' : User)
    (dayIndex : nat) (completedArray : list JS.value) (fb : string) :
  offsetsWithinADay ->
  orderedHistory (plans user) ->
  updateDayCompletion user (length (plans user) - 1) dayIndex completedArray fb
  = Some user' ->
  orderedHistory (plans user').
Proof.
  intros Hz Hord Hupd.
  destruct (updateDayCompletion_shape _ _ _ _ _ _ Hupd)
    as (plan & plan' & Hplan & Hs & He & _ & Hprefs & Hshape).
  pose proof (lookup_lt_Some _ _ _ Hplan) as Hr.
  pose proof (ordered_insert _ _ _ plan' Hord Hplan Hs He) as Hins.
  destruct Hshape as [-> | ->]; [exact Hins|].
  apply ordered_snoc; [exact Hins|].
  intros p Hp. rewrite last_lookup, length_insert in Hp.
  replace (pred (length (plans user))) with (length (plans user) - 1)%nat
    in Hp by lia.
  rewrite list_lookup_insert_eq in Hp by exact Hr. inversion Hp; subst p.
  destruct (nextPlan_fresh user plan') as (Hn & _). cbv zeta in Hn.
  rewrite Hn. apply successor_date_bounds. exact Hz.
Qed.

Lemma zeroCompleted_numbers (day : Day) : numbersOnly (zeroCompleted day).
Proof.
  unfold numbersOnly, zeroCompleted. apply Forall_fmap, Forall_true.
  intros ex. exact I.
Qed.

Lemma completedTasks_numbers {host : Host} (inputs : list string) :
  numbersOnly (completedTasks inputs).
Proof.
  unfold numbersOnly, completedTasks. apply Forall_fmap, Forall_true.
  intros value. exact I.
Qed.

Lemma skipDay_is_update {host : Host} (user user' : User)
    (planRef dayIndex : nat) (fb : string) :
  skipDay user planRef dayIndex fb = Some user' ->
  exists completedArray fb',
    numbersOnly completedArray
    /\ updateDayCompletion user planRef dayIndex completedArray fb' = Some user'.
Proof.
  unfold skipDay. intros H.
  destruct (plans user !! planRef) as [plan|]; [|discriminate]. simpl in H.
  destruct (days plan !! dayIndex) as [day|]; [|discriminate]. simpl in H.
  exists (zeroCompleted day), (orString fb "N/A").
  split; [apply zeroCompleted_numbers | exact H].
Qed.

(** ** Local time: weekdays, calendar dates and the daily reminder *)

Lemma constant_days_kept {host : Host} (tz : Z) :
  constantOffset tz -> localDaysKept.
Proof.
  intros Htz t. unfold LocalTime, UTC. rewrite !Htz. f_equal. lia.
Qed.

Lemma seasonal_days_kept (std from to t : Z) :
  (from <= to)%Z ->
  ((from + std) mod msPerDay < msPerDay - 2 * hour)%Z ->
  let offset := seasonalOffset std from to in
  ((t - offset t false + offset (t - offset t false) true) / msPerDay
   = t / msPerDay)%Z.
Proof.
  intros Hle Hfrom. cbv zeta. unfold seasonalOffset, hour, msPerDay in *.
  destruct (Z.leb_spec from (t - (std + 3600000)));
    destruct (Z.ltb_spec (t - (std + 3600000)) to); cbn [andb].
  - destruct (Z.leb_spec from (t - (std + 3600000)));
      destruct (Z.ltb_spec (t - (std + 3600000)) to); cbn [andb]; try lia.
    f_equal. lia.
  - destruct (Z.leb_spec from (t - std)); destruct (Z.ltb_spec (t - std) to);
      cbn [andb]; try lia; f_equal; lia.
  - destruct (Z.leb_spec from (t - std)); destruct (Z.ltb_spec (t - std) to);
      cbn [andb]; try (f_equal; lia).
    replace (t - std + (std + 3600000))%Z with (t + 3600000)%Z by lia.
    Z.div_mod_to_equations. lia.
  - lia.
Qed.

Lemma bucharest_days_kept : localDaysKept (host := bucharest2024).
Proof.
  intros t. apply seasonal_days_kept; vm_compute; [discriminate | reflexivity].
Qed.

Lemma localDay_addDays {host : Host} (date n : Z) :
  localDaysKept ->
  localDay (addDays date n) = (localDay date + n)%Z.
Proof.
  intros Hk. unfold localDay, addDays. rewrite Hk.
  apply Z.div_add. discriminate.
Qed.

Lemma localDay_dateOfDay {host : Host} (plan : Plan) (i : nat) :
  localDaysKept ->
  localDay (dateOfDay plan i)
  = (localDay (Date_parse (startDate plan)) + Z.of_nat i)%Z.
Proof. apply localDay_addDays. Qed.

Lemma formatDay_index {host : Host} (date : Z) :
  formatDay date = weekdayNames !! Z.to_nat ((localDay date + 3) mod 7)%Z.
Proof.
  unfold formatDay, getDay. f_equal. f_equal.
  destruct (Z.eqb_spec ((localDay date + 4) mod 7) 0) as [E|E];
    Z.div_mod_to_equations; lia.
Qed.

Lemma weekdayNames_lookup (n : nat) (name : string) :
  weekdayNames !! n = Some name ->
  (n < 7)%nat
  /\ (name = "Luni" <-> n = 0%nat) /\ (name = "Duminică" <-> n = 6%nat).
Proof.
  intros H.
  do 7 (destruct n as [|n];
        [inversion H; subst name;
         repeat split; try lia; intros; try discriminate; reflexivity|]).
  inversion H.
Qed.

(** [formatDay] answers a weekday name for every date in every zone: the
    name at position (local day number + 3) modulo 7 of the list that
    starts with Monday, so that [getDay() = 0] gives the last name,
    Sunday, and [getDay() = 1] the first, Monday. *)
Theorem formatDay_weekday {host : Host} (date : Z) :
  exists name,
    formatDay date = Some name
    /\ weekdayNames !! Z.to_nat ((localDay date + 3) mod 7)%Z = Some name
    /\ (name = "Duminică" <-> getDay date = 0%Z)
    /\ (name = "Luni" <-> getDay date = 1%Z).
Proof.
  rewrite formatDay_index.
  pose proof (Z.mod_pos_bound (localDay date + 3) 7 ltac:(lia)) as Hb.
  destruct (lookup_lt_is_Some_2 weekdayNames
              (Z.to_nat ((localDay date + 3) mod 7)))
    as [name Hname]; [simpl; lia|].
  exists name. split; [exact Hname|]. split; [exact Hname|].
  destruct (weekdayNames_lookup _ _ Hname) as (_ & Hmon & Hsun).
  unfold getDay. split.
  - rewrite Hsun. split; intros H; Z.div_mod_to_equations; lia.
  - rewrite Hmon. split; intros H; Z.div_mod_to_equations; lia.
Qed.

(** The weekday printed over day [i] of the calendar is the weekday of
    the template of that day (position [i] modulo 7 of the list, Monday
    first, rest on Sunday) for every day of the plan exactly when the plan
    starts on a local Monday; in every zone, with or without daylight
    saving, whose clock changes move no time of day across midnight. *)
Theorem calendar_weekdays_match_templates {host : Host} (plan : Plan) :
  localDaysKept ->
  ((forall i : nat,
       formatDay (dateOfDay plan i) = weekdayNames !! (i mod 7)%nat)
   <-> getDay (Date_parse (startDate plan)) = 1%Z).
Proof.
  intros Hk. split.
  - intros H. specialize (H 0%nat).
    rewrite formatDay_index, localDay_dateOfDay in H by exact Hk.
    change (weekdayNames !! (0 mod 7)%nat) with (Some "Luni") in H.
    apply weekdayNames_lookup in H as (_ & Hmon & _).
    destruct Hmon as [Hmon _]. specialize (Hmon eq_refl).
    unfold getDay. Z.div_mod_to_equations; lia.
  - intros Hmon i. rewrite formatDay_index, localDay_dateOfDay by exact Hk.
    f_equal. unfold getDay in Hmon.
    rewrite <- (Nat2Z.id (i mod 7)). f_equal.
    rewrite Nat2Z.inj_mod. change (Z.of_nat 7) with 7%Z.
    Z.div_mod_to_equations; lia.
Qed.

(** The calendar date shown for day [i] of a plan is [startDate + i]
    where local time is at or ahead of UTC at midnight UTC of the start
    date, and one day earlier, [startDate + i - 1], where it is behind,
    because [new Date(plan.startDate)] is midnight UTC. *)
Theorem calendar_dates_by_zone {host : Host} (plan : Plan) (i : nat) :
  localDaysKept ->
  (- msPerDay <= LocalTZA (Date_parse (startDate plan)) true < msPerDay)%Z ->
  localDay (dateOfDay plan i)
  = (if (LocalTZA (Date_parse (startDate plan)) true <? 0)%Z
     then startDate plan + Z.of_nat i - 1
     else startDate plan + Z.of_nat i)%Z.
Proof.
  intros Hk Htz. rewrite localDay_dateOfDay by exact Hk.
  unfold localDay, LocalTime.
  set (tz := LocalTZA (Date_parse (startDate plan)) true) in *. clearbody tz.
  unfold Date_parse, msPerDay in *.
  destruct (Z.ltb_spec tz 0); Z.div_mod_to_equations; lia.
Qed.

Lemma utcPlus2_constant : constantOffset (host := utcPlus2) (2 * hour).
Proof. intros t b. reflexivity. Qed.

Lemma utcMinus5_constant : constantOffset (host := utcMinus5) (- (5 * hour)).
Proof. intros t b. reflexivity. Qed.

Lemma calendar_dates_by_zone_witness :
  localDay (host := utcPlus2) (dateOfDay (host := utcPlus2) samplePlan 0)
  = jan1_2024
  /\ localDay (host := utcMinus5) (dateOfDay (host := utcMinus5) samplePlan 0)
     = (jan1_2024 - 1)%Z
  /\ localDay (host := bucharest2024)
       (dateOfDay (host := bucharest2024) marchPlan 20)
     = (startDate marchPlan + 20)%Z.
Proof.
  split; [|split].
  - rewrite (calendar_dates_by_zone (host := utcPlus2) samplePlan 0);
      [reflexivity | exact (constant_days_kept _ utcPlus2_constant)
      | vm_compute; split; [discriminate | reflexivity]].
  - rewrite (calendar_dates_by_zone (host := utcMinus5) samplePlan 0);
      [reflexivity | exact (constant_days_kept _ utcMinus5_constant)
      | vm_compute; split; [discriminate | reflexivity]].
  - rewrite (calendar_dates_by_zone (host := bucharest2024) marchPlan 20);
      [reflexivity | exact bucharest_days_kept
      | vm_compute; split; [discriminate | reflexivity]].
Defined.

Lemma notification_diff {host : Host} (plan : Plan) (today : Z) :
  LocalTZA (localDay today * msPerDay) false
  = LocalTZA (localDay (Date_parse (startDate plan)) * msPerDay) false ->
  ((setHoursMidnight today
    - setHoursMidnight (Date_parse (startDate plan))) / msPerDay)%Z
  = (localDay today - localDay (Date_parse (startDate plan)))%Z.
Proof.
  intros Hsame. unfold setHoursMidnight, UTC. rewrite Hsame.
  set (tz := LocalTZA _ false). clearbody tz.
  replace (localDay today * msPerDay - tz
           - (localDay (Date_parse (startDate plan)) * msPerDay - tz))%Z
    with ((localDay today - localDay (Date_parse (startDate plan)))
          * msPerDay)%Z by lia.
  apply Z.div_mul. discriminate.
Qed.

Lemma notificationDay_Some {host : Host} (plan : Plan) (today : Z) (i : nat) :
  localDaysKept ->
  LocalTZA (localDay today * msPerDay) false
  = LocalTZA (localDay (Date_parse (startDate plan)) * msPerDay) false ->
  notificationDay plan today = Some i
  <-> (i < length (days plan))%nat
      /\ localDay today = localDay (dateOfDay plan i).
Proof.
  intros Hk Hsame.
  unfold notificationDay. cbv zeta. rewrite notification_diff by exact Hsame.
  rewrite localDay_dateOfDay by exact Hk.
  set (diff := (localDay today - localDay (Date_parse (startDate plan)))%Z).
  destruct (Z.ltb_spec diff 0) as [Hneg|Hpos]; cbn [orb].
  - split; [discriminate | intros [_ H]; lia].
  - destruct (Z.leb_spec (Z.of_nat (length (days plan))) diff) as [Hge|Hlt].
    + split; [discriminate | intros [H1 H2]; lia].
    + split.
      * intros H. inversion H. split; lia.
      * intros [H1 H2]. f_equal. lia.
Qed.



(** Across the change to summer time the reminder lags a day: in
    Bucharest, for the plan that starts on 2024-03-15, at noon on
    2024-04-05 the calendar shows today's date on day 21, and the
    reminder reads day 20. *)
Example reminder_lags_after_clock_change :
  localDay (host := bucharest2024) (noonOf (19797 + 21))
  = localDay (host := bucharest2024)
      (dateOfDay (host := bucharest2024) marchPlan 21)
  /\ notificationDay (host := bucharest2024) marchPlan (noonOf (19797 + 21))
     = Some 20%nat.
Proof. split; vm_compute; reflexivity. Qed.

(** The reminder of the current plan, in a zone without daylight saving:
    when [getCurrentPlan] answers a 30-day plan, the reminder's day index
    is at most 29, and in a zone at or east of UTC it is 29 only from
    local midnight of the end date to midnight UTC, a window as long as
    the zone offset (empty but for one instant in UTC itself). *)
Theorem reminder_of_last_day {host : Host} (tz : Z) (user : User)
    (plan : Plan) (today : Z) (i : nat) :
  constantOffset tz ->
  (0 <= tz < msPerDay)%Z ->
  endDate plan = (startDate plan + 29)%Z ->
  getCurrentPlan user today = Some plan ->
  notificationDay plan today = Some i ->
  (i <= 29)%nat
  /\ (i = 29%nat ->
      (Date_parse (endDate plan) - tz <= today <= Date_parse (endDate plan))%Z).
Proof.
  intros Hc Htz Hend Hcur Hi.
  apply getCurrentPlan_Some in Hcur as [_ Hle].
  apply notificationDay_Some in Hi as [_ Hi];
    [|exact (constant_days_kept tz Hc) | rewrite !Hc; reflexivity].
  rewrite localDay_dateOfDay in Hi by exact (constant_days_kept tz Hc).
  unfold localDay, LocalTime in Hi. rewrite !Hc in Hi.
  unfold Date_parse, msPerDay in *. rewrite Hend in *.
  split; [|intros ->; split]; Z.div_mod_to_equations; lia.
Qed.

Lemma reminder_of_last_day_witness :
  notificationDay (host := utcPlus2) samplePlan
    (Date_parse (endDate samplePlan) - 3600 * 1000) = Some 29%nat
  /\ (Date_parse (endDate samplePlan) - 2 * hour
      <= Date_parse (endDate samplePlan) - 3600 * 1000
      <= Date_parse (endDate samplePlan))%Z.
Proof.
  assert (H : notificationDay (host := utcPlus2) samplePlan
                (Date_parse (endDate samplePlan) - 3600 * 1000)
              = Some 29%nat) by reflexivity.
  split; [exact H|].
  apply (reminder_of_last_day (host := utcPlus2) (2 * hour) sampleUser
           samplePlan (Date_parse (endDate samplePlan) - 3600 * 1000) 29%nat);
    [exact utcPlus2_constant | unfold hour, msPerDay; lia | reflexivity
    | reflexivity | exact H | reflexivity].
Defined.

(** ** Calendar badges, progress bars and the statistics chart *)

Lemma good_contribution (t d : Q) (ex : Exercise) :
  goodExercise ex ->
  exists d', addExercise (t, d) ex = (t + totalContribution ex, d + d')
             /\ d' == doneContribution ex
             /\ 0 <= doneContribution ex <= totalContribution ex
             /\ 0 < totalContribution ex.
Proof.
  intros (Ht & c & Hc & Hpos).
  unfold addExercise, totalContribution, doneContribution. rewrite Hc.
  pose proof (orQ_zero c) as Hor.
  destruct (ex_unit ex); simpl;
    try (eexists; split; [reflexivity|]; rewrite Hor;
         split; [reflexivity|];
         destruct (Q.min_spec c (ex_target ex)) as [[? ->]|[? ->]];
         (split; [split|]; lra)).
  eexists; split; [reflexivity|].
  destruct (JS.Qltb 0 c) eqn:E.
  - apply Qltb_lt in E.
    destruct (Qeq_bool c 0) eqn:E0;
      [apply Qeq_bool_iff in E0; lra|].
    simpl. split; [reflexivity | split; [split|]; lra].
  - rewrite andb_false_r. split; [reflexivity | split; [split|]; lra].
Qed.

Lemma good_sums (exs : list Exercise) (t d : Q) :
  Forall goodExercise exs ->
  (fold_left addExercise exs (t, d)).1 == t + Qsum (map totalContribution exs)
  /\ (fold_left addExercise exs (t, d)).2 == d + Qsum (map doneContribution exs).
Proof.
  revert t d. induction exs as [|ex exs IH]; intros t d Hgood.
  - simpl. split; lra.
  - inversion Hgood as [|? ? Hex Hexs]; subst.
    change (fold_left addExercise (ex :: exs) (t, d))
      with (fold_left addExercise exs (addExercise (t, d) ex)).
    change (Qsum (map totalContribution (ex :: exs)))
      with (totalContribution ex + Qsum (map totalContribution exs)).
    change (Qsum (map doneContribution (ex :: exs)))
      with (doneContribution ex + Qsum (map doneContribution exs)).
    destruct (good_contribution t d ex Hex) as (d' & -> & Hd' & _).
    destruct (IH (t + totalContribution ex) (d + d') Hexs) as [Ht Hd].
    rewrite Ht, Hd, Hd'. split; lra.
Qed.

Lemma good_sum_bounds (exs : list Exercise) :
  Forall goodExercise exs ->
  0 <= Qsum (map doneContribution exs) <= Qsum (map totalContribution exs)
  /\ (exs <> [] -> 0 < Qsum (map totalContribution exs)).
Proof.
  induction 1 as [|ex exs Hex _ IH]; simpl; [split; [lra | congruence]|].
  destruct (good_contribution 0 0 ex Hex) as (_ & _ & _ & Hb & Hp).
  destruct IH as [IH _]. split; [lra | intros _; lra].
Qed.

Lemma good_ratio_value (day : Day) :
  Forall goodExercise (exercises day) -> exercises day <> [] ->
  calculateDayCompletion day
  == Qsum (map doneContribution (exercises day))
     / Qsum (map totalContribution (exercises day)).
Proof.
  intros Hgood Hne. rewrite calculateDayCompletion_totals. unfold totals.
  destruct (good_sums (exercises day) 0 0 Hgood) as [Ht Hd].
  destruct (good_sum_bounds (exercises day) Hgood) as [_ Hpos].
  specialize (Hpos Hne).
  destruct (fold_left addExercise (exercises day) (0, 0)) as [t d].
  cbn [fst snd] in *. rewrite Qplus_0_l in Ht, Hd.
  destruct (Qeq_bool t 0) eqn:E.
  - apply Qeq_bool_iff in E. lra.
  - rewrite Ht, Hd. reflexivity.
Qed.






(** The value the statistics chart plots for a day is the width of the
    progress bar of that day on the calendar: the completion ratio in
    percent, rounded, a whole number from 0 to 100 (the cap of the bar at
    100 never applies). *)
Theorem chart_matches_progress_bar (plan : Plan) (i : nat) (day : Day) :
  Forall goodExercise (exercises day) ->
  days plan !! i = Some day ->
  statsData plan !! i = Some (barWidth (calculateDayCompletion day))
  /\ barWidth (calculateDayCompletion day)
     = JS.Math_round (calculateDayCompletion day * 100)
  /\ (0 <= barWidth (calculateDayCompletion day) <= 100)%Z
  /\ length (statsData plan) = length (days plan).
Proof.
  intros Hgood Hday.
  assert (Hr : 0 <= calculateDayCompletion day <= 1).
  { destruct day as [exs fb c]. exact (good_ratio exs fb c Hgood). }
  assert (Hlo : (0 <= JS.Math_round (calculateDayCompletion day * 100))%Z).
  { rewrite <- (round_integer 0). apply round_monotone.
    change (inject_Z 0) with 0. lra. }
  assert (Hhi : (JS.Math_round (calculateDayCompletion day * 100) <= 100)%Z).
  { rewrite <- (round_integer 100) at 2. apply round_monotone.
    change (inject_Z 100) with 100. lra. }
  unfold barWidth. rewrite Z.min_r by exact Hhi.
  split; [|split; [reflexivity | split; [lia|]]].
  - unfold statsData. rewrite list_lookup_fmap, Hday. reflexivity.
  - unfold statsData. apply length_map.
Qed.

Lemma chart_matches_progress_bar_witness :
  statsData (uniformPlan 8) !! 3%nat = Some 80%Z.
Proof.
  assert (Hgood : Forall goodExercise
                    [mkExercise "Plank" 10 Sec "" (Some []) (JS.Num (inject_Z 8))]).
  { constructor; [|constructor]. split; [reflexivity|].
    eexists. split; [reflexivity | vm_compute; discriminate]. }
  destruct (chart_matches_progress_bar (uniformPlan 8) 3%nat
              {| exercises :=
                   [mkExercise "Plank" 10 Sec "" (Some []) (JS.Num (inject_Z 8))];
                 feedback := ""; completion := 0 |} Hgood eq_refl) as (H1 & _).
  rewrite H1. reflexivity.
Defined.

Lemma calendar_weekdays_match_templates_witness :
  getDay (host := utcPlus2) (Date_parse (startDate samplePlan)) = 1%Z
  /\ formatDay (host := utcPlus2) (dateOfDay (host := utcPlus2) samplePlan 6)
     = Some "Duminică".
Proof.
  assert (Hmon : getDay (host := utcPlus2) (Date_parse (startDate samplePlan))
                 = 1%Z) by reflexivity.
  split; [exact Hmon|].
  rewrite (proj2 (calendar_weekdays_match_templates (host := utcPlus2)
                    samplePlan (constant_days_kept _ utcPlus2_constant))
             Hmon 6%nat).
  reflexivity.
Defined.

(** ** Accounts *)

Lemma isEmpty_false (s : string) : isEmpty s = false <-> s <> "".
Proof. destruct s; simpl; split; congruence. Qed.

(** [renderApp()] for a current user with an account. *)
Lemma renderScreen_own {host : Host} (st : Storage) (now : Z) (name : string)
    (user : User) :
  currentUser st = Some name ->
  getUsers st !! name = Some user ->
  (renderScreen st now).2 = AppScreen (renderApp user now).1
  /\ getUsers (renderScreen st now).1
     = <[name := (renderApp user now).1]> (getUsers st)
  /\ currentUser (renderScreen st now).1 = Some name.
Proof.
  intros Hc Hu. unfold renderScreen, usersGet. rewrite Hc.
  cbn [default from_option id]. rewrite Hu. unfold renderApp.
  destruct (getCurrentPlan user now) as [plan|] eqn:E; cbn [fst snd].
  - split; [reflexivity|].
    split; [symmetry; apply insert_id; exact Hu | exact Hc].
  - split; [reflexivity|]. split; [reflexivity | exact Hc].
Qed.

Lemma init_current {host : Host} (st : Storage) (now : Z) (name : string) :
  currentUser st = Some name -> name <> "" ->
  init st now = renderScreen st now.
Proof.
  intros Hc Hne. unfold init. rewrite Hc.
  apply isEmpty_false in Hne. rewrite Hne. reflexivity.
Qed.

(** The first rendering of a new account. *)
Lemma renderApp_newUser {host : Host} (pass : string) (now : Z) :
  (renderApp (newUser pass) now).1
  = {| password := pass;
       plans := [createPlan now 1 (Some fullPreferences)];
       preferences := Some fullPreferences |}.
Proof. reflexivity. Qed.

(** A registration with a non-empty name and password, when [users[name]]
    is not yet anything, creates the account with difficulty 1 and all
    equipment, logs the user in and renders the calendar, which generates
    the first plan for the instant and stores it: the store then holds
    the account with that one plan beside the accounts read from the
    storage, which it leaves as they are, and the calendar shows that
    account.  Logging in with the same password succeeds after a
    logout.  When the stored text was corrupt, the store then holds the
    new account alone. *)
Theorem register_creates_account {host : Host} (st : Storage)
    (name pass : string) (now : Z) :
  name <> "" -> pass <> "" ->
  getUsers st !! name = None -> name ∉ inheritedKeys ->
  let account :=
    {| password := pass;
       plans := [createPlan now 1 (Some fullPreferences)];
       preferences := Some fullPreferences |} in
  exists st',
    register st name pass now = (st', AppScreen account, EnterApp)
    /\ getUsers st' = <[name := account]> (getUsers st)
    /\ getUsers st' !! name = Some account
    /\ (forall other, other <> name ->
        getUsers st' !! other = getUsers st !! other)
    /\ currentUser st' = Some name
    /\ (forall later,
        (login (logout st') name pass later).2 = EnterApp
        /\ (login (logout st') name pass later).1.2
           = AppScreen (renderApp account later).1)
    /\ (usersItem st = Some Corrupt -> getUsers st' = {[ name := account ]}).
Proof.
  intros Hname Hpass Hfree Hown account.
  apply isEmpty_false in Hname as En. apply isEmpty_false in Hpass as Ep.
  set (st1 := setCurrentUser (saveUsers st (<[name := newUser pass]> (getUsers st)))
                name).
  assert (Hc1 : currentUser st1 = Some name) by reflexivity.
  assert (Hu1 : getUsers st1 !! name = Some (newUser pass))
    by apply lookup_insert_eq.
  destruct (renderScreen_own st1 now name (newUser pass) Hc1 Hu1)
    as (Hscr & Hget & Hcur).
  rewrite renderApp_newUser in Hscr, Hget. fold account in Hscr, Hget.
  assert (Hreg : register st name pass now = (renderScreen st1 now, EnterApp)).
  { unfold register. rewrite En, Ep. cbn [orb]. cbv zeta.
    unfold usersGet. rewrite Hfree, bool_decide_eq_false_2 by exact Hown.
    fold st1. rewrite (init_current st1 now name Hc1 Hname). reflexivity. }
  assert (Hget' : getUsers (renderScreen st1 now).1
                  = <[name := account]> (getUsers st)).
  { rewrite Hget. apply insert_insert_eq. }
  exists (renderScreen st1 now).1.
  split; [rewrite Hreg; destruct (renderScreen st1 now); cbn [fst snd] in *;
          congruence|].
  split; [exact Hget'|].
  split; [rewrite Hget'; apply lookup_insert_eq|].
  split; [intros other Hne; rewrite Hget'; apply lookup_insert_ne; congruence|].
  split; [exact Hcur|]. split.
  - intros later.
    set (st2 := logout (renderScreen st1 now).1).
    assert (Hu2 : getUsers st2 !! name = Some account).
    { change (getUsers st2) with (getUsers (renderScreen st1 now).1).
      rewrite Hget'. apply lookup_insert_eq. }
    unfold login. rewrite En, Ep. cbn [orb]. unfold usersGet. rewrite Hu2.
    cbn [password account]. rewrite bool_decide_eq_true_2 by reflexivity.
    rewrite (init_current (setCurrentUser st2 name) later name eq_refl Hname).
    cbn [fst snd]. split; [reflexivity|].
    apply (renderScreen_own (setCurrentUser st2 name) later name account eq_refl Hu2).
  - intros Hcorrupt. rewrite Hget'. unfold getUsers. rewrite Hcorrupt.
    reflexivity.
Qed.

Lemma register_creates_account_witness :
  exists st',
    (register (host := utcHost) (mkStorage (Some Corrupt) None) "ana" "parola"
       (noonOf jan1_2024)).1.1 = st'
    /\ getUsers st'
       = {[ "ana" :=
              {| password := "parola";
                 plans := [createPlan (host := utcHost) (noonOf jan1_2024) 1
                             (Some fullPreferences)];
                 preferences := Some fullPreferences |} ]}.
Proof.
  destruct (register_creates_account (host := utcHost)
              (mkStorage (Some Corrupt) None) "ana" "parola" (noonOf jan1_2024)
              ltac:(discriminate) ltac:(discriminate)
              eq_refl ltac:(apply (bool_decide_eq_false_1 _); reflexivity))
    as (st' & H1 & _ & _ & _ & _ & _ & H2).
  exists st'. split; [rewrite H1; reflexivity | apply H2; reflexivity].
Defined.

(** A registration never overwrites anything: when the name or the
    password is empty, when the name is taken, or when the name is a
    property every object inherits (such as [toString] or [constructor]),
    the storage is left exactly as it was, the authentication form stays
    and the user is not logged in. *)
Theorem register_never_overwrites {host : Host} (st : Storage)
    (name pass : string) (now : Z) :
  name = "" \/ pass = "" \/ is_Some (getUsers st !! name)
  \/ name ∈ inheritedKeys ->
  (register st name pass now).1 = (st, AuthScreen)
  /\ (register st name pass now).2 <> EnterApp.
Proof.
  intros H. unfold register.
  destruct (isEmpty name || isEmpty pass) eqn:E; [split; [reflexivity | discriminate]|].
  apply orb_false_iff in E as [En Ep].
  apply isEmpty_false in En. apply isEmpty_false in Ep.
  cbv zeta. unfold usersGet.
  destruct H as [H | [H | [[u H] | H]]]; try contradiction.
  - rewrite H. split; [reflexivity | discriminate].
  - destruct (getUsers st !! name); [split; [reflexivity | discriminate]|].
    rewrite bool_decide_eq_true_2 by exact H.
    split; [reflexivity | discriminate].
Qed.

Lemma register_never_overwrites_witness :
  (register (host := utcHost) (mkStorage None None) "toString" "parola" 0).1
  = (mkStorage None None, AuthScreen)
  /\ (register (host := utcHost) (mkStorage None None) "toString" "parola" 0).2
     = AlertTaken.
Proof.
  split; [|reflexivity].
  apply (register_never_overwrites (host := utcHost) (mkStorage None None)
           "toString" "parola" 0).
  right. right. right. apply (bool_decide_eq_true_1 _). reflexivity.
Defined.

(** The login button lets the user in exactly when name and password are
    not empty and the storage holds an account of that name with that
    password.  It then records the name as current user and renders the
    calendar of that account, which generates a plan for the instant and
    stores it when the account has no current plan; no other account is
    touched.  In every other case (wrong password, unknown name,
    inherited property name, corrupt storage) nothing is changed and the
    authentication form stays. *)
Theorem login_checks_password {host : Host} (st : Storage)
    (name pass : string) (now : Z) :
  ((login st name pass now).2 = EnterApp
   <-> name <> "" /\ pass <> ""
       /\ exists user, getUsers st !! name = Some user /\ password user = pass)
  /\ (forall user,
      (login st name pass now).2 = EnterApp ->
      getUsers st !! name = Some user ->
      currentUser (login st name pass now).1.1 = Some name
      /\ (login st name pass now).1.2 = AppScreen (renderApp user now).1
      /\ getUsers (login st name pass now).1.1
         = <[name := (renderApp user now).1]> (getUsers st))
  /\ ((login st name pass now).2 <> EnterApp ->
      (login st name pass now).1 = (st, AuthScreen)).
Proof.
  unfold login.
  destruct (isEmpty name || isEmpty pass) eqn:E.
  { apply orb_true_iff in E.
    repeat split; try discriminate; try reflexivity.
    intros (Hn & Hp & _). apply isEmpty_false in Hn. apply isEmpty_false in Hp.
    destruct E; congruence. }
  apply orb_false_iff in E as [En Ep].
  apply isEmpty_false in En. apply isEmpty_false in Ep.
  unfold usersGet.
  destruct (getUsers st !! name) as [user|] eqn:Hu.
  - destruct (bool_decide (password user = pass)) eqn:Hp.
    + apply bool_decide_eq_true in Hp. cbn [fst snd]. split; [|split].
      * split; [intros _; eauto | reflexivity].
      * intros u _ Hu'. inversion Hu'; subst u.
        rewrite (init_current (setCurrentUser st name) now name eq_refl En).
        destruct (renderScreen_own (setCurrentUser st name) now name user
                    eq_refl Hu) as (H1 & H2 & H3).
        auto.
      * intros H. contradiction H. reflexivity.
    + apply bool_decide_eq_false in Hp.
      repeat split; try discriminate; try reflexivity.
      intros (_ & _ & u & Hu' & Hpw). congruence.
  - destruct (bool_decide (name ∈ inheritedKeys));
      (repeat split; try discriminate; try reflexivity;
       intros (_ & _ & u & Hu' & _); discriminate).
Qed.

Lemma login_checks_password_witness :
  (login (host := utcHost)
     (mkStorage (Some (Stored {[ "ana" := newUser "parola" ]})) None)
     "ana" "parola" 0).2 = EnterApp
  /\ (login (host := utcHost)
        (mkStorage (Some (Stored {[ "ana" := newUser "parola" ]})) None)
        "ana" "alta" 0).2 = AlertWrong.
Proof.
  split; [|reflexivity].
  apply (proj1 (login_checks_password (host := utcHost)
                  (mkStorage (Some (Stored {[ "ana" := newUser "parola" ]})) None)
                  "ana" "parola" 0)).
  split; [discriminate|]. split; [discriminate|].
  exists (newUser "parola"). split; reflexivity.
Defined.

(** ** The settings dialog *)

Lemma saved_equipment (checked : string -> bool) (key : string) :
  key ∈ equipmentKeys ->
  hasEquipment
    (fold_left (fun equipment key => <[key := checked key]> equipment)
               equipmentKeys ∅) key
  = checked key.
Proof.
  intros Hkey. unfold hasEquipment, equipmentKeys in *. cbn [fold_left].
  repeat (apply elem_of_cons in Hkey as [->|Hkey];
          [rewrite ?lookup_insert_eq, ?lookup_insert_ne by discriminate;
           rewrite ?lookup_insert_eq; reflexivity|]).
  inversion Hkey.
Qed.

Lemma allAvailable_agree (m1 m2 : gmap string bool) (equipment : list string) :
  (forall key, In key equipment -> hasEquipment m1 key = hasEquipment m2 key) ->
  allAvailable equipment m1 = allAvailable equipment m2.
Proof.
  intros H. unfold allAvailable. rewrite !allAvailable_from. f_equal.
  induction equipment as [|eq eqs IH]; [reflexivity|].
  simpl. rewrite (H eq (or_introl eq_refl)), IH; [reflexivity|].
  intros key Hk. apply H. right. exact Hk.
Qed.

Lemma keepsExercise_agree (m1 m2 : gmap string bool) (t : Template) :
  (forall key, key ∈ equipmentKeys -> hasEquipment m1 key = hasEquipment m2 key) ->
  knownEquipment t = true ->
  keepsExercise t m1 = keepsExercise t m2.
Proof.
  intros H Hknown. unfold keepsExercise, knownEquipment in *.
  destruct (t_equipment t) as [[|eq eqs]|]; try reflexivity.
  apply allAvailable_agree. intros key Hk.
  rewrite forallb_forall in Hknown. apply H.
  apply (bool_decide_eq_true_1 _), Hknown, Hk.
Qed.

Lemma createPlan_agree {host : Host} (start : Z) (d : Q)
    (p1 p2 : Preferences) :
  (forall key, key ∈ equipmentKeys ->
     hasEquipment (pref_equipment p1) key = hasEquipment (pref_equipment p2) key) ->
  days (createPlan start d (Some p1)) = days (createPlan start d (Some p2)).
Proof.
  intros H. unfold createPlan. cbn [days]. apply map_ext. intros i.
  unfold planDay. f_equal. apply map_ext_in. intros t Ht.
  pose proof (catalog_knownEquipment (i mod 7)) as Hknown.
  rewrite forallb_forall in Hknown.
  unfold planExercise, adaptExerciseForEquipment.
  rewrite (keepsExercise_agree _ _ t H (Hknown t Ht)). reflexivity.
Qed.

Lemma Math_abs_small (x : Q) :
  Math_abs x < 1 # 1000 <-> - (1 # 1000) < x < 1 # 1000.
Proof.
  unfold Math_abs. destruct (JS.Qltb x 0) eqn:E.
  - apply Qltb_lt in E. split; [intros H; split | intros [H1 H2]]; lra.
  - apply Qltb_ge in E. split; [intros H; split | intros [H1 H2]]; lra.
Qed.

(** Opening the settings and saving them as displayed changes no plan
    and nothing the generator produces: the dialog marks at most one
    difficulty option, and with the marked option and the displayed
    checkboxes saved, the history is unchanged, every plan generated from
    the new preferences has the same days as one generated from the
    displayed preferences, and the saved difficulty is within 0.001 of the
    displayed one (equal to it when it is one of the three options). *)
Theorem settings_resave_unchanged {host : Host} (user : User) (value : Q) :
  In value difficultyOptions ->
  optionSelected (settingsPrefs user) value = true ->
  let user' := settingsSave user value (checkboxChecked (settingsPrefs user)) in
  plans user' = plans user
  /\ password user' = password user
  /\ (forall other, In other difficultyOptions ->
      optionSelected (settingsPrefs user) other = true -> other = value)
  /\ (forall start d,
      days (createPlan start d (preferences user'))
      = days (createPlan start d (Some (settingsPrefs user))))
  /\ Math_abs (pref_difficulty (settingsPrefs user) - baselineDifficulty user')
     < 1 # 1000
  /\ (In (pref_difficulty (settingsPrefs user)) difficultyOptions ->
      baselineDifficulty user' = pref_difficulty (settingsPrefs user)).
Proof.
  intros Hin Hsel user'.
  apply Qltb_lt, Math_abs_small in Hsel.
  assert (Hbase : baselineDifficulty user' = value).
  { unfold baselineDifficulty, prefsOf, JS.orQ. cbn.
    destruct Hin as [<-|[<-|[<-|[]]]]; reflexivity. }
  split; [reflexivity|]. split; [reflexivity|]. split.
  - intros other Hother Hsel'. apply Qltb_lt, Math_abs_small in Hsel'.
    destruct Hin as [<-|[<-|[<-|[]]]];
      destruct Hother as [<-|[<-|[<-|[]]]]; try reflexivity; lra.
  - split; [|split].
    + intros start d. apply createPlan_agree. intros key Hkey.
      cbn [pref_equipment]. apply saved_equipment. exact Hkey.
    + rewrite Hbase. apply Math_abs_small. exact Hsel.
    + intros Hopt. rewrite Hbase.
      destruct Hin as [<-|[<-|[<-|[]]]];
        destruct Hopt as [E|[E|[E|[]]]]; rewrite <- E in *; try reflexivity; lra.
Qed.

Lemma settings_resave_unchanged_witness :
  optionSelected (settingsPrefs sampleUser) 1 = true
  /\ days (createPlan (host := utcHost) 0 1
             (preferences
                (settingsSave sampleUser 1
                   (checkboxChecked (settingsPrefs sampleUser)))))
     = days (createPlan (host := utcHost) 0 1
               (Some (settingsPrefs sampleUser))).
Proof.
  assert (Hsel : optionSelected (settingsPrefs sampleUser) 1 = true)
    by reflexivity.
  split; [exact Hsel|].
  destruct (settings_resave_unchanged (host := utcHost) sampleUser 1
              ltac:(right; left; reflexivity) Hsel) as (_ & _ & _ & H & _).
  apply H.
Defined.

(** * The service worker *)

Section WorkerProofs.

Import ServiceWorker.

Variable Response : Type.
Variable ok : Response -> bool.

Lemma addAll_lookup (network : string -> option Response) (urls : list string)
    (cache cache' : gmap string Response) :
  addAll Response ok network cache urls = Some cache' ->
  (forall u, In u urls ->
     exists r, network u = Some r /\ ok r = true /\ cache' !! u = Some r)
  /\ (forall u, ~ In u urls -> cache' !! u = cache !! u).
Proof.
  revert cache. induction urls as [|u0 urls IH]; intros cache Hadd.
  - inversion Hadd; subst. split; [intros u [] | reflexivity].
  - cbn [addAll] in Hadd.
    destruct (network u0) as [r0|] eqn:Hn; [|discriminate].
    destruct (ok r0) eqn:Hok; [|discriminate].
    destruct (IH _ Hadd) as [Hin Hout]. split.
    + intros u Hu.
      destruct (in_dec String.string_dec u urls) as [Hu'|Hu']; [exact (Hin u Hu')|].
      destruct Hu as [<-|Hu]; [|contradiction].
      exists r0. rewrite (Hout u0 Hu'), lookup_insert_eq. auto.
    + intros u Hu. rewrite (Hout u); [|intros H; apply Hu; right; exact H].
      apply lookup_insert_ne. intros ->. apply Hu. left. reflexivity.
Qed.

Lemma current_cache_first (caches : CacheStorage Response)
    (cache' : gmap string Response) :
  exists rest,
    activate Response
      (caches_put Response (caches_open Response caches CACHE_NAME).1
         CACHE_NAME cache')
    = (CACHE_NAME, cache') :: rest.
Proof.
  induction caches as [|[k cache] caches IH].
  - exists []. reflexivity.
  - cbn [caches_open].
    destruct (bool_decide (k = CACHE_NAME)) eqn:E.
    + cbn [fst caches_put]. rewrite E. unfold activate. cbn [List.filter fst].
      rewrite E. apply bool_decide_eq_true in E. subst k. eauto.
    + destruct (caches_open Response caches CACHE_NAME) as [rest' found].
      cbn [fst caches_put] in *. rewrite E.
      unfold activate in *. cbn [List.filter fst]. rewrite E. exact IH.
Qed.

(** Offline after an installation: once [install] has succeeded and
    [activate] has run, whatever the network does later, a GET request
    for a core asset is answered with the response fetched at
    installation (never a fresher one), a GET request the network fails
    is answered all the same (with the cached page if nothing else), and
    a request that is not a GET is left to the browser. *)
Theorem serviceWorker_offline (network later : string -> option Response)
    (caches caches1 : CacheStorage Response) :
  install Response ok network caches = (caches1, true) ->
  (forall u, In u CORE_ASSETS ->
     exists r, network u = Some r /\ ok r = true
               /\ onFetch Response later (activate Response caches1)
                    (mkRequest "GET" u) = Some (Some r))
  /\ (forall u, later u = None ->
      exists r, onFetch Response later (activate Response caches1)
                  (mkRequest "GET" u) = Some (Some r))
  /\ (forall m u, m <> "GET" ->
      onFetch Response later (activate Response caches1) (mkRequest m u) = None).
Proof.
  intros Hinst. unfold install in Hinst.
  destruct (caches_open Response caches CACHE_NAME) as [c1 cache] eqn:Hopen.
  destruct (addAll Response ok network cache CORE_ASSETS) as [cache'|] eqn:Hadd;
    [|inversion Hinst].
  inversion Hinst; subst caches1. clear Hinst.
  destruct (current_cache_first caches cache') as [rest Hact].
  rewrite Hopen in Hact. cbn [fst] in Hact. rewrite Hact.
  destruct (addAll_lookup network CORE_ASSETS cache cache' Hadd) as [Hin _].
  assert (Hcore : forall u, In u CORE_ASSETS ->
            exists r, network u = Some r /\ ok r = true
                      /\ caches_match Response ((CACHE_NAME, cache') :: rest) u
                         = Some r).
  { intros u Hu. destruct (Hin u Hu) as (r & Hn & Hok & Hl).
    exists r. cbn [caches_match]. rewrite Hl. auto. }
  split; [|split].
  - intros u Hu. destruct (Hcore u Hu) as (r & Hn & Hok & Hm).
    exists r. unfold onFetch. cbn [method url]. rewrite Hm. auto.
  - intros u Hlater. unfold onFetch. cbn [method url negb String.eqb].
    change (String.eqb "GET" "GET") with true. cbn [negb].
    destruct (caches_match Response ((CACHE_NAME, cache') :: rest) u)
      as [r|]; [eauto|].
    rewrite Hlater.
    destruct (Hcore "./index.html") as (r & _ & _ & Hm);
      [right; left; reflexivity|].
    rewrite Hm. eauto.
  - intros m u Hm. unfold onFetch. cbn [method].
    destruct (String.eqb_spec m "GET"); [contradiction | reflexivity].
Qed.

End WorkerProofs.

Lemma serviceWorker_offline_witness :
  exists caches1,
    ServiceWorker.install string (fun _ => true) (fun u => Some ("body of " +:+ u))
      [("training-planner-cache-v0", {[ "./index.html" := "old page" ]})]
    = (caches1, true)
    /\ ServiceWorker.onFetch string (fun _ => None)
         (ServiceWorker.activate string caches1)
         (ServiceWorker.mkRequest "GET" "./index.html")
       = Some (Some "body of ./index.html").
Proof.
  eexists. split; [reflexivity|].
  destruct (serviceWorker_offline string (fun _ => true)
              (fun u => Some ("body of " +:+ u)) (fun _ => None)
              [("training-planner-cache-v0", {[ "./index.html" := "old page" ]})]
              _ eq_refl) as (H & _).
  destruct (H "./index.html" ltac:(right; left; reflexivity))
    as (r & Hr & _ & Hf).
  inversion Hr; subst r. exact Hf.
Defined.

(** ** Sessions of the page *)

Lemma userKept_refl (user : User) : userKept user user.
Proof. split; [reflexivity|]. split; [lia | eauto]. Qed.

Lemma userKept_trans (u1 u2 u3 : User) :
  userKept u1 u2 -> userKept u2 u3 -> userKept u1 u3.
Proof.
  intros (Hp1 & Hl1 & Hd1) (Hp2 & Hl2 & Hd2).
  split; [congruence|]. split; [lia|].
  intros i p Hp. destruct (Hd1 i p Hp) as (p' & Hp' & Hs & He).
  destruct (Hd2 i p' Hp') as (p'' & Hp'' & Hs' & He').
  exists p''. split; [exact Hp''|]. split; congruence.
Qed.

(** [userKept] looks at the password and the history only. *)
Lemma userKept_same (stored user user' : User) :
  plans stored = plans user -> password stored = password user ->
  userKept user user' -> userKept stored user'.
Proof.
  intros Hplans Hpw (Hp & Hl & Hd). unfold userKept.
  rewrite Hplans, Hpw. auto.
Qed.

Lemma accountsKept_refl (st : Storage) : accountsKept st st.
Proof. intros name user Hu. exists user. split; [exact Hu | apply userKept_refl]. Qed.

Lemma accountsKept_trans (st1 st2 st3 : Storage) :
  accountsKept st1 st2 -> accountsKept st2 st3 -> accountsKept st1 st3.
Proof.
  intros H12 H23 name user Hu.
  destruct (H12 name user Hu) as (u2 & Hu2 & Hk2).
  destruct (H23 name u2 Hu2) as (u3 & Hu3 & Hk3).
  exists u3. split; [exact Hu3 | exact (userKept_trans _ _ _ Hk2 Hk3)].
Qed.

Lemma accountsKept_same (st st' : Storage) :
  getUsers st' = getUsers st -> accountsKept st st'.
Proof.
  intros E name user Hu. exists user. rewrite E.
  split; [exact Hu | apply userKept_refl].
Qed.

(** One account is written; it keeps the account it replaces, if any. *)
Lemma accountsKept_insert (st st' : Storage) (name : string) (new : User) :
  getUsers st' = <[name := new]> (getUsers st) ->
  (forall old, getUsers st !! name = Some old -> userKept old new) ->
  accountsKept st st'.
Proof.
  intros E Hkept n user Hu. rewrite E.
  destruct (decide (n = name)) as [->|Hne].
  - exists new. split; [apply lookup_insert_eq | exact (Hkept user Hu)].
  - exists user. rewrite lookup_insert_ne by congruence.
    split; [exact Hu | apply userKept_refl].
Qed.

Lemma userKept_renderApp {host : Host} (user : User) (now : Z) :
  userKept user (renderApp user now).1.
Proof.
  destruct (renderApp_shape user now) as (Hpw & _ & Hshape & _).
  split; [exact Hpw|].
  destruct Hshape as [-> | [-> _]].
  - split; [lia | eauto].
  - rewrite length_app. split; [lia|].
    intros i p Hp. exists p. split; [|auto].
    rewrite lookup_app_l by (eapply lookup_lt_Some; exact Hp). exact Hp.
Qed.

Lemma userKept_update {host : Host} (user user' : User)
    (planRef dayIndex : nat) (completedArray : list JS.value) (fb : string) :
  updateDayCompletion user planRef dayIndex completedArray fb = Some user' ->
  userKept user user'.
Proof.
  intros Hupd.
  destruct (updateDayCompletion_shape _ _ _ _ _ _ Hupd)
    as (plan & plan' & Hplan & Hs & He & Hpw & _ & Hshape).
  pose proof (lookup_lt_Some _ _ _ Hplan) as Hr.
  assert (Hins : forall i p, plans user !! i = Some p ->
            exists p', <[planRef := plan']> (plans user) !! i = Some p'
                       /\ startDate p' = startDate p /\ endDate p' = endDate p).
  { intros i p Hp. destruct (decide (i = planRef)) as [->|Hne].
    - exists plan'. rewrite list_lookup_insert_eq by exact Hr.
      rewrite Hplan in Hp. inversion Hp; subst p. auto.
    - exists p. rewrite list_lookup_insert_ne by congruence. auto. }
  split; [exact Hpw|].
  destruct Hshape as [-> | ->].
  - rewrite length_insert. split; [lia | exact Hins].
  - rewrite length_app, length_insert. split; [lia|].
    intros i p Hp. destruct (Hins i p Hp) as (p' & Hp' & Hd).
    exists p'. split; [|exact Hd].
    rewrite lookup_app_l; [exact Hp'|].
    rewrite length_insert. eapply lookup_lt_Some. exact Hp.
Qed.

Lemma userKept_settings (user : User) (value : Q) (checked : string -> bool) :
  userKept user (settingsSave user value checked).
Proof. split; [reflexivity|]. split; [cbn; lia | cbn; eauto]. Qed.

(** The three outcomes of [renderApp()]. *)
Lemma renderScreen_result {host : Host} (st : Storage) (now : Z) :
  (exists user,
      getUsers st !! default "null" (currentUser st) = Some user
      /\ (renderScreen st now).2 = AppScreen (renderApp user now).1
      /\ getUsers (renderScreen st now).1
         = <[default "null" (currentUser st) := (renderApp user now).1]>
             (getUsers st)
      /\ currentUser (renderScreen st now).1 = currentUser st)
  \/ renderScreen st now = (st, TypeErrorScreen)
  \/ renderScreen st now = (logout st, AuthScreen).
Proof.
  unfold renderScreen, usersGet.
  set (name := default "null" (currentUser st)).
  destruct (getUsers st !! name) as [user|] eqn:Hu.
  - left. exists user. split; [reflexivity|]. unfold renderApp.
    destruct (getCurrentPlan user now) as [plan|]; cbn [fst snd].
    + split; [reflexivity|].
      split; [symmetry; apply insert_id; exact Hu | reflexivity].
    + split; [reflexivity|]. split; reflexivity.
  - destruct (bool_decide (name ∈ inheritedKeys)); auto.
Qed.

Lemma init_result {host : Host} (st : Storage) (now : Z) :
  init st now = (st, AuthScreen)
  \/ exists name, currentUser st = Some name /\ name <> ""
                  /\ init st now = renderScreen st now.
Proof.
  unfold init. destruct (currentUser st) as [name|]; [|auto].
  destruct (isEmpty name) eqn:E; [auto|].
  right. exists name. apply isEmpty_false in E. auto.
Qed.

Lemma login_result {host : Host} (st : Storage) (name pass : string) (now : Z) :
  (login st name pass now).1 = (st, AuthScreen)
  \/ name <> ""
     /\ (login st name pass now).1 = renderScreen (setCurrentUser st name) now.
Proof.
  unfold login.
  destruct (isEmpty name || isEmpty pass) eqn:E; [auto|].
  apply orb_false_iff in E as [En _]. apply isEmpty_false in En.
  destruct (usersGet (getUsers st) name) as [| |user]; [auto..|].
  destruct (bool_decide (password user = pass)); [|auto].
  right. split; [exact En|]. cbn [fst].
  apply (init_current (setCurrentUser st name) now name eq_refl En).
Qed.

Lemma register_result {host : Host} (st : Storage) (name pass : string)
    (now : Z) :
  (register st name pass now).1 = (st, AuthScreen)
  \/ name <> "" /\ getUsers st !! name = None
     /\ (register st name pass now).1
        = renderScreen
            (setCurrentUser
               (saveUsers st (<[name := newUser pass]> (getUsers st))) name)
            now.
Proof.
  unfold register.
  destruct (isEmpty name || isEmpty pass) eqn:E; [auto|].
  apply orb_false_iff in E as [En _]. apply isEmpty_false in En.
  cbv zeta. unfold usersGet.
  destruct (getUsers st !! name) as [user|] eqn:Hu; [auto|].
  destruct (bool_decide (name ∈ inheritedKeys)); [auto|].
  right. split; [exact En|]. split; [reflexivity|]. cbn [fst].
  apply (init_current
           (setCurrentUser
              (saveUsers st (<[name := newUser pass]> (getUsers st))) name)
           now name eq_refl En).
Qed.

(** *** The accounts are kept *)

Lemma renderScreen_kept {host : Host} (st : Storage) (now : Z) :
  accountsKept st (renderScreen st now).1.
Proof.
  destruct (renderScreen_result st now) as [(user & Hu & _ & Hget & _) | [-> | ->]].
  - apply (accountsKept_insert _ _ _ _ Hget).
    intros old Hold. rewrite Hu in Hold. inversion Hold; subst old.
    apply userKept_renderApp.
  - apply accountsKept_refl.
  - apply accountsKept_same. reflexivity.
Qed.

Lemma init_kept {host : Host} (st : Storage) (now : Z) :
  accountsKept st (init st now).1.
Proof.
  destruct (init_result st now) as [-> | (name & _ & _ & ->)];
    [apply accountsKept_refl | apply renderScreen_kept].
Qed.

Lemma login_kept {host : Host} (st : Storage) (name pass : string) (now : Z) :
  accountsKept st (login st name pass now).1.1.
Proof.
  destruct (login_result st name pass now) as [-> | [_ ->]];
    [apply accountsKept_refl|].
  apply (accountsKept_trans _ (setCurrentUser st name));
    [apply accountsKept_same; reflexivity | apply renderScreen_kept].
Qed.

Lemma register_kept {host : Host} (st : Storage) (name pass : string)
    (now : Z) :
  accountsKept st (register st name pass now).1.1.
Proof.
  destruct (register_result st name pass now) as [-> | (_ & Hfree & ->)];
    [apply accountsKept_refl|].
  eapply accountsKept_trans; [|apply renderScreen_kept].
  apply (accountsKept_insert _ _ name (newUser pass)); [reflexivity|].
  intros old Hold. congruence.
Qed.

Lemma saveAndRender_kept {host : Host} (st : Storage) (user stored : User)
    (name : string) (now : Z) :
  currentUser st = Some name -> name <> "" ->
  getUsers st !! name = Some stored ->
  userKept stored user ->
  accountsKept st (storage (saveAndRender st user now)).
Proof.
  intros Hc Hne Hs Hk. unfold saveAndRender. rewrite Hc.
  apply isEmpty_false in Hne. rewrite Hne. cbn [pageOf storage].
  eapply accountsKept_trans; [|apply renderScreen_kept].
  apply (accountsKept_insert _ _ name user); [reflexivity|].
  intros old Hold. rewrite Hs in Hold. inversion Hold; subst old. exact Hk.
Qed.

Lemma settingsClick_kept (st st' : Storage) (value : Q)
    (checked : string -> bool) :
  settingsClick st value checked = Some st' -> accountsKept st st'.
Proof.
  unfold settingsClick, usersGet.
  set (name := default "null" (currentUser st)).
  destruct (getUsers st !! name) as [user|] eqn:Hu;
    [|destruct (bool_decide _); discriminate].
  intros H. inversion H; subst st'.
  apply (accountsKept_insert _ _ name (settingsSave user value checked));
    [reflexivity|].
  intros old Hold. rewrite Hu in Hold. inversion Hold; subst old.
  apply userKept_settings.
Qed.

(** *** The calendar shows the stored account *)

Lemma renderScreen_shown {host : Host} (st : Storage) (now : Z)
    (name : string) :
  currentUser st = Some name -> name <> "" ->
  shownIsStored (pageOf (renderScreen st now)).
Proof.
  intros Hc Hne.
  destruct (renderScreen_result st now)
    as [(user & Hu & Hscr & Hget & Hcur) | [-> | ->]];
    [|exact I..].
  unfold shownIsStored, pageOf. cbn [screen storage]. rewrite Hscr.
  rewrite Hc in Hget, Hcur. cbn [default from_option id] in Hget.
  exists name, (renderApp user now).1.
  split; [exact Hcur|]. split; [exact Hne|].
  split; [rewrite Hget; apply lookup_insert_eq | auto].
Qed.

Lemma init_shown {host : Host} (st : Storage) (now : Z) :
  shownIsStored (pageOf (init st now)).
Proof.
  destruct (init_result st now) as [-> | (name & Hc & Hne & ->)];
    [exact I | exact (renderScreen_shown st now name Hc Hne)].
Qed.

Lemma step_shown_kept {host : Host} (page page' : Page) (ev : Event) :
  shownIsStored page ->
  step page ev = Some page' ->
  shownIsStored page' /\ accountsKept (storage page) (storage page').
Proof.
  intros Hshown Hstep. destruct page as [st scr].
  unfold shownIsStored in Hshown. cbn [screen storage] in *.
  destruct ev as [now | name pass now | name pass now | | dayIndex inputs fb now
                 | dayIndex fb now | value checked]; cbn [step screen storage] in Hstep.
  - inversion Hstep; subst page'. split; [apply init_shown | apply init_kept].
  - destruct scr; try discriminate. inversion Hstep; subst page'.
    split; [|apply login_kept].
    destruct (login_result st name pass now) as [-> | [Hne ->]];
      [exact I
      | exact (renderScreen_shown (setCurrentUser st name) now name eq_refl Hne)].
  - destruct scr; try discriminate. inversion Hstep; subst page'.
    split; [|apply register_kept].
    destruct (register_result st name pass now) as [-> | (Hne & _ & ->)];
      [exact I|].
    exact (renderScreen_shown
             (setCurrentUser
                (saveUsers st (<[name := newUser pass]> (getUsers st))) name)
             now name eq_refl Hne).
  - destruct scr; try discriminate; inversion Hstep; subst page';
      (split; [exact I | apply accountsKept_same; reflexivity]).
  - destruct scr as [user| |]; try discriminate.
    destruct (updateDayCompletion user _ dayIndex _ fb) as [user'|] eqn:Hupd;
      [|discriminate].
    cbn in Hstep. inversion Hstep; subst page'.
    destruct Hshown as (name & stored & Hc & Hne & Hs & Hplans & Hpw).
    split.
    + unfold saveAndRender. apply (renderScreen_shown _ now name); assumption.
    + apply (saveAndRender_kept st user' stored name now Hc Hne Hs).
      apply (userKept_same stored user user' Hplans Hpw).
      exact (userKept_update _ _ _ _ _ _ Hupd).
  - destruct scr as [user| |]; try discriminate.
    destruct (skipDay user _ dayIndex fb) as [user'|] eqn:Hskip;
      [|discriminate].
    cbn in Hstep. inversion Hstep; subst page'.
    destruct (skipDay_is_update _ _ _ _ _ Hskip) as (ca & fb' & _ & Hupd).
    destruct Hshown as (name & stored & Hc & Hne & Hs & Hplans & Hpw).
    split.
    + unfold saveAndRender. apply (renderScreen_shown _ now name); assumption.
    + apply (saveAndRender_kept st user' stored name now Hc Hne Hs).
      apply (userKept_same stored user user' Hplans Hpw).
      exact (userKept_update _ _ _ _ _ _ Hupd).
  - destruct scr as [user| |]; try discriminate.
    destruct (settingsClick st value checked) as [st'|] eqn:Hset;
      [|discriminate].
    cbn in Hstep. inversion Hstep; subst page'. cbn [storage screen].
    split; [|exact (settingsClick_kept _ _ _ _ Hset)].
    destruct Hshown as (name & stored & Hc & Hne & Hs & Hplans & Hpw).
    unfold settingsClick, usersGet in Hset. rewrite Hc in Hset.
    cbn [default from_option id] in Hset. rewrite Hs in Hset.
    inversion Hset; subst st'.
    unfold shownIsStored. cbn [screen storage].
    exists name, (settingsSave stored value checked).
    split; [exact Hc|]. split; [exact Hne|].
    split; [apply lookup_insert_eq | auto].
Qed.

(** Through any session of the page (loads, logins, registrations,
    logouts, days saved or skipped, settings changed, at whatever
    instants and in whatever zone) no account is ever removed: every
    account of the storage keeps its password, its history never gets
    shorter, and every plan of it keeps its dates; and the calendar, when
    it is shown, shows the history and the password of the stored
    account of the current user. *)
Theorem auth_session_keeps_accounts {host : Host} (events : list Event)
    (page page' : Page) :
  shownIsStored page ->
  run page events = Some page' ->
  shownIsStored page' /\ accountsKept (storage page) (storage page').
Proof.
  revert page. induction events as [|ev events IH]; intros page Hshown Hrun.
  - inversion Hrun; subst page'. split; [exact Hshown | apply accountsKept_refl].
  - cbn [run] in Hrun.
    destruct (step page ev) as [page1|] eqn:Hstep; [|discriminate].
    cbn in Hrun.
    destruct (step_shown_kept _ _ _ Hshown Hstep) as [Hs1 Hk1].
    destruct (IH page1 Hs1 Hrun) as [Hs Hk].
    split; [exact Hs | exact (accountsKept_trans _ _ _ Hk1 Hk)].
Qed.

Lemma auth_session_keeps_accounts_witness :
  run (host := utcHost) blankPage sampleSession = Some sampleSessionEnd
  /\ shownIsStored sampleSessionEnd
  /\ accountsKept (storage blankPage) (storage sampleSessionEnd).
Proof.
  assert (Hrun : run (host := utcHost) blankPage sampleSession
                 = Some sampleSessionEnd) by (vm_compute; reflexivity).
  split; [exact Hrun|].
  exact (auth_session_keeps_accounts (host := utcHost) sampleSession blankPage
           sampleSessionEnd I Hrun).
Defined.

(** *** Every history stays well formed *)

Section PageInvariant.

Context {host : Host} (P : User -> Prop).

Hypothesis P_new : forall pass, P (newUser pass).
Hypothesis P_render : forall user now, P user -> P (renderApp user now).1.
Hypothesis P_update :
  forall user user' dayIndex completedArray fb,
    numbersOnly completedArray -> P user ->
    updateDayCompletion user (length (plans user) - 1) dayIndex
      completedArray fb = Some user' ->
    P user'.
Hypothesis P_settings :
  forall user value checked, P user -> P (settingsSave user value checked).

Lemma insert_every (users : gmap string User) (name : string) (new : User) :
  (forall n user, users !! n = Some user -> P user) -> P new ->
  forall n user, <[name := new]> users !! n = Some user -> P user.
Proof.
  intros Hall Hnew n user Hn. destruct (decide (n = name)) as [->|Hne].
  - rewrite lookup_insert_eq in Hn. inversion Hn; subst user. exact Hnew.
  - rewrite lookup_insert_ne in Hn by congruence. exact (Hall n user Hn).
Qed.

Lemma renderScreen_every (st : Storage) (now : Z) :
  (forall name user, getUsers st !! name = Some user -> P user) ->
  everyUser P (pageOf (renderScreen st now)).
Proof.
  intros Hall. unfold everyUser, pageOf. cbn [storage screen].
  destruct (renderScreen_result st now)
    as [(user & Hu & Hscr & Hget & _) | [-> | ->]].
  - rewrite Hscr, Hget.
    pose proof (P_render user now (Hall _ _ Hu)) as Hnew.
    split; [apply insert_every; assumption | exact Hnew].
  - split; [exact Hall | exact I].
  - split; [exact Hall | exact I].
Qed.

Lemma init_every (st : Storage) (now : Z) :
  (forall name user, getUsers st !! name = Some user -> P user) ->
  everyUser P (pageOf (init st now)).
Proof.
  intros Hall.
  destruct (init_result st now) as [-> | (name & _ & _ & ->)];
    [split; [exact Hall | exact I] | apply renderScreen_every; exact Hall].
Qed.

Lemma step_every (page page' : Page) (ev : Event) :
  everyUser P page -> step page ev = Some page' -> everyUser P page'.
Proof.
  intros [Hall Hscr] Hstep. destruct page as [st scr].
  cbn [screen storage] in *.
  destruct ev as [now | name pass now | name pass now | | dayIndex inputs fb now
                 | dayIndex fb now | value checked]; cbn [step screen storage] in Hstep.
  - inversion Hstep; subst page'. apply init_every. exact Hall.
  - destruct scr; try discriminate. inversion Hstep; subst page'.
    destruct (login_result st name pass now) as [-> | [_ ->]];
      [split; [exact Hall | exact I]|].
    apply renderScreen_every. exact Hall.
  - destruct scr; try discriminate. inversion Hstep; subst page'.
    destruct (register_result st name pass now) as [-> | (_ & _ & ->)];
      [split; [exact Hall | exact I]|].
    apply renderScreen_every. apply insert_every; [exact Hall | apply P_new].
  - destruct scr; try discriminate; inversion Hstep; subst page';
      (split; [exact Hall | exact I]).
  - destruct scr as [user| |]; try discriminate.
    destruct (updateDayCompletion user _ dayIndex _ fb) as [user'|] eqn:Hupd;
      [|discriminate].
    cbn in Hstep. inversion Hstep; subst page'.
    pose proof (P_update _ _ _ _ _ (completedTasks_numbers inputs) Hscr Hupd)
      as Hnew.
    unfold saveAndRender. apply renderScreen_every.
    destruct (currentUser st) as [username|]; [|exact Hall].
    destruct (isEmpty username); [exact Hall|].
    apply insert_every; assumption.
  - destruct scr as [user| |]; try discriminate.
    destruct (skipDay user _ dayIndex fb) as [user'|] eqn:Hskip;
      [|discriminate].
    cbn in Hstep. inversion Hstep; subst page'.
    destruct (skipDay_is_update _ _ _ _ _ Hskip) as (ca & fb' & Hnum & Hupd).
    pose proof (P_update _ _ _ _ _ Hnum Hscr Hupd) as Hnew.
    unfold saveAndRender. apply renderScreen_every.
    destruct (currentUser st) as [username|]; [|exact Hall].
    destruct (isEmpty username); [exact Hall|].
    apply insert_every; assumption.
  - destruct scr as [user| |]; try discriminate.
    destruct (settingsClick st value checked) as [st'|] eqn:Hset;
      [|discriminate].
    cbn in Hstep. inversion Hstep; subst page'.
    split; [|exact Hscr]. cbn [storage].
    unfold settingsClick, usersGet in Hset.
    set (name := default "null" (currentUser st)) in Hset.
    destruct (getUsers st !! name) as [stored|] eqn:Hs;
      [|destruct (bool_decide _); discriminate].
    inversion Hset; subst st'.
    apply insert_every; [exact Hall|].
    apply P_settings. exact (Hall _ _ Hs).
Qed.

Lemma run_every (events : list Event) (page page' : Page) :
  everyUser P page -> run page events = Some page' -> everyUser P page'.
Proof.
  revert page. induction events as [|ev events IH]; intros page Hall Hrun.
  - inversion Hrun; subst page'. exact Hall.
  - cbn [run] in Hrun.
    destruct (step page ev) as [page1|] eqn:Hstep; [|discriminate].
    cbn in Hrun. exact (IH page1 (step_every _ _ _ Hall Hstep) Hrun).
Qed.

End PageInvariant.

(** Through any session of the page, whatever the user types, saves,
    skips or changes in the settings, at whatever instants and in
    whatever zone: every history, stored or shown, stays well formed
    (every plan has 30 days, every target is positive, every completed
    value is a non-negative number, every cached completion is in
    [0,1]); and in a zone whose offsets differ by at most a day, no plan
    ever starts before the end date of the plan before it. *)
Theorem session_keeps_history_wellformed {host : Host} (events : list Event)
    (page page' : Page) :
  goodPage page ->
  run page events = Some page' ->
  goodPage page'
  /\ (offsetsWithinADay -> orderedPage page -> orderedPage page').
Proof.
  intros Hgood Hrun. split.
  - apply (run_every goodUser) with (events := events) (page := page);
      try assumption.
    + intros pass. constructor.
    + intros user now. apply renderApp_shape.
    + intros user user' dayIndex completedArray fb Hnum Hg Hupd.
      exact (updateDayCompletion_good _ _ _ _ _ _ Hnum Hg Hupd).
    + intros user value checked Hg. exact Hg.
  - intros Hz Hord.
    apply (run_every (fun user => orderedHistory (plans user)))
      with (events := events) (page := page); try assumption.
    + intros pass i p q Hp. inversion Hp.
    + intros user now Ho.
      destruct (renderApp_shape user now) as (_ & _ & [-> | [-> Hprev]] & _);
        [exact Ho | apply ordered_snoc; assumption].
    + intros user user' dayIndex completedArray fb _ Ho Hupd.
      exact (updateDayCompletion_last_ordered _ _ _ _ _ Hz Ho Hupd).
    + intros user value checked Ho. exact Ho.
Qed.

Lemma blankPage_good : goodPage blankPage.
Proof. split; [intros name user H; inversion H | exact I]. Qed.

Lemma session_keeps_history_wellformed_witness :
  goodPage blankPage
  /\ run (host := utcHost) blankPage sampleSession = Some sampleSessionEnd
  /\ goodPage sampleSessionEnd.
Proof.
  assert (Hrun : run (host := utcHost) blankPage sampleSession
                 = Some sampleSessionEnd) by (vm_compute; reflexivity).
  split; [exact blankPage_good|]. split; [exact Hrun|].
  exact (proj1 (session_keeps_history_wellformed (host := utcHost)
                  sampleSession blankPage sampleSessionEnd
                  blankPage_good Hrun)).
Defined.

(** What the sample session leaves: one account, two plans (the first
    recorded to its last day), the settings as changed, and the calendar
    of the third plan, generated at the login 80 days later. *)
Example sampleSession_end :
  currentUser (storage sampleSessionEnd) = Some "ana"
  /\ (fun user => (length (plans user), pref_difficulty <$> preferences user))
     <$> getUsers (storage sampleSessionEnd) !! "ana"
     = Some (3%nat, Some (12 # 10)).
Proof. split; vm_compute; reflexivity. Qed.

(** A change of the settings is written to the storage, but the calendar
    is not rendered again and the handlers of its day dialog keep the
    user object they read before: the next day saved from that calendar
    writes that object over the account, with the preferences it had.  A
    page load between the two keeps the change. *)
Theorem settings_lost_on_next_save {host : Host} (page page1 page2 : Page)
    (user : User) (value : Q) (checked : string -> bool) (dayIndex : nat)
    (inputs : list string) (fb : string) (now : Z) :
  shownIsStored page ->
  screen page = AppScreen user ->
  step page (SettingsClick value checked) = Some page1 ->
  step page1 (SaveClick dayIndex inputs fb now) = Some page2 ->
  exists name changed stored,
    currentUser (storage page2) = Some name
    /\ getUsers (storage page1) !! name = Some changed
    /\ pref_difficulty <$> preferences changed = Some value
    /\ getUsers (storage page2) !! name = Some stored
    /\ preferences stored = preferences user
    /\ screen page2 = AppScreen stored.
Proof.
  intros Hshown Hscr Hset Hsave. destruct page as [st scr].
  cbn [screen] in Hscr. subst scr.
  destruct Hshown as (name & old & Hc & Hne & Hold & _ & _).
  cbn [storage] in *.
  cbn [step screen storage] in Hset.
  unfold settingsClick, usersGet in Hset. rewrite Hc in Hset.
  cbn [default from_option id] in Hset. rewrite Hold in Hset.
  cbn in Hset. inversion Hset; subst page1. clear Hset.
  cbn [step screen storage] in Hsave.
  destruct (updateDayCompletion user _ dayIndex _ fb) as [user'|] eqn:Hupd;
    [|discriminate].
  cbn in Hsave. inversion Hsave; subst page2. clear Hsave.
  destruct (updateDayCompletion_shape _ _ _ _ _ _ Hupd)
    as (_ & _ & _ & _ & _ & _ & Hprefs & _).
  unfold saveAndRender. cbn [currentUser saveUsers].
  rewrite Hc. apply isEmpty_false in Hne as En. rewrite En.
  set (st1 := saveUsers _ _).
  assert (Hc1 : currentUser st1 = Some name) by exact Hc.
  assert (Hu1 : getUsers st1 !! name = Some user') by apply lookup_insert_eq.
  destruct (renderScreen_own st1 now name user' Hc1 Hu1) as (Hs & Hget & Hcur).
  destruct (renderApp_shape user' now) as (_ & Hp & _).
  exists name, (settingsSave old value checked), (renderApp user' now).1.
  cbn [pageOf storage screen].
  split; [exact Hcur|]. split; [apply lookup_insert_eq|].
  split; [reflexivity|].
  split; [rewrite Hget; apply lookup_insert_eq|].
  split; [congruence | exact Hs].
Qed.

Lemma registeredPage_shown : shownIsStored registeredPage.
Proof.
  exists "ana", ((renderApp (host := utcHost) (newUser "pw") (noonOf jan1_2024)).1).
  repeat split; try reflexivity. discriminate.
Qed.

Lemma settings_lost_on_next_save_witness :
  shownIsStored registeredPage
  /\ exists name changed stored,
       currentUser (storage savedAfterSettingsPage) = Some name
       /\ getUsers (storage settingsChangedPage) !! name = Some changed
       /\ pref_difficulty <$> preferences changed = Some (12 # 10)
       /\ getUsers (storage savedAfterSettingsPage) !! name = Some stored
       /\ preferences stored = Some fullPreferences
       /\ screen savedAfterSettingsPage = AppScreen stored.
Proof.
  split; [exact registeredPage_shown|].
  refine (settings_lost_on_next_save (host := utcHost) registeredPage
            settingsChangedPage savedAfterSettingsPage
            (renderApp (host := utcHost) (newUser "pw") (noonOf jan1_2024)).1
            (12 # 10) (fun _ => false) 0%nat ["20"] "" (noonOf jan1_2024)
            registeredPage_shown _ _ _); vm_compute; reflexivity.
Defined.

(** ** The ratio grows with what is completed *)

Lemma contributions_monotone (ex1 ex2 : Exercise) :
  atLeastAsDone ex1 ex2 ->
  totalContribution ex1 == totalContribution ex2
  /\ doneContribution ex1 <= doneContribution ex2.
Proof.
  intros (Hu & Ht & c1 & c2 & Hc1 & Hc2 & Hle).
  unfold totalContribution, doneContribution. rewrite Hc1, Hc2, <- Hu.
  destruct (ex_unit ex1);
    try (split; [exact Ht|];
         destruct (Q.min_spec c1 (ex_target ex1)) as [[? ->]|[? ->]];
         destruct (Q.min_spec c2 (ex_target ex2)) as [[? ->]|[? ->]]; lra).
  split; [reflexivity|].
  destruct (JS.Qltb 0 c1) eqn:E1; destruct (JS.Qltb 0 c2) eqn:E2; try lra.
  apply Qltb_lt in E1. apply Qltb_ge in E2. lra.
Qed.

Lemma sums_monotone (exs1 exs2 : list Exercise) :
  Forall2 atLeastAsDone exs1 exs2 ->
  Qsum (map totalContribution exs1) == Qsum (map totalContribution exs2)
  /\ Qsum (map doneContribution exs1) <= Qsum (map doneContribution exs2).
Proof.
  induction 1 as [|ex1 ex2 l1 l2 Hex _ IH]; simpl; [split; lra|].
  destruct (contributions_monotone ex1 ex2 Hex) as [Ht Hd].
  destruct IH as [IHt IHd]. split; [rewrite Ht, IHt; reflexivity | lra].
Qed.

(** Completing more never lowers the completion ratio: between two
    recordings of the same exercises (positive targets, non-negative
    completed values), the one with at least as much completed on every
    exercise has at least the same ratio. *)
Theorem completion_ratio_monotone (day1 day2 : Day) :
  Forall goodExercise (exercises day1) ->
  Forall goodExercise (exercises day2) ->
  Forall2 atLeastAsDone (exercises day1) (exercises day2) ->
  calculateDayCompletion day1 <= calculateDayCompletion day2.
Proof.
  intros Hg1 Hg2 Hrel.
  destruct (exercises day1) as [|e1 l1] eqn:E1.
  - apply Forall2_nil_inv_l in Hrel. unfold calculateDayCompletion.
    rewrite E1, Hrel. lra.
  - assert (Hne1 : exercises day1 <> []) by (rewrite E1; discriminate).
    assert (Hne2 : exercises day2 <> []).
    { inversion Hrel as [|? ? ? ? ? ? E2]; subst. discriminate. }
    rewrite <- E1 in *.
    rewrite (good_ratio_value day1 Hg1 Hne1), (good_ratio_value day2 Hg2 Hne2).
    destruct (sums_monotone _ _ Hrel) as [Ht Hd].
    destruct (good_sum_bounds _ Hg2) as [_ Hpos]. specialize (Hpos Hne2).
    rewrite Ht. unfold Qdiv. apply Qmult_le_compat_r; [exact Hd|].
    apply Qlt_le_weak, Qinv_lt_0_compat, Hpos.
Qed.

Lemma completion_ratio_monotone_witness :
  calculateDayCompletion
    {| exercises := [mkExercise "Plank" 10 Sec "" (Some []) (JS.Num 3)];
       feedback := ""; completion := 0 |}
  <= calculateDayCompletion
       {| exercises := [mkExercise "Plank" 10 Sec "" (Some []) (JS.Num 8)];
          feedback := ""; completion := 0 |}.
Proof.
  apply completion_ratio_monotone.
  - constructor; [|constructor]. split; [reflexivity|].
    exists 3. split; [reflexivity | lra].
  - constructor; [|constructor]. split; [reflexivity|].
    exists 8. split; [reflexivity | lra].
  - constructor; [|constructor]. split; [reflexivity|].
    split; [reflexivity|]. exists 3, 8. repeat split. lra.
Defined.
